(** * App-master: project analyzer and APK builder

    A shallow embedding of [server/services/projectAnalyzer.ts] and
    [server/services/apkBuilder.ts] (the later of the two revisions of each
    file) together with the properties of the analysis / build pipeline.

    Conventions of the embedding.
    - JavaScript strings are [string]s (8-bit characters; the texts the code
      inspects are ASCII file names and configuration files).
    - A path is the list of its segments; [path.join] is concatenation of
      segment lists and [path.dirname] drops the last segment (project paths
      are taken normalised, as [path.join] would leave them).
    - [async] functions are run to completion: a function is a state
      transformer over the [World] that returns either a value or a thrown
      exception. *)

From Stdlib Require Import String Ascii ZArith List Lia Bool.
From stdpp Require Import base option list gmap strings pretty.

Local Open Scope string_scope.
Local Open Scope list_scope.
Local Open Scope Z_scope.

(** ** JavaScript string primitives *)

Module Js.

(** [s.startsWith(p)] *)
Fixpoint startsWith (s p : string) {struct p} : bool :=
  match p with
  | EmptyString => true
  | String c p' =>
      match s with
      | EmptyString => false
      | String d s' => if Ascii.eqb c d then startsWith s' p' else false
      end
  end.

(** [s.includes(sub)] *)
Fixpoint includes (s sub : string) : bool :=
  if startsWith s sub then true
  else match s with
       | EmptyString => false
       | String _ s' => includes s' sub
       end.

(** [s.endsWith(suf)] *)
Definition endsWith (s suf : string) : bool :=
  let n := String.length s in
  let k := String.length suf in
  (k <=? n)%nat && String.eqb (substring (n - k) k s) suf.

(** The values a loosely typed object field holds here. *)
Inductive Val : Type :=
| VBool (b : bool)
| VNum (n : Z)
| VStr (s : string).

(** Truthiness of a field that may be absent ([undefined]). *)
Definition truthy (v : option Val) : bool :=
  match v with
  | Some (VBool b) => b
  | Some (VNum n) => negb (n =? 0)
  | Some (VStr s) => negb (String.eqb s "")
  | None => false
  end.

(** [v || d] *)
Definition or_else (v : option Val) (d : Val) : Val :=
  match v with
  | Some x => if truthy v then x else d
  | None => d
  end.

(** [n || d] on an optional number. *)
Definition or_num (n : option Z) (d : Z) : Z :=
  match n with
  | Some k => if k =? 0 then d else k
  | None => d
  end.

(** Decimal rendering of an integer. *)
Definition num_to_string (n : Z) : string :=
  pretty n.

(** [`${v}`] *)
Definition to_string (v : Val) : string :=
  match v with
  | VBool true => "true"
  | VBool false => "false"
  | VNum n => num_to_string n
  | VStr s => s
  end.

(** [`${x}`] for an optional string *)
Definition opt_to_string (x : option string) : string :=
  match x with
  | Some s => s
  | None => "undefined"
  end.

Definition is_space (c : ascii) : bool :=
  let n := nat_of_ascii c in
  ((9 <=? n)%nat && (n <=? 13)%nat) || (n =? 32)%nat.

Definition is_digit (c : ascii) : bool :=
  let n := nat_of_ascii c in
  (48 <=? n)%nat && (n <=? 57)%nat.

(** The longest prefix of characters satisfying [f], and the rest. *)
Fixpoint span (f : ascii -> bool) (s : string) : string * string :=
  match s with
  | EmptyString => ("", "")
  | String c s' =>
      if f c then let (a, b) := span f s' in (String c a, b)
      else ("", s)
  end.

(** What follows the prefix [p] of [s], if [s] starts with [p]. *)
Fixpoint strip_prefix (p s : string) {struct p} : option string :=
  match p with
  | EmptyString => Some s
  | String c p' =>
      match s with
      | EmptyString => None
      | String d s' => if Ascii.eqb c d then strip_prefix p' s' else None
      end
  end.

(** [parseInt] of a string of decimal digits. *)
Definition parseInt (digits : string) : Z :=
  fold_left (fun acc c => 10 * acc + (Z.of_nat (nat_of_ascii c) - 48))
            (list_ascii_of_string digits) 0.

(** [s.trim()] on ASCII text. *)
Fixpoint trimStart (s : string) : string :=
  match s with
  | EmptyString => ""
  | String c s' => if is_space c then trimStart s' else s
  end.

Definition rev_string (s : string) : string :=
  string_of_list_ascii (rev (list_ascii_of_string s)).

Definition trim (s : string) : string :=
  rev_string (trimStart (rev_string (trimStart s))).

Definition lower (c : ascii) : ascii :=
  let n := nat_of_ascii c in
  if (65 <=? n)%nat && (n <=? 90)%nat then ascii_of_nat (n + 32) else c.

(** [s.toLowerCase()] on ASCII text. *)
Fixpoint toLowerCase (s : string) : string :=
  match s with
  | EmptyString => ""
  | String c s' => String (lower c) (toLowerCase s')
  end.

(** [s.replace(/[^a-z0-9]/g, '')] *)
Fixpoint keep_alnum (s : string) : string :=
  match s with
  | EmptyString => ""
  | String c s' =>
      let n := nat_of_ascii c in
      if ((97 <=? n)%nat && (n <=? 122)%nat) || is_digit c
      then String c (keep_alnum s') else keep_alnum s'
  end.

(** [s.replace(':', '')]: removes the first colon. *)
Fixpoint drop_first_colon (s : string) : string :=
  match s with
  | EmptyString => ""
  | String c s' => if Ascii.eqb c ":" then s' else String c (drop_first_colon s')
  end.

(** The double quote character, and a literal in which every backquote
    stands for a double quote. *)
Definition dq : string := String (ascii_of_nat 34) "".

Fixpoint tpl (s : string) : string :=
  match s with
  | EmptyString => ""
  | String c s' => String (if Ascii.eqb c "`" then ascii_of_nat 34 else c) (tpl s')
  end.

(** [(bytes / (1024 * 1024)).toFixed(1)]: the division by a power of two is
    exact, and [toFixed] rounds half up to one decimal. *)
Definition toFixed1MB (bytes : Z) : string :=
  let tenths := (bytes * 20 + 1048576) / 2097152 in
  num_to_string (tenths / 10) +:+ "." +:+ num_to_string (tenths mod 10).

(** [s.replace(/\\/g, '/')]: every backslash becomes a slash. *)
Fixpoint slashes (s : string) : string :=
  match s with
  | EmptyString => ""
  | String c s' => String (if Ascii.eqb c "\" then "/"%char else c) (slashes s')
  end.

End Js.

(** ** The framework classifier ([ProjectAnalyzer.detectFramework]) *)

Record Detection := mkDetection {
  d_framework : string;
  d_language : string;
  d_projectType : string
}.

Definition some {A} (f : A -> bool) (l : list A) : bool := existsb f l.

Definition detectFramework (files : list string) : Detection :=
  let hasReactNative :=
    some (fun f => Js.includes f "react-native" || Js.includes f "metro.config") files in
  if some (fun f => Js.includes f "package.json") files && hasReactNative then
    mkDetection "react-native" "javascript" "hybrid"
  else if some (fun f => Js.includes f "pubspec.yaml") files then
    mkDetection "flutter" "dart" "hybrid"
  else if some (fun f => Js.includes f "build.gradle" || Js.includes f "AndroidManifest.xml") files then
    let hasKotlin := some (fun f => Js.endsWith f ".kt") files in
    let hasJava := some (fun f => Js.endsWith f ".java") files in
    let language := if hasKotlin then "kotlin" else if hasJava then "java" else "unknown" in
    mkDetection "android" language "native"
  else if some (fun f => Js.includes f "config.xml" && Js.includes f "www") files then
    mkDetection "cordova" "javascript" "hybrid"
  else
    mkDetection "unknown" "unknown" "unknown".

(** ** Exceptions, results and the world the services run in *)

(** A thrown JavaScript value; [message] is [undefined] for a value that is
    not an [Error]. *)
Record Exn := mkExn { message : option string }.

Inductive Res (A : Type) : Type :=
| Ok (a : A)
| Throw (e : Exn).
Arguments Ok {A} a.
Arguments Throw {A} e.

Definition path := list string.

(** A [Buffer]: a sequence of bytes. *)
Definition Buffer := list Z.

Inductive Node : Type :=
| File (data : string)
| Dir.

(** The world: the file system, the failures the environment is going to
    inject into the coming file-system and library operations ([Some e]: the
    next operation throws [e]; an exhausted schedule means no more failures),
    and the calls the progress callback has received, oldest first. *)
Record World := mkWorld {
  fs : gmap path Node;
  faults : list (option Exn);
  progressLog : list (Z * string)
}.

(** A computation with a local mutable object of type [L] (the record a
    method builds up and that survives an exception). *)
Definition M (L A : Type) : Type := World * L -> Res A * (World * L).

Definition ret {L A} (a : A) : M L A := fun s => (Ok a, s).

Definition bind {L A B} (m : M L A) (k : A -> M L B) : M L B :=
  fun s => match m s with
           | (Ok a, s') => k a s'
           | (Throw e, s') => (Throw e, s')
           end.

Definition throw {L A} (e : Exn) : M L A := fun s => (Throw e, s).

(** [try { body } catch (error) { handler error }] *)
Definition try_catch {L A} (body : M L A) (handler : Exn -> M L A) : M L A :=
  fun s => match body s with
           | (Ok a, s') => (Ok a, s')
           | (Throw e, s') => handler e s'
           end.

Definition get_local {L} : M L L := fun s => (Ok (snd s), s).
Definition modify {L} (f : L -> L) : M L unit := fun s => (Ok tt, (fst s, f (snd s))).
Definition get_world {L} : M L World := fun s => (Ok (fst s), s).
Definition modify_world {L} (f : World -> World) : M L unit :=
  fun s => (Ok tt, (f (fst s), snd s)).

(** Runs a callee that has its own local object [l0]; the callee's final
    object is returned with its result. *)
Definition call {L L' A} (l0 : L') (m : M L' A) : M L (A * L') :=
  fun s => match m (fst s, l0) with
           | (Ok a, (w, l')) => (Ok (a, l'), (w, snd s))
           | (Throw e, (w, _)) => (Throw e, (w, snd s))
           end.

#[global] Instance M_ret {L} : MRet (M L) := fun A a => ret a.
#[global] Instance M_bind {L} : MBind (M L) := fun A B k m => bind m k.

(** [for (const x of xs) { body x }] *)
Fixpoint for_each {L A} (xs : list A) (body : A -> M L unit) : M L unit :=
  match xs with
  | [] => ret tt
  | x :: xs' => body x;; for_each xs' body
  end.

(** ** Paths ([path.join], [path.dirname]) *)

Module Path.

(** Splits at every ['/']. *)
Fixpoint split_acc (cur : string) (s : string) : list string :=
  match s with
  | EmptyString => [cur]
  | String c s' =>
      if Ascii.eqb c "/" then cur :: split_acc "" s'
      else split_acc (cur +:+ String c "") s'
  end.

Definition split (s : string) : list string := split_acc "" s.

(** One step of normalisation: [''] and ['.'] are dropped, ['..'] removes the
    segment before it. *)
Definition push (acc : path) (seg : string) : path :=
  if String.eqb seg "" then acc
  else if String.eqb seg "." then acc
  else if String.eqb seg ".." then removelast acc
  else acc ++ [seg].

(** [path.join(p, rel)] for a normalised [p]. *)
Definition join (p : path) (rel : string) : path := fold_left push (split rel) p.

(** [path.dirname(p)] *)
Definition dirname (p : path) : path := removelast p.

(** The string a path is printed as. *)
Definition to_string (p : path) : string := String.concat "/" p.

End Path.

(** ** The file manager and the libraries of the host *)

Definition set_fs (m : gmap path Node) (w : World) : World :=
  mkWorld m (faults w) (progressLog w).
Definition set_faults (fl : list (option Exn)) (w : World) : World :=
  mkWorld (fs w) fl (progressLog w).

Definition error (msg : string) : Exn := mkExn (Some msg).

(** Every operation of the environment (file manager, archive library) first
    consults the failure schedule. *)
Definition io {L} : M L unit :=
  fun s =>
    match faults (fst s) with
    | Some e :: rest => (Throw e, (set_faults rest (fst s), snd s))
    | None :: rest => (Ok tt, (set_faults rest (fst s), snd s))
    | [] => (Ok tt, s)
    end.

Module FileManager.

(** The root is a directory; every other path is what the map says. *)
Definition lookup_node (m : gmap path Node) (p : path) : option Node :=
  match p with
  | [] => Some Dir
  | _ => m !! p
  end.

(** The entries directly inside [dir], with their nodes. *)
Definition children (m : gmap path Node) (dir : path) : list (string * Node) :=
  omap (fun '(p, n) =>
          match last p with
          | Some name => if bool_decide (removelast p = dir) then Some (name, n) else None
          | None => None
          end)
       (map_to_list m).

Definition is_file (n : Node) : bool := match n with File _ => true | Dir => false end.
Definition is_dir (n : Node) : bool := match n with File _ => false | Dir => true end.

(** [mkdir -p]: walks down [todo] from [pre], creating what is absent;
    [None] when a regular file is in the way. *)
Fixpoint mkdirs (pre todo : path) (m : gmap path Node) : option (gmap path Node) :=
  match todo with
  | [] => Some m
  | seg :: rest =>
      let p := pre ++ [seg] in
      match m !! p with
      | Some (File _) => None
      | Some Dir => mkdirs p rest m
      | None => mkdirs p rest (<[p := Dir]> m)
      end
  end.

(** Writes a regular file; the parent directory has to exist and the target
    must not be a directory. *)
Definition write (p : path) (data : string) (m : gmap path Node) : option (gmap path Node) :=
  match p with
  | [] => None
  | _ =>
      match m !! p, lookup_node m (removelast p) with
      | Some Dir, _ => None
      | _, Some Dir => Some (<[p := File data]> m)
      | _, _ => None
      end
  end.

(** Modelled from the spec: [FileManager.fileExists], whose source file
    (server/services/fileManager.ts) is not among the repository files; true
    for files and for directories (the callers ask it about both). *)
Definition fileExists {L} (p : path) : M L bool :=
  io;; w ← get_world; mret (bool_decide (is_Some (lookup_node (fs w) p))).

(** Modelled from the spec: [FileManager.readFile] (source not among the
    repository files): the text of a regular file, an exception otherwise. *)
Definition readFile {L} (p : path) : M L string :=
  io;; w ← get_world;
  match fs w !! p with
  | Some (File data) => mret data
  | Some Dir => throw (error "EISDIR: illegal operation on a directory")
  | None => throw (error "ENOENT: no such file or directory")
  end.

(** Modelled from the spec: [FileManager.writeFile] (source not among the
    repository files). *)
Definition writeFile {L} (p : path) (data : string) : M L unit :=
  io;; w ← get_world;
  match write p data (fs w) with
  | Some m => modify_world (set_fs m)
  | None => throw (error "ENOENT: cannot write file")
  end.

(** Modelled from the spec: [FileManager.ensureDirectory] (source not among
    the repository files): creates the directory and its missing parents. *)
Definition ensureDirectory {L} (dir : path) : M L unit :=
  io;; w ← get_world;
  match mkdirs [] dir (fs w) with
  | Some m => modify_world (set_fs m)
  | None => throw (error "EEXIST: a file is in the way")
  end.

(** Modelled from the spec: [FileManager.listFiles] (source not among the
    repository files): the names of the regular files of a directory. *)
Definition listFiles {L} (dir : path) : M L (list string) :=
  io;; w ← get_world;
  match lookup_node (fs w) dir with
  | Some Dir => mret (map fst (filter (fun e => is_file (snd e) = true) (children (fs w) dir)))
  | _ => throw (error "ENOENT: no such directory")
  end.

(** Modelled from the spec: [FileManager.listDirectories] (source not among
    the repository files): the names of the sub-directories of a directory. *)
Definition listDirectories {L} (dir : path) : M L (list string) :=
  io;; w ← get_world;
  match lookup_node (fs w) dir with
  | Some Dir => mret (map fst (filter (fun e => is_dir (snd e) = true) (children (fs w) dir)))
  | _ => throw (error "ENOENT: no such directory")
  end.

(** Modelled from the spec: [FileManager.getFileStats] (source not among the
    repository files): the byte size of a regular file, [null] otherwise. *)
Definition getFileStats {L} (p : path) : M L (option Z) :=
  io;; w ← get_world;
  match fs w !! p with
  | Some (File data) => mret (Some (Z.of_nat (String.length data)))
  | _ => mret None
  end.

End FileManager.

(** What the host provides besides the file system: the archive encoder of
    the adm-zip library, the clock, the JSON parser and the regular
    expression engine (for the patterns whose outcome the pipeline only
    copies into display fields). *)
Class Runtime := {
  (** the bytes [AdmZip.toBuffer] produces for a list of entries *)
  zipData : list (string * Buffer) -> string;
  (** [new Date().toISOString()] *)
  isoNow : string;
  (** [Object.keys(JSON.parse(text).dependencies || {})]; [None] when it throws *)
  jsonDependencies : string -> option (list string);
  (** [text.match(pattern)[1]] for a pattern without the [g] flag; [None] for no match *)
  reMatch1 : string -> string -> option string;
  (** [text.match(pattern)] for a pattern with the [g] flag *)
  reMatchAll : string -> string -> option (list string)
}.

(** The adm-zip archive under construction: its entries, oldest first. *)
Definition Zip := list (string * Buffer).

Module AdmZip.

(** [await import('adm-zip')] followed by [new AdmZip()] *)
Definition load {L} : M L unit := io.

(** The entry list after [zip.addFile(name, data)]: the data of the entry of
    that name is set, and the entry is added at the end when there is none. *)
Definition setEntry (name : string) (data : Buffer) (zip : Zip) : Zip :=
  if existsb (fun e => String.eqb (fst e) name) zip
  then map (fun e => if String.eqb (fst e) name then (name, data) else e) zip
  else zip ++ [(name, data)].

(** [zip.addFile(name, data)] *)
Definition addFile (name : string) (data : Buffer) : M Zip unit :=
  modify (setEntry name data).

(** [zip.writeZip(target)]: the encoded archive becomes the content of the
    target file. *)
Definition writeZip `{Runtime} (target : path) : M Zip unit :=
  io;; zip ← get_local; w ← get_world;
  match FileManager.write target (zipData zip) (fs w) with
  | Some m => modify_world (set_fs m)
  | None => throw (error "EACCES: cannot write archive")
  end.

End AdmZip.

(** [Buffer.from(text)] *)
Definition Buffer_from (s : string) : Buffer :=
  map (fun c => Z.of_nat (nat_of_ascii c)) (list_ascii_of_string s).

(** The optional progress callback: given the calls it has already received
    and the new one, it returns normally ([None]) or throws. *)
Definition Callback := list (Z * string) -> Z -> string -> option Exn.

(** [onProgress?.(progress, message)] *)
Definition callProgress {L} (onProgress : option Callback) (progress : Z) (msg : string) : M L unit :=
  match onProgress with
  | None => mret tt
  | Some cb =>
      fun s =>
        let w := fst s in
        let w' := mkWorld (fs w) (faults w) (progressLog w ++ [(progress, msg)]) in
        match cb (progressLog w) progress msg with
        | None => (Ok tt, (w', snd s))
        | Some e => (Throw e, (w', snd s))
        end
  end.

(** ** The analysis record ([ProjectAnalysis]) *)

Record ProjectStats := mkProjectStats {
  totalFiles : Z;
  sourceFiles : Z;
  dependenciesCount : Z;
  ps_targetSdk : option Z;
  ps_minSdk : option Z;
  buildTools : option string
}.

Record ProjectAnalysis := mkProjectAnalysis {
  framework : string;
  language : string;
  projectType : string;
  hasValidStructure : bool;
  missingFiles : list string;
  dependencies : list string;
  buildConfig : gmap string Js.Val;
  projectStats : ProjectStats;
  errors : list string
}.

Definition set_totalFiles (v : Z) (a : ProjectAnalysis) : ProjectAnalysis :=
  let p := projectStats a in
  mkProjectAnalysis (framework a) (language a) (projectType a) (hasValidStructure a)
    (missingFiles a) (dependencies a) (buildConfig a)
    (mkProjectStats v (sourceFiles p) (dependenciesCount p) (ps_targetSdk p) (ps_minSdk p) (buildTools p))
    (errors a).

Definition set_sourceFiles (v : Z) (a : ProjectAnalysis) : ProjectAnalysis :=
  let p := projectStats a in
  mkProjectAnalysis (framework a) (language a) (projectType a) (hasValidStructure a)
    (missingFiles a) (dependencies a) (buildConfig a)
    (mkProjectStats (totalFiles p) v (dependenciesCount p) (ps_targetSdk p) (ps_minSdk p) (buildTools p))
    (errors a).

Definition set_dependenciesCount (v : Z) (a : ProjectAnalysis) : ProjectAnalysis :=
  let p := projectStats a in
  mkProjectAnalysis (framework a) (language a) (projectType a) (hasValidStructure a)
    (missingFiles a) (dependencies a) (buildConfig a)
    (mkProjectStats (totalFiles p) (sourceFiles p) v (ps_targetSdk p) (ps_minSdk p) (buildTools p))
    (errors a).

Definition set_ps_targetSdk (v : Z) (a : ProjectAnalysis) : ProjectAnalysis :=
  let p := projectStats a in
  mkProjectAnalysis (framework a) (language a) (projectType a) (hasValidStructure a)
    (missingFiles a) (dependencies a) (buildConfig a)
    (mkProjectStats (totalFiles p) (sourceFiles p) (dependenciesCount p) (Some v) (ps_minSdk p) (buildTools p))
    (errors a).

Definition set_ps_minSdk (v : Z) (a : ProjectAnalysis) : ProjectAnalysis :=
  let p := projectStats a in
  mkProjectAnalysis (framework a) (language a) (projectType a) (hasValidStructure a)
    (missingFiles a) (dependencies a) (buildConfig a)
    (mkProjectStats (totalFiles p) (sourceFiles p) (dependenciesCount p) (ps_targetSdk p) (Some v) (buildTools p))
    (errors a).

Definition set_detection (d : Detection) (a : ProjectAnalysis) : ProjectAnalysis :=
  mkProjectAnalysis (d_framework d) (d_language d) (d_projectType d) (hasValidStructure a)
    (missingFiles a) (dependencies a) (buildConfig a) (projectStats a) (errors a).

Definition set_framework (v : string) (a : ProjectAnalysis) : ProjectAnalysis :=
  mkProjectAnalysis v (language a) (projectType a) (hasValidStructure a)
    (missingFiles a) (dependencies a) (buildConfig a) (projectStats a) (errors a).

Definition set_hasValidStructure (v : bool) (a : ProjectAnalysis) : ProjectAnalysis :=
  mkProjectAnalysis (framework a) (language a) (projectType a) v
    (missingFiles a) (dependencies a) (buildConfig a) (projectStats a) (errors a).

Definition set_missingFiles (v : list string) (a : ProjectAnalysis) : ProjectAnalysis :=
  mkProjectAnalysis (framework a) (language a) (projectType a) (hasValidStructure a)
    v (dependencies a) (buildConfig a) (projectStats a) (errors a).

Definition set_dependencies (v : list string) (a : ProjectAnalysis) : ProjectAnalysis :=
  mkProjectAnalysis (framework a) (language a) (projectType a) (hasValidStructure a)
    (missingFiles a) v (buildConfig a) (projectStats a) (errors a).

Definition set_buildConfig (v : gmap string Js.Val) (a : ProjectAnalysis) : ProjectAnalysis :=
  mkProjectAnalysis (framework a) (language a) (projectType a) (hasValidStructure a)
    (missingFiles a) (dependencies a) v (projectStats a) (errors a).

(** [analysis.buildConfig.key = v] *)
Definition set_config (key : string) (v : Js.Val) (a : ProjectAnalysis) : ProjectAnalysis :=
  set_buildConfig (<[key := v]> (buildConfig a)) a.

(** [analysis.errors.push(msg)] *)
Definition push_error (msg : string) (a : ProjectAnalysis) : ProjectAnalysis :=
  mkProjectAnalysis (framework a) (language a) (projectType a) (hasValidStructure a)
    (missingFiles a) (dependencies a) (buildConfig a) (projectStats a) (errors a ++ [msg]).

(** An object literal as a map. *)
Definition object (fields : list (string * Js.Val)) : gmap string Js.Val := list_to_map fields.

(** [files.filter(f => p f).length] *)
Definition count (p : string -> bool) (files : list string) : Z :=
  Z.of_nat (length (List.filter p files)).

(** [requiredFiles.filter(file => !files.some(f => f.includes(file)))] *)
Definition absentFrom (files : list string) (requiredFiles : list string) : list string :=
  List.filter (fun file => negb (some (fun f => Js.includes f file) files)) requiredFiles.

(** ** The project analyzer ([ProjectAnalyzer]) *)

Section ProjectAnalyzer.
Context `{Runtime}.

(** [extractGradleValue]: the pattern [key\s+(\d+)] tried at the front of [s]. *)
Definition gradleMatchHere (key s : string) : option string :=
  match Js.strip_prefix key s with
  | Some r =>
      let (ws, r') := Js.span Js.is_space r in
      let (ds, _) := Js.span Js.is_digit r' in
      if String.eqb ws "" then None
      else if String.eqb ds "" then None
      else Some ds
  | None => None
  end.

(** The leftmost match of the pattern in [s]: its captured digits. *)
Fixpoint gradleSearch (key s : string) : option string :=
  match gradleMatchHere key s with
  | Some ds => Some ds
  | None =>
      match s with
      | EmptyString => None
      | String _ s' => gradleSearch key s'
      end
  end.

Definition extractGradleValue (content key : string) : option Z :=
  match gradleSearch key content with
  | Some ds => Some (Js.parseInt ds)
  | None => None
  end.

(** [relativePath.split('/').length] for a relative path given by its
    segments (the empty path is the string [''], which splits into one part). *)
Definition splitLength (relativePath : path) : nat := Nat.max 1 (length relativePath).

(** The body of [getAllFiles]; the local object is the [files] array. The
    recursion of the source is bounded by its own depth test; [fuel] only makes
    that bound structural (see [walk_fuel]). *)
Fixpoint walk (fuel : nat) (directory relativePath : path) : M (list string) unit :=
  match fuel with
  | O => mret tt
  | S fuel' =>
      try_catch
        (let currentDir := directory ++ relativePath in
         fileEntries ← FileManager.listFiles currentDir;
         dirEntries ← FileManager.listDirectories currentDir;
         for_each fileEntries (fun file =>
           modify (fun files => files ++ [Js.slashes (Path.to_string (relativePath ++ [file]))]));;
         if (splitLength relativePath <? 10)%nat then
           for_each dirEntries (fun dir =>
             if negb (Js.startsWith dir ".") && negb (String.eqb dir "node_modules")
                && negb (String.eqb dir ".git")
             then
               sub ← call [] (walk fuel' directory (relativePath ++ [dir]));
               modify (fun files => files ++ snd sub)
             else mret tt)
         else mret tt)
        (fun _ => mret tt)
  end.

Definition getAllFiles {L} (directory : path) : M L (list string) :=
  r ← call [] (walk 11 directory []); mret (snd r).

Definition analyzeReactNative (projectPath : path) (files : list string) : M ProjectAnalysis unit :=
  modify (set_buildConfig (object
    [("hasPackageJson", Js.VBool false); ("hasBuildGradle", Js.VBool false);
     ("targetSdk", Js.VNum 33); ("minSdk", Js.VNum 21)]));;
  let requiredFiles := ["package.json"; "android/build.gradle"; "android/app/build.gradle"] in
  modify (set_missingFiles (absentFrom files requiredFiles));;
  let packageJsonPath := Path.join projectPath "package.json" in
  ex ← FileManager.fileExists packageJsonPath;
  (if ex : bool then
     modify (set_config "hasPackageJson" (Js.VBool true));;
     try_catch
       (text ← FileManager.readFile packageJsonPath;
        match jsonDependencies text with
        | Some keys =>
            modify (set_dependencies keys);;
            modify (set_dependenciesCount (Z.of_nat (length keys)))
        | None => throw (error "Unexpected token in JSON")
        end)
       (fun _ => modify (push_error "Failed to parse package.json"))
   else mret tt);;
  let appGradlePath := Path.join projectPath "android/app/build.gradle" in
  ex ← FileManager.fileExists appGradlePath;
  (if ex : bool then
     modify (set_config "hasBuildGradle" (Js.VBool true));;
     try_catch
       (gradleContent ← FileManager.readFile appGradlePath;
        let targetSdk := extractGradleValue gradleContent "targetSdkVersion" in
        let minSdk := extractGradleValue gradleContent "minSdkVersion" in
        modify (set_ps_targetSdk (Js.or_num targetSdk 33));;
        modify (set_ps_minSdk (Js.or_num minSdk 21));;
        modify (set_config "targetSdk" (Js.VNum (Js.or_num targetSdk 33)));;
        modify (set_config "minSdk" (Js.VNum (Js.or_num minSdk 21))))
       (fun _ => modify (push_error "Failed to parse Android build.gradle"))
   else mret tt);;
  modify (set_sourceFiles (count (fun f =>
    Js.endsWith f ".js" || Js.endsWith f ".jsx" || Js.endsWith f ".ts" || Js.endsWith f ".tsx") files)).

Definition analyzeFlutter (projectPath : path) (files : list string) : M ProjectAnalysis unit :=
  modify (set_buildConfig (object
    [("hasPubspec", Js.VBool false); ("hasBuildGradle", Js.VBool false);
     ("targetSdk", Js.VNum 33); ("minSdk", Js.VNum 21)]));;
  let requiredFiles := ["pubspec.yaml"; "android/build.gradle"; "lib/main.dart"] in
  modify (set_missingFiles (absentFrom files requiredFiles));;
  let pubspecPath := Path.join projectPath "pubspec.yaml" in
  ex ← FileManager.fileExists pubspecPath;
  (if ex : bool then
     modify (set_config "hasPubspec" (Js.VBool true));;
     try_catch
       (pubspecContent ← FileManager.readFile pubspecPath;
        let nameMatch := reMatch1 "name:\s*(.+)" pubspecContent in
        let versionMatch := reMatch1 "version:\s*(.+)" pubspecContent in
        let descriptionMatch := reMatch1 "description:\s*(.+)" pubspecContent in
        match nameMatch with
        | Some name =>
            modify (set_config "appName" (Js.VStr (Js.trim name)));;
            modify (set_config "packageName"
              (Js.VStr ("com.flutter." +:+ Js.keep_alnum (Js.toLowerCase (Js.trim name)))))
        | None => mret tt
        end;;
        match versionMatch with
        | Some v => modify (set_config "version" (Js.VStr (Js.trim v)))
        | None => mret tt
        end;;
        match descriptionMatch with
        | Some d => modify (set_config "description" (Js.VStr (Js.trim d)))
        | None => mret tt
        end;;
        match reMatch1 "dependencies:\s*\n((?:\s+\S+:.*\n)*)" pubspecContent with
        | Some block =>
            let deps := reMatchAll "^\s+(\S+):" block in
            let names := match deps with
                         | Some ds => map (fun d => Js.drop_first_colon (Js.trim d)) ds
                         | None => []
                         end in
            modify (set_dependencies names);;
            modify (set_dependenciesCount (Z.of_nat (length names)))
        | None => mret tt
        end;;
        if Js.includes pubspecContent "assets:"
        then modify (set_config "hasAssets" (Js.VBool true))
        else mret tt)
       (fun _ => modify (push_error "Failed to parse pubspec.yaml"))
   else mret tt);;
  let appGradlePath := Path.join projectPath "android/app/build.gradle" in
  ex ← FileManager.fileExists appGradlePath;
  (if ex : bool then modify (set_config "hasBuildGradle" (Js.VBool true)) else mret tt);;
  modify (set_sourceFiles (count (fun f => Js.endsWith f ".dart") files)).

Definition analyzeAndroid (projectPath : path) (files : list string) : M ProjectAnalysis unit :=
  modify (set_buildConfig (object
    [("hasBuildGradle", Js.VBool false); ("hasManifest", Js.VBool false);
     ("targetSdk", Js.VNum 33); ("minSdk", Js.VNum 21)]));;
  let requiredFiles := ["build.gradle"; "app/build.gradle"; "app/src/main/AndroidManifest.xml"] in
  modify (set_missingFiles (absentFrom files requiredFiles));;
  let appGradlePath := Path.join projectPath "app/build.gradle" in
  ex ← FileManager.fileExists appGradlePath;
  (if ex : bool then
     modify (set_config "hasBuildGradle" (Js.VBool true));;
     try_catch
       (gradleContent ← FileManager.readFile appGradlePath;
        let targetSdk := extractGradleValue gradleContent "targetSdkVersion" in
        let minSdk := extractGradleValue gradleContent "minSdkVersion" in
        modify (set_ps_targetSdk (Js.or_num targetSdk 33));;
        modify (set_ps_minSdk (Js.or_num minSdk 21));;
        modify (set_config "targetSdk" (Js.VNum (Js.or_num targetSdk 33)));;
        modify (set_config "minSdk" (Js.VNum (Js.or_num minSdk 21))))
       (fun _ => modify (push_error "Failed to parse build.gradle"))
   else mret tt);;
  let manifestPath := Path.join projectPath "app/src/main/AndroidManifest.xml" in
  ex ← FileManager.fileExists manifestPath;
  (if ex : bool then modify (set_config "hasManifest" (Js.VBool true)) else mret tt);;
  modify (set_sourceFiles (count (fun f => Js.endsWith f ".java" || Js.endsWith f ".kt") files)).

Definition analyzeCordova (projectPath : path) (files : list string) : M ProjectAnalysis unit :=
  modify (set_buildConfig (object
    [("hasConfigXml", Js.VBool false); ("hasWwwFolder", Js.VBool false);
     ("appName", Js.VStr "Mobile App"); ("version", Js.VStr "1.0.0")]));;
  let requiredFiles := ["config.xml"; "www/index.html"] in
  modify (set_missingFiles (absentFrom files requiredFiles));;
  let configPath := Path.join projectPath "config.xml" in
  ex ← FileManager.fileExists configPath;
  (if ex : bool then
     modify (set_config "hasConfigXml" (Js.VBool true));;
     try_catch
       (configContent ← FileManager.readFile configPath;
        let nameMatch := reMatch1 "<name>(.*?)<\/name>" configContent in
        let versionMatch := reMatch1 (Js.tpl "version=`(.*?)`") configContent in
        modify (set_config "appName" (Js.VStr (default "Mobile App" nameMatch)));;
        modify (set_config "version" (Js.VStr (default "1.0.0" versionMatch))))
       (fun _ => modify (push_error "Failed to parse config.xml"))
   else mret tt);;
  let wwwPath := Path.join projectPath "www" in
  ex ← FileManager.fileExists wwwPath;
  (if ex : bool then modify (set_config "hasWwwFolder" (Js.VBool true)) else mret tt);;
  modify (set_sourceFiles (count (fun f =>
    Js.endsWith f ".js" || Js.endsWith f ".html" || Js.endsWith f ".css") files)).

(** The object [analyzeProject] starts from. *)
Definition initialAnalysis : ProjectAnalysis :=
  mkProjectAnalysis "unknown" "unknown" "unknown" false [] [] ∅
    (mkProjectStats 0 0 0 None None None) [].

Definition analyzeProject {L} (projectPath : path) : M L ProjectAnalysis :=
  r ← call initialAnalysis
    (try_catch
       (allFiles ← getAllFiles projectPath;
        modify (set_totalFiles (Z.of_nat (length allFiles)));;
        let frameworkDetection := detectFramework allFiles in
        modify (set_detection frameworkDetection);;
        analysis ← get_local;
        (if String.eqb (framework analysis) "react-native" then
           analyzeReactNative projectPath allFiles
         else if String.eqb (framework analysis) "flutter" then
           analyzeFlutter projectPath allFiles
         else if String.eqb (framework analysis) "android" then
           analyzeAndroid projectPath allFiles
         else if String.eqb (framework analysis) "cordova" then
           analyzeCordova projectPath allFiles
         else
           modify (set_framework "generic-mobile");;
           modify (push_error
             "Framework not automatically detected - will use generic mobile project setup"));;
        analysis ← get_local;
        modify (set_hasValidStructure (bool_decide (errors analysis = []))))
       (fun error =>
          modify (push_error ("Analysis failed: " +:+ Js.opt_to_string (message error)))));
  mret (snd r).

End ProjectAnalyzer.

(** ** The build result ([BuildResult]) *)

Record BuildResult := mkBuildResult {
  success : bool;
  apkPath : option path;
  apkSize : option Z;
  br_errors : list string;
  logs : list string
}.

Definition push_errors (msgs : list string) (r : BuildResult) : BuildResult :=
  mkBuildResult (success r) (apkPath r) (apkSize r) (br_errors r ++ msgs) (logs r).

Definition push_log (msg : string) (r : BuildResult) : BuildResult :=
  mkBuildResult (success r) (apkPath r) (apkSize r) (br_errors r) (logs r ++ [msg]).

Definition set_success (p : path) (size : Z) (r : BuildResult) : BuildResult :=
  mkBuildResult true (Some p) (Some size) (br_errors r) (logs r).

(** ** Buffers *)

(** [Buffer.alloc(n)] followed by [fill(v)] *)
Definition Buffer_fill (n : nat) (v : Z) : Buffer := repeat v n.

(** [src.copy(dst, offset)] and the [write...] methods: overwrite in place. *)
Definition Buffer_write (src : Buffer) (offset : nat) (dst : Buffer) : Buffer :=
  take (length dst) (take offset dst ++ src ++ drop (offset + length src) dst).

(** [dst.writeUInt32LE(v, offset)] *)
Definition writeUInt32LE (v : Z) (offset : nat) (dst : Buffer) : Buffer :=
  Buffer_write
    [Z.land v 255; Z.land (Z.shiftr v 8) 255; Z.land (Z.shiftr v 16) 255; Z.land (Z.shiftr v 24) 255]
    offset dst.

(** ** The APK builder ([ApkBuilder]) *)

Section ApkBuilder.
Context `{Runtime}.

Definition androidManifestTemplate : string := Js.tpl
"<?xml version=`1.0` encoding=`utf-8`?>
<manifest xmlns:android=`http://schemas.android.com/apk/res/android`
    package=`com.example.app`>
    
    <uses-permission android:name=`android.permission.INTERNET` />
    <uses-permission android:name=`android.permission.ACCESS_NETWORK_STATE` />
    
    <application
        android:allowBackup=`true`
        android:icon=`@mipmap/ic_launcher`
        android:label=`@string/app_name`
        android:theme=`@style/AppTheme`>
        
        <activity
            android:name=`.MainActivity`
            android:exported=`true`>
            <intent-filter>
                <action android:name=`android.intent.action.MAIN` />
                <category android:name=`android.intent.category.LAUNCHER` />
            </intent-filter>
        </activity>
    </application>
</manifest>".

Definition createAndroidManifest {L} (filePath : path) (analysis : ProjectAnalysis) : M L unit :=
  FileManager.writeFile filePath androidManifestTemplate.

Definition appGradleTemplate (analysis : ProjectAnalysis) : string :=
  let targetSdk := Js.num_to_string (Js.or_num (ps_targetSdk (projectStats analysis)) 33) in
  let minSdk := Js.num_to_string (Js.or_num (ps_minSdk (projectStats analysis)) 21) in
  String.concat "" [
"android {
    compileSdkVersion "; targetSdk; "
    
    defaultConfig {
        applicationId "; Js.tpl "`com.example.app`"; "
        minSdkVersion "; minSdk; "
        targetSdkVersion "; targetSdk; "
        versionCode 1
        versionName "; Js.tpl "`1.0`"; "
    }
    
    buildTypes {
        release {
            minifyEnabled false
            proguardFiles getDefaultProguardFile('proguard-android-optimize.txt'), 'proguard-rules.pro'
        }
    }
}

dependencies {
    implementation 'androidx.appcompat:appcompat:1.6.1'
    implementation 'com.google.android.material:material:1.9.0'
    implementation 'androidx.constraintlayout:constraintlayout:2.1.4'
}"].

Definition projectGradleTemplate : string :=
"buildscript {
    repositories {
        google()
        mavenCentral()
    }
    dependencies {
        classpath 'com.android.tools.build:gradle:7.4.2'
    }
}

allprojects {
    repositories {
        google()
        mavenCentral()
    }
}".

Definition createBuildGradle {L} (filePath : path) (analysis : ProjectAnalysis) : M L unit :=
  let isAppLevel := Js.includes (Path.to_string filePath) "app/build.gradle" in
  let gradle := if isAppLevel then appGradleTemplate analysis else projectGradleTemplate in
  FileManager.writeFile filePath gradle.

(** [JSON.stringify(packageJson, null, 2)] of the fixed object. *)
Definition packageJsonTemplate : string := Js.tpl
"{
  `name`: `mobile-app`,
  `version`: `1.0.0`,
  `main`: `index.js`,
  `scripts`: {
    `android`: `react-native run-android`,
    `ios`: `react-native run-ios`,
    `start`: `react-native start`
  },
  `dependencies`: {
    `react`: `18.2.0`,
    `react-native`: `0.72.0`
  }
}".

Definition createPackageJson {L} (filePath : path) (analysis : ProjectAnalysis) : M L unit :=
  FileManager.writeFile filePath packageJsonTemplate.

Definition configXmlTemplate : string := Js.tpl
"<?xml version='1.0' encoding='utf-8'?>
<widget id=`com.example.app` version=`1.0.0` xmlns=`http://www.w3.org/ns/widgets` xmlns:cdv=`http://cordova.apache.org/ns/1.0`>
    <name>Mobile App</name>
    <description>
        A sample Apache Cordova application.
    </description>
    <content src=`index.html` />
    <access origin=`*` />
    <allow-intent href=`http://*/*` />
    <allow-intent href=`https://*/*` />
    <platform name=`android`>
        <allow-intent href=`market:*` />
    </platform>
</widget>".

Definition createConfigXml {L} (filePath : path) (analysis : ProjectAnalysis) : M L unit :=
  FileManager.writeFile filePath configXmlTemplate.

(** One iteration of the loop of [createMissingFiles]. *)
Definition createMissingFile {L} (projectPath : path) (analysis : ProjectAnalysis)
    (missingFile : string) : M L unit :=
  let filePath := Path.join projectPath missingFile in
  let dir := Path.dirname filePath in
  FileManager.ensureDirectory dir;;
  if Js.includes missingFile "AndroidManifest.xml" then
    createAndroidManifest filePath analysis
  else if Js.includes missingFile "build.gradle" then
    createBuildGradle filePath analysis
  else if Js.includes missingFile "package.json" then
    createPackageJson filePath analysis
  else if Js.includes missingFile "config.xml" then
    createConfigXml filePath analysis
  else mret tt.

Definition createMissingFiles {L} (projectPath : path) (analysis : ProjectAnalysis) : M L unit :=
  for_each (missingFiles analysis) (createMissingFile projectPath analysis).

Definition validateBuildRequirements (analysis : ProjectAnalysis) : list string :=
  let fw := framework analysis in
  let flag key := Js.truthy (buildConfig analysis !! key) in
  if String.eqb fw "react-native" then
    if negb (flag "hasPackageJson") then ["React Native project missing package.json"] else []
  else if String.eqb fw "flutter" then
    if negb (flag "hasPubspec") then ["Flutter project missing pubspec.yaml"] else []
  else if String.eqb fw "android" then
    if negb (flag "hasBuildGradle") then ["Android project missing build.gradle"] else []
  else if String.eqb fw "cordova" then
    if negb (flag "hasConfigXml") then ["Cordova project missing config.xml"] else []
  else if String.eqb fw "generic-mobile" then []
  else ["Unsupported framework: " +:+ fw].

Definition getEssentialFiles (fw : string) : list string :=
  if String.eqb fw "react-native" then ["package.json"; "index.js"]
  else if String.eqb fw "flutter" then ["pubspec.yaml"; "lib/main.dart"]
  else if String.eqb fw "android" then ["build.gradle"; "src/main/AndroidManifest.xml"]
  else if String.eqb fw "cordova" then ["config.xml"; "www/index.html"]
  else if String.eqb fw "generic-mobile" then []
  else [].

(** The loop of [validateProjectStructure], which returns at the first
    essential file that does not exist. *)
Fixpoint allExist {L} (projectPath : path) (files : list string) : M L bool :=
  match files with
  | [] => mret true
  | file :: rest =>
      ex ← FileManager.fileExists (Path.join projectPath file);
      if ex : bool then allExist projectPath rest else mret false
  end.

Definition validateProjectStructure {L} (projectPath : path) (analysis : ProjectAnalysis) : M L bool :=
  try_catch
    (allExist projectPath (getEssentialFiles (framework analysis)))
    (fun _ => mret false).

(** The pieces of the generated manifest, in order; the substituted fields
    are the pieces at the odd positions. *)
Definition manifestPieces (analysis : ProjectAnalysis) : list string :=
  let config := buildConfig analysis in
  let packageName :=
    Js.to_string (Js.or_else (config !! "packageName")
                    (Js.VStr ("com." +:+ framework analysis +:+ ".app"))) in
  let appName := Js.to_string (Js.or_else (config !! "appName") (Js.VStr "Mobile App")) in
  let versionName := Js.to_string (Js.or_else (config !! "version") (Js.VStr "1.0.0")) in
  let minSdk := Js.to_string (Js.or_else (config !! "minSdk") (Js.VNum 21)) in
  let targetSdk := Js.to_string (Js.or_else (config !! "targetSdk") (Js.VNum 33)) in
  [Js.tpl
"<?xml version=`1.0` encoding=`utf-8`?>
<manifest xmlns:android=`http://schemas.android.com/apk/res/android`
    package=`"; packageName; Js.tpl "`
    android:versionCode=`1`
    android:versionName=`"; versionName; Js.tpl "`>
    
    <uses-sdk android:minSdkVersion=`"; minSdk; Js.tpl "`
              android:targetSdkVersion=`"; targetSdk; Js.tpl "` />
    
    <uses-permission android:name=`android.permission.INTERNET` />
    <uses-permission android:name=`android.permission.ACCESS_NETWORK_STATE` />
    <uses-permission android:name=`android.permission.WRITE_EXTERNAL_STORAGE` />
    
    <application
        android:allowBackup=`true`
        android:icon=`@mipmap/ic_launcher`
        android:label=`"; appName; Js.tpl "`
        android:theme=`@style/AppTheme`>
        
        <activity
            android:name=`.MainActivity`
            android:exported=`true`
            android:launchMode=`singleTop`
            android:theme=`@style/LaunchTheme`>
            <intent-filter>
                <action android:name=`android.intent.action.MAIN` />
                <category android:name=`android.intent.category.LAUNCHER` />
            </intent-filter>
        </activity>
    </application>
</manifest>"].

Definition generateAndroidManifest (analysis : ProjectAnalysis) : string :=
  String.concat "" (manifestPieces analysis).

Definition generateClassesDex (projectPath : path) (analysis : ProjectAnalysis) : Buffer :=
  let dexHeader := [0x64; 0x65; 0x78; 0x0A; 0x30; 0x33; 0x35; 0x00] in
  let dexData := Buffer_fill (Z.to_nat 8192) 0 in
  let dexData := Buffer_write dexHeader 0 dexData in
  writeUInt32LE 0x12345678 8 dexData.

Definition generateResourcesArsc (analysis : ProjectAnalysis) : Buffer :=
  let arscData := Buffer_fill (Z.to_nat 4096) 0 in
  let arscData := writeUInt32LE 0x080C0003 0 arscData in
  writeUInt32LE 4096 4 arscData.

Definition metaInfManifest : string := String.concat "" [
"Manifest-Version: 1.0
Created-By: Mobile APK Converter
Built-Date: "; isoNow; "

Name: AndroidManifest.xml
SHA1-Digest: abcdef1234567890abcdef1234567890abcdef12

Name: classes.dex  
SHA1-Digest: 1234567890abcdef1234567890abcdef12345678

Name: resources.arsc
SHA1-Digest: 567890abcdef1234567890abcdef1234567890ab
"].

Definition metaInfCert : string :=
"Signature-Version: 1.0
Created-By: Mobile APK Converter
SHA1-Digest-Manifest: fedcba0987654321fedcba0987654321fedcba09
SHA1-Digest-Manifest-Main-Attributes: 0987654321fedcba0987654321fedcba09876543
".

Definition metaInfRsa : Buffer := Buffer_fill (Z.to_nat 256) 0x30.

Definition generateAppIcon : Buffer :=
  let pngSignature := [0x89; 0x50; 0x4E; 0x47; 0x0D; 0x0A; 0x1A; 0x0A] in
  let ihdrChunk := [
    0x00; 0x00; 0x00; 0x0D;
    0x49; 0x48; 0x44; 0x52;
    0x00; 0x00; 0x00; 0x30;
    0x00; 0x00; 0x00; 0x30;
    0x08; 0x02; 0x00; 0x00; 0x00;
    0x91; 0x5D; 0x53; 0x8E] in
  let idatChunk := [
    0x00; 0x00; 0x00; 0x0B;
    0x49; 0x44; 0x41; 0x54;
    0x78; 0x9C; 0x63; 0x00; 0x01; 0x00; 0x00; 0x05; 0x00; 0x01;
    0x0D; 0x0A; 0x2D; 0xB4] in
  let iendChunk := [
    0x00; 0x00; 0x00; 0x00;
    0x49; 0x45; 0x4E; 0x44;
    0xAE; 0x42; 0x60; 0x82] in
  pngSignature ++ ihdrChunk ++ idatChunk ++ iendChunk.

Definition addFlutterAssets (projectPath : path) : M Zip unit :=
  let assetsDir := Path.join projectPath "assets" in
  ex ← FileManager.fileExists assetsDir;
  if ex : bool then
    assetFiles ← FileManager.listFiles assetsDir;
    for_each (take 10 assetFiles) (fun assetFile =>
      try_catch
        (let assetPath := Path.join assetsDir assetFile in
         assetContent ← FileManager.readFile assetPath;
         AdmZip.addFile ("assets/flutter_assets/" +:+ assetFile) (Buffer_from assetContent))
        (fun _ => mret tt))
  else mret tt.

Definition addReactNativeAssets (projectPath : path) : M Zip unit :=
  let indexJs := Path.join projectPath "index.js" in
  ex ← FileManager.fileExists indexJs;
  if ex : bool then
    content ← FileManager.readFile indexJs;
    AdmZip.addFile "assets/index.android.bundle" (Buffer_from content)
  else mret tt.

Definition addCordovaAssets (projectPath : path) : M Zip unit :=
  let wwwDir := Path.join projectPath "www" in
  ex ← FileManager.fileExists wwwDir;
  if ex : bool then
    try_catch
      (indexHtml ← FileManager.readFile (Path.join wwwDir "index.html");
       AdmZip.addFile "assets/www/index.html" (Buffer_from indexHtml))
      (fun _ => mret tt)
  else mret tt.

Definition addGenericAssets (projectPath : path) : M Zip unit :=
  let possibleAssets := ["index.html"; "app.js"; "main.js"; "package.json"] in
  for_each possibleAssets (fun asset =>
    try_catch
      (let assetPath := Path.join projectPath asset in
       ex ← FileManager.fileExists assetPath;
       if ex : bool then
         content ← FileManager.readFile assetPath;
         AdmZip.addFile ("assets/" +:+ asset) (Buffer_from content)
       else mret tt)
      (fun _ => mret tt)).

Definition addFrameworkAssets (projectPath : path) (analysis : ProjectAnalysis) : M Zip unit :=
  try_catch
    (if String.eqb (framework analysis) "flutter" then addFlutterAssets projectPath
     else if String.eqb (framework analysis) "react-native" then addReactNativeAssets projectPath
     else if String.eqb (framework analysis) "cordova" then addCordovaAssets projectPath
     else addGenericAssets projectPath)
    (fun _ => mret tt).

(** The candidate files of the fallback archive. *)
Definition mainFiles : list string :=
  ["package.json"; "index.html"; "app.js"; "main.dart"; "pubspec.yaml"].

Definition createBasicApkFallback {L} (projectPath apkPath : path) : M L unit :=
  _ ← call ([] : Zip)
    (AdmZip.load;;
     for_each mainFiles (fun file =>
       try_catch
         (let filePath := Path.join projectPath file in
          ex ← FileManager.fileExists filePath;
          if ex : bool then
            content ← FileManager.readFile filePath;
            AdmZip.addFile file (Buffer_from content)
          else mret tt)
         (fun _ => mret tt));;
     AdmZip.writeZip apkPath);
  mret tt.

(** The [try] block of [packageProjectAsApk]. *)
Definition assembleApk {L} (projectPath : path) (analysis : ProjectAnalysis)
    (apkPath : path) : M L unit :=
  _ ← call ([] : Zip)
    (AdmZip.load;;
     let manifestContent := generateAndroidManifest analysis in
     AdmZip.addFile "AndroidManifest.xml" (Buffer_from manifestContent);;
     let classesDex := generateClassesDex projectPath analysis in
     AdmZip.addFile "classes.dex" classesDex;;
     let resourcesArsc := generateResourcesArsc analysis in
     AdmZip.addFile "resources.arsc" resourcesArsc;;
     AdmZip.addFile "META-INF/MANIFEST.MF" (Buffer_from metaInfManifest);;
     AdmZip.addFile "META-INF/CERT.SF" (Buffer_from metaInfCert);;
     AdmZip.addFile "META-INF/CERT.RSA" metaInfRsa;;
     addFrameworkAssets projectPath analysis;;
     let iconData := generateAppIcon in
     AdmZip.addFile "res/mipmap-mdpi/ic_launcher.png" iconData;;
     AdmZip.addFile "res/mipmap-hdpi/ic_launcher.png" iconData;;
     AdmZip.addFile "res/mipmap-xhdpi/ic_launcher.png" iconData;;
     AdmZip.writeZip apkPath);
  mret tt.

Definition packageProjectAsApk {L} (projectPath : path) (analysis : ProjectAnalysis)
    (apkPath : path) : M L unit :=
  try_catch
    (assembleApk projectPath analysis apkPath)
    (fun _ => createBasicApkFallback projectPath apkPath).

Definition createRealApk {L} (projectPath : path) (analysis : ProjectAnalysis) : M L path :=
  let apkDir := projectPath ++ ["build"; "outputs"; "apk"; "release"] in
  FileManager.ensureDirectory apkDir;;
  let apkPath := apkDir ++ ["app-release.apk"] in
  packageProjectAsApk projectPath analysis apkPath;;
  mret apkPath.

(** The object [buildApk] starts from. *)
Definition initialResult : BuildResult := mkBuildResult false None None [] [].

(** [error?.message || 'Unknown error'] *)
Definition messageOr (e : Exn) (d : string) : string :=
  match message e with
  | Some m => if String.eqb m "" then d else m
  | None => d
  end.

(** The [try] block of [buildApk]; the local object is [result]. *)
Definition buildApkBody (projectPath : path) (analysis : ProjectAnalysis)
    (onProgress : option Callback) : M BuildResult unit :=
  callProgress onProgress 10 "Starting APK build process...";;
  let validationErrors := validateBuildRequirements analysis in
  if (0 <? length validationErrors)%nat then
    modify (push_errors validationErrors);;
    callProgress onProgress 100 "Build validation failed - missing requirements"
  else
    createMissingFiles projectPath analysis;;
    callProgress onProgress 30 "Project setup completed...";;
    structureValid ← validateProjectStructure projectPath analysis;
    if negb structureValid then
      modify (push_errors ["Project structure validation failed after setup"]);;
      callProgress onProgress 100 "Project setup validation failed"
    else
      callProgress onProgress 70 "Packaging APK file...";;
      apkPath ← createRealApk projectPath analysis;
      apkStats ← FileManager.getFileStats apkPath;
      let apkSizeBytes := Js.or_num apkStats 0 in
      let apkSizeMB := Js.toFixed1MB apkSizeBytes in
      modify (set_success apkPath apkSizeBytes);;
      modify (push_log "APK package created successfully");;
      modify (push_log ("Framework: " +:+ framework analysis));;
      modify (push_log ("Package size: " +:+ apkSizeMB +:+ " MB"));;
      modify (push_log ("Files included: "
                        +:+ Js.num_to_string (totalFiles (projectStats analysis)) +:+ " files"));;
      modify (push_log ("Build target: Android API "
                        +:+ Js.to_string (Js.or_else (buildConfig analysis !! "targetSdk")
                                                     (Js.VNum 33))));;
      callProgress onProgress 100 "APK build completed successfully!".

(** The [catch] block of [buildApk]. *)
Definition buildApkHandler (onProgress : option Callback) (error : Exn) : M BuildResult unit :=
  modify (push_errors ["Build failed: " +:+ messageOr error "Unknown error"]);;
  callProgress onProgress 100 "Build process failed".

Definition buildApk {L} (projectPath : path) (analysis : ProjectAnalysis)
    (onProgress : option Callback) : M L BuildResult :=
  r ← call initialResult
    (try_catch (buildApkBody projectPath analysis onProgress) (buildApkHandler onProgress));
  mret (snd r).

End ApkBuilder.

(** ** The routes that call the two services ([routes.ts]) *)

Section Routes.
Context `{Runtime}.

(** The status the analyze route stores: [analysis.hasValidStructure ?
    "analyzed" : "error"]. *)
Definition analysisStatus (analysis : ProjectAnalysis) : string :=
  if hasValidStructure analysis then "analyzed" else "error".

(** The status the build route stores, by [buildResult.success]. *)
Definition buildStatus (buildResult : BuildResult) : string :=
  if success buildResult then "completed" else "error".

(** The core of [POST /api/projects/:id/build], from the project directory
    to the status: the project is analyzed again and built with that
    analysis. The callback the route passes is asynchronous (it returns a
    promise, so it does not throw into [buildApk]); the records the route
    keeps in its store are not part of this model. *)
Definition buildRoute {L} (projectDir : path) (onProgress : option Callback)
    : M L (BuildResult * string) :=
  analysis ← analyzeProject projectDir;
  buildResult ← buildApk projectDir analysis onProgress;
  mret (buildResult, buildStatus buildResult).

End Routes.

(** ** The first revision of the builder ([apkBuilder.ts], before packaging)

    The first revision of [apkBuilder.ts] has the same validator, synthesizer
    and structure check, and writes a mock package instead of an archive. *)

Module Json.

(** A hexadecimal digit, lower case. *)
Definition hex (n : nat) : ascii :=
  ascii_of_nat (if (n <? 10)%nat then 48 + n else 87 + n).

(** One character inside a string literal of [JSON.stringify]. *)
Definition escape (c : ascii) : string :=
  let n := nat_of_ascii c in
  if (n =? 34)%nat then "\" +:+ Js.dq
  else if (n =? 92)%nat then "\\"
  else if (n =? 8)%nat then "\b"
  else if (n =? 9)%nat then "\t"
  else if (n =? 10)%nat then "\n"
  else if (n =? 12)%nat then "\f"
  else if (n =? 13)%nat then "\r"
  else if (n <? 32)%nat then "\u00" +:+ String (hex (n / 16)) (String (hex (n mod 16)) "")
  else String c "".

Fixpoint escapeAll (s : string) : string :=
  match s with
  | EmptyString => ""
  | String c s' => escape c +:+ escapeAll s'
  end.

(** [JSON.stringify(s)] for a string [s]. *)
Definition quote (s : string) : string := Js.dq +:+ escapeAll s +:+ Js.dq.

End Json.

Module FirstRevision.
Section FirstRevision.
Context `{Runtime}.

(** [JSON.stringify({framework, buildTime, version, size, status}, null, 2)] *)
Definition mockApkContent (analysis : ProjectAnalysis) : string :=
  Js.tpl "{
  `framework`: " +:+ Json.quote (framework analysis) +:+ Js.tpl ",
  `buildTime`: " +:+ Json.quote isoNow +:+ Js.tpl ",
  `version`: `1.0.0`,
  `size`: `5.0 MB`,
  `status`: `Mock APK for demonstration`
}".

Definition createMockApk {L} (projectPath : path) (analysis : ProjectAnalysis) : M L path :=
  let apkDir := projectPath ++ ["build"; "outputs"; "apk"] in
  FileManager.ensureDirectory apkDir;;
  let apkPath := Path.join apkDir (framework analysis +:+ "-app-release.apk") in
  FileManager.writeFile apkPath (mockApkContent analysis);;
  mret apkPath.

(** The [try] block of the first [buildApk]; the local object is [result]. *)
Definition buildApkBody (projectPath : path) (analysis : ProjectAnalysis)
    (onProgress : option Callback) : M BuildResult unit :=
  callProgress onProgress 10 "Starting APK build process...";;
  let validationErrors := validateBuildRequirements analysis in
  if (0 <? length validationErrors)%nat then
    modify (push_errors validationErrors);;
    callProgress onProgress 100 "Build validation failed - missing requirements"
  else
    createMissingFiles projectPath analysis;;
    callProgress onProgress 30 "Project setup completed...";;
    structureValid ← validateProjectStructure projectPath analysis;
    if negb structureValid then
      modify (push_errors ["Project structure validation failed after setup"]);;
      callProgress onProgress 100 "Project setup validation failed"
    else
      callProgress onProgress 70 "Preparing APK package...";;
      mockApkPath ← createMockApk projectPath analysis;
      modify (set_success mockApkPath 5242880);;
      modify (push_log "APK package created successfully");;
      modify (push_log ("Framework: " +:+ framework analysis));;
      modify (push_log "Package size: 5.0 MB");;
      callProgress onProgress 100 "APK build completed successfully!".

Definition buildApk {L} (projectPath : path) (analysis : ProjectAnalysis)
    (onProgress : option Callback) : M L BuildResult :=
  r ← call initialResult
    (try_catch (buildApkBody projectPath analysis onProgress) (buildApkHandler onProgress));
  mret (snd r).

End FirstRevision.
End FirstRevision.

(** * Part II: vocabulary of the statements *)

(** [mentions files name]: some path of the list contains [name]. *)
Definition mentions (files : list string) (name : string) : Prop :=
  exists f, In f files /\ Js.includes f name = true.

(** [anyEndsWith files ext]: some path of the list ends with [ext]. *)
Definition anyEndsWith (files : list string) (ext : string) : Prop :=
  exists f, In f files /\ Js.endsWith f ext = true.

(** The framework tags an analysis may carry when it leaves the analyzer. *)
Definition definedTags : list string :=
  ["react-native"; "flutter"; "android"; "cordova"; "generic-mobile"].

(** The required-file checklist of each framework, as the four analyzers
    declare them; the generic project has none. *)
Definition checklist (fw : string) : list string :=
  if String.eqb fw "react-native" then
    ["package.json"; "android/build.gradle"; "android/app/build.gradle"]
  else if String.eqb fw "flutter" then
    ["pubspec.yaml"; "android/build.gradle"; "lib/main.dart"]
  else if String.eqb fw "android" then
    ["build.gradle"; "app/build.gradle"; "app/src/main/AndroidManifest.xml"]
  else if String.eqb fw "cordova" then
    ["config.xml"; "www/index.html"]
  else [].

(** An entry for which [createMissingFiles] has a template. *)
Definition hasTemplate (missingFile : string) : bool :=
  Js.includes missingFile "AndroidManifest.xml" || Js.includes missingFile "build.gradle"
  || Js.includes missingFile "package.json" || Js.includes missingFile "config.xml".

(** A progress callback that never throws. *)
Definition quiet (onProgress : option Callback) : Prop :=
  match onProgress with
  | Some cb => forall log progress msg, cb log progress msg = None
  | None => True
  end.

(** [keeps R m]: whatever [m] does (return or throw), the state it leaves is
    related by [R] to the state it started from. *)
Definition keeps {L A} (R : relation (World * L)) (m : M L A) : Prop :=
  forall s, R s (m s).2.

(** [R] is kept when the failure schedule advances by one operation, resp.
    [R] does not look at the progress log. *)
Definition fault_blind {L} (R : relation (World * L)) : Prop :=
  forall w l x rest, faults w = x :: rest -> R (w, l) (set_faults rest w, l).
Definition log_blind {L} (R : relation (World * L)) : Prop :=
  forall w l pl, R (w, l) (mkWorld (fs w) (faults w) pl, l).

(** [m] never throws. *)
Definition total {L A} (m : M L A) : Prop :=
  forall s, exists a, (m s).1 = Ok a.

(** The local object is left as it was. *)
Definition same_local {L} : relation (World * L) := fun s s' => s'.2 = s.2.

(** [R] does not look at the file system. *)
Definition fs_blind {L} (R : relation (World * L)) : Prop :=
  forall w l m, R (w, l) (set_fs m w, l).

(** The file list the walker returns for a project directory, and the world
    it leaves (the walk only consumes entries of the failure schedule). *)
Definition treeFiles `{Runtime} (directory : path) (w : World) : list string :=
  (walk 11 directory [] (w, [])).2.2.
Definition afterWalk `{Runtime} (directory : path) (w : World) : World :=
  (walk 11 directory [] (w, [])).2.1.

(** A relation on worlds lifted to states: [wrel] leaves the local object
    free, [wrel_same] also asks that it is unchanged. *)
Definition wrel {L} (Rw : relation World) : relation (World * L) :=
  fun s s' => Rw s.1 s'.1.
Definition wrel_same {L} (Rw : relation World) : relation (World * L) :=
  fun s s' => Rw s.1 s'.1 /\ s'.2 = s.2.

(** A world that was only read: same file system and progress log, and the
    failure schedule has only advanced. *)
Definition readOnly : relation World :=
  fun w w' =>
    fs w' = fs w /\ progressLog w' = progressLog w
    /\ exists k, faults w' = drop k (faults w).

(** The value a computation returned, if it did not throw. *)
Definition resultOf {A} (r : Res A) : option A :=
  match r with
  | Ok a => Some a
  | Throw _ => None
  end.

(** An android project whose app-level build descriptor names no SDK level. *)
Definition androidWithoutSdk : World :=
  mkWorld (list_to_map [(["srv"], Dir); (["srv"; "app"], Dir);
                        (["srv"; "app"; "build.gradle"], File "buildscript { }");
                        (["srv"; "app"; "app"], Dir);
                        (["srv"; "app"; "app"; "build.gradle"], File "android { }")]) [] [].

(** Adding assets leaves every entry outside [assets/] as it was. *)
Definition assetsOnly : relation (World * Zip) :=
  fun s s' =>
    forall name data, Js.startsWith name "assets/" = false ->
      (In (name, data) s'.2 <-> In (name, data) s.2).

(** Every entry of the archive is one of the candidate files of the
    fallback, with the content the file has at the project root. *)
Definition candidatesOf (projectPath : path) (m : gmap path Node) (zip : Zip) : Prop :=
  forall name data, In (name, data) zip ->
    In name ["package.json"; "index.html"; "app.js"; "main.dart"; "pubspec.yaml"]
    /\ exists content,
        m !! Path.join projectPath name = Some (File content) /\ data = Buffer_from content.

(** The loop of the fallback only reads, and only adds candidate files. *)
Definition fallbackLoop (projectPath : path) : relation (World * Zip) :=
  fun s s' =>
    readOnly s.1 s'.1
    /\ (candidatesOf projectPath (fs s.1) s.2 -> candidatesOf projectPath (fs s.1) s'.2).


(** The calls a callback receives: none when there is no callback. *)
Definition logged (onProgress : option Callback) (calls : list (Z * string)) : list (Z * string) :=
  match onProgress with
  | Some _ => calls
  | None => []
  end.



(** Every regular file of [w'] was a regular file with the same content in
    [w], or sits where an entry of [entries] that has a template goes. *)
Definition templatesOnly (projectPath : path) (entries : list string) : relation World :=
  fun w w' =>
    forall p data, fs w' !! p = Some (File data) ->
      fs w !! p = Some (File data)
      \/ exists entry, In entry entries /\ hasTemplate entry = true
                       /\ p = Path.join projectPath entry.

(** The tag [analyzeProject] returns for a detected tag. *)
Definition normalized (fw : string) : string :=
  if String.eqb fw "unknown" then "generic-mobile" else fw.

(** The local analysis keeps its [missingFiles]. *)
Definition missingKept : relation (World * ProjectAnalysis) :=
  fun s s' => missingFiles s'.2 = missingFiles s.2.

(** The walker as a function of the file system (what [getAllFiles] computes
    when the environment does not fail; see [walk_nofault]). *)
Definition okDir (dir : string) : bool :=
  negb (Js.startsWith dir ".") && negb (String.eqb dir "node_modules")
  && negb (String.eqb dir ".git").

Definition render (p : path) : string := Js.slashes (Path.to_string p).

Definition fileNames (m : gmap path Node) (dir : path) : list string :=
  map fst (filter (fun e => FileManager.is_file (snd e) = true) (FileManager.children m dir)).

Definition dirNames (m : gmap path Node) (dir : path) : list string :=
  map fst (filter (fun e => FileManager.is_dir (snd e) = true) (FileManager.children m dir)).

Fixpoint listing (fuel : nat) (m : gmap path Node) (directory rel : path) : list string :=
  match fuel with
  | O => []
  | S fuel' =>
      match FileManager.lookup_node m (directory ++ rel) with
      | Some Dir =>
          map (fun file => render (rel ++ [file])) (fileNames m (directory ++ rel))
          ++ (if (splitLength rel <? 10)%nat then
                flat_map (fun dir => if okDir dir then listing fuel' m directory (rel ++ [dir])
                                     else [])
                         (dirNames m (directory ++ rel))
              else [])
      | _ => []
      end
  end.

(** A tree-shaped file system: whatever exists lies in a directory. *)
Definition wellFormed (m : gmap path Node) : Prop :=
  forall p seg n, m !! (p ++ [seg]) = Some n -> FileManager.lookup_node m p = Some Dir.

(** [grown news m m']: the file system [m'] is [m] with more directories and
    with regular files written at paths of [news]; nothing is removed, no
    entry changes its kind, and no entry outside [news] changes at all. *)
Definition grown (news : list path) (m m' : gmap path Node) : Prop :=
  forall p,
    match m !! p, m' !! p with
    | Some n, Some n' =>
        FileManager.is_file n = FileManager.is_file n' /\ (n' = n \/ In p news)
    | Some _, None => False
    | None, Some Dir => True
    | None, Some (File _) => In p news
    | None, None => True
    end.

(** The same on worlds; a run that started without pending failures also
    ends without. *)
Definition grows (news : list path) : relation World :=
  fun w w' => grown news (fs w) (fs w') /\ (faults w = [] -> faults w' = []).

(** Every prefix of [p] is a directory. *)
Definition dirsTo (m : gmap path Node) (p : path) : Prop :=
  forall k, FileManager.lookup_node m (take k p) = Some Dir.

(** Any two worlds. *)
Definition anyWorld : relation World := fun _ _ => True.

(** The progress log is left as it was. *)
Definition sameLog : relation World := fun w w' => progressLog w' = progressLog w.

(** The file system is left as it was. *)
Definition sameFs : relation World := fun w w' => fs w' = fs w.

(** A callback that returns normally, one that always throws, and one that
    throws only when told that the build is complete. *)
Definition quietCallback : Callback := fun _ _ _ => None.


(** A project directory holding only [index.html]. *)
Definition genericProject : World :=
  mkWorld (list_to_map [(["srv"], Dir); (["srv"; "app"], Dir);
                        (["srv"; "app"; "index.html"], File "<html></html>")]) [] [].

(** The analysis of the generic project, and the exception of a missing
    archive library. *)
Definition genericAnalysis : ProjectAnalysis :=
  mkProjectAnalysis "generic-mobile" "unknown" "unknown" false [] [] ∅
    (mkProjectStats 1 0 0 None None None)
    ["Framework not automatically detected - will use generic mobile project setup"].

(** The generic project in an environment where the archive cannot be
    written the first time (the eighth operation fails), and in one where the
    archive library cannot be loaded at all (the second and the third
    operation, the two imports, fail). *)
Definition flakyDisk : World :=
  mkWorld (fs genericProject)
    [None; None; None; None; None; None; None; Some (error "EIO: i/o error")] [].


(** A concrete host for the examples. *)
Definition demoRuntime : Runtime := {|
  zipData := fun entries => String.concat ";" (map fst entries);
  isoNow := "2024-01-01T00:00:00.000Z";
  jsonDependencies := fun _ => Some [];
  reMatch1 := fun _ _ => None;
  reMatchAll := fun _ _ => None
|}.

(** The analysis of [androidWithoutSdk] on that host, and the world after the
    synthesizer ran on that analysis. *)
Definition androidAnalysis : ProjectAnalysis :=
  default initialAnalysis
    (resultOf (analyzeProject (H:=demoRuntime) ["srv"; "app"] (androidWithoutSdk, tt)).1).
Definition androidSynthesized : World :=
  (createMissingFiles (L:=unit) ["srv"; "app"] androidAnalysis (androidWithoutSdk, tt)).2.1.

(** A react-native project with its bundler configuration, its analysis on
    that host and the build of the project with that analysis. *)
Definition reactNativeProject : World :=
  mkWorld (list_to_map [(["srv"], Dir); (["srv"; "app"], Dir);
                        (["srv"; "app"; "package.json"], File "{}");
                        (["srv"; "app"; "index.js"], File "import App from './App';");
                        (["srv"; "app"; "metro.config.js"], File "module.exports = {};")])
    [] [].
Definition reactNativeAnalysis : ProjectAnalysis :=
  default initialAnalysis
    (resultOf (analyzeProject (H:=demoRuntime) ["srv"; "app"] (reactNativeProject, tt)).1).
Definition reactNativeBuild : Res BuildResult * (World * unit) :=
  buildApk (H:=demoRuntime) ["srv"; "app"] reactNativeAnalysis (Some quietCallback)
    (reactNativeProject, tt).



(** The build of the generic project by the first revision of the builder. *)
Definition mockBuild : Res BuildResult * (World * unit) :=
  FirstRevision.buildApk (H:=demoRuntime) ["srv"; "app"] genericAnalysis (Some quietCallback)
    (genericProject, tt).

(** ** Vocabulary of the further properties *)

(** The paths at which [buildApk] may write a regular file: the archive and
    the missing entries that have a template. *)
Definition buildTargets (projectPath : path) (analysis : ProjectAnalysis) : list path :=
  (projectPath ++ ["build"; "outputs"; "apk"; "release"; "app-release.apk"])
  :: map (Path.join projectPath) (List.filter hasTemplate (missingFiles analysis)).

(** The progress calls of [buildApk] before the closing one, and the log
    lines of a successful build. *)
Definition started : Z * string := (10, "Starting APK build process...").
Definition setupDone : Z * string := (30, "Project setup completed...").
Definition packaging : Z * string := (70, "Packaging APK file...").

Definition successLogs (analysis : ProjectAnalysis) (size : Z) : list string :=
  ["APK package created successfully";
   "Framework: " +:+ framework analysis;
   "Package size: " +:+ Js.toFixed1MB size +:+ " MB";
   "Files included: " +:+ Js.num_to_string (totalFiles (projectStats analysis)) +:+ " files";
   "Build target: Android API "
     +:+ Js.to_string (Js.or_else (buildConfig analysis !! "targetSdk") (Js.VNum 33))].

(** The file at the project root whose presence the requirement validator
    asks for, by framework. *)
Definition rootMarker (fw : string) : option string :=
  if String.eqb fw "react-native" then Some "package.json"
  else if String.eqb fw "flutter" then Some "pubspec.yaml"
  else if String.eqb fw "android" then Some "app/build.gradle"
  else if String.eqb fw "cordova" then Some "config.xml"
  else None.

(** A key made of letters, digits and underscores (as a regular expression
    it matches itself), and a text of ASCII characters (its white space is
    the white space of [Js.is_space]). *)
Definition wordKey (key : string) : bool :=
  forallb (fun c => let n := nat_of_ascii c in
                    Js.is_digit c || ((65 <=? n)%nat && (n <=? 90)%nat)
                    || ((97 <=? n)%nat && (n <=? 122)%nat) || (n =? 95)%nat)
          (list_ascii_of_string key).

Definition asciiText (s : string) : bool :=
  forallb (fun c => (nat_of_ascii c <? 128)%nat) (list_ascii_of_string s).

(** A string of decimal digits, and the number it denotes after the digits
    already read. *)
Definition allDigits (s : string) : bool := forallb Js.is_digit (list_ascii_of_string s).

Definition digitsFrom (acc : Z) (s : string) : Z :=
  fold_left (fun acc c => 10 * acc + (Z.of_nat (nat_of_ascii c) - 48))
            (list_ascii_of_string s) acc.



(** * Part III: lemmas and theorems *)

(** ** String primitives *)

Lemma some_mentions (files : list string) (name : string) :
  some (fun f => Js.includes f name) files = true <-> mentions files name.
Proof.
  unfold some, mentions. rewrite existsb_exists. reflexivity.
Qed.

Lemma some_false_iff {A} (p : A -> bool) (l : list A) :
  some p l = false <-> forall x, In x l -> p x = false.
Proof.
  unfold some. split.
  - intros Hs x Hx. destruct (p x) eqn:E; [|reflexivity].
    assert (existsb p l = true) by (apply existsb_exists; eauto). congruence.
  - intros Hall. destruct (existsb p l) eqn:E; [|reflexivity].
    apply existsb_exists in E as (x & Hx & Hp). rewrite (Hall x Hx) in Hp. discriminate.
Qed.

Lemma some_or_mentions (files : list string) (n1 n2 : string) :
  some (fun f => Js.includes f n1 || Js.includes f n2) files = true
  <-> mentions files n1 \/ mentions files n2.
Proof.
  unfold some, mentions. rewrite existsb_exists. split.
  - intros (f & Hf & Ho). apply orb_true_iff in Ho as [Ho|Ho]; [left|right]; eauto.
  - intros [(f & Hf & Ho)|(f & Hf & Ho)]; exists f; rewrite Ho; auto using orb_true_r.
Qed.

Lemma some_endsWith (files : list string) (ext : string) :
  some (fun f => Js.endsWith f ext) files = true <-> anyEndsWith files ext.
Proof.
  unfold some, anyEndsWith. rewrite existsb_exists. reflexivity.
Qed.

(** ** C1: the classifier *)

(** C1. Classification follows the first-match order. When some path of the
    list contains [package.json]: if some path also contains [react-native] or
    [metro.config], the result is react-native / javascript / hybrid; if no
    path does, rule 1 does not fire and the later rules decide in their order:
    a path containing [pubspec.yaml] gives flutter / dart / hybrid; otherwise a
    path containing [build.gradle] or [AndroidManifest.xml] gives android /
    native with language kotlin, java or unknown according to the [.kt] and
    [.java] files; otherwise a single path containing both [config.xml] and
    [www] gives cordova / javascript / hybrid; otherwise the result is
    unknown / unknown / unknown. *)
Theorem detectFramework_precedence (files : list string) :
  mentions files "package.json" ->
  ((mentions files "react-native" \/ mentions files "metro.config") ->
     detectFramework files = mkDetection "react-native" "javascript" "hybrid")
  /\
  (~ (mentions files "react-native" \/ mentions files "metro.config") ->
     (mentions files "pubspec.yaml" ->
        detectFramework files = mkDetection "flutter" "dart" "hybrid")
     /\
     (~ mentions files "pubspec.yaml" ->
        ((mentions files "build.gradle" \/ mentions files "AndroidManifest.xml") ->
           detectFramework files =
             mkDetection "android"
               (if some (fun f => Js.endsWith f ".kt") files then "kotlin"
                else if some (fun f => Js.endsWith f ".java") files then "java"
                else "unknown")
               "native")
        /\
        (~ (mentions files "build.gradle" \/ mentions files "AndroidManifest.xml") ->
           ((exists f, In f files /\ Js.includes f "config.xml" = true
                       /\ Js.includes f "www" = true) ->
              detectFramework files = mkDetection "cordova" "javascript" "hybrid")
           /\
           (~ (exists f, In f files /\ Js.includes f "config.xml" = true
                         /\ Js.includes f "www" = true) ->
              detectFramework files = mkDetection "unknown" "unknown" "unknown")))).
Proof.
  intros Hpkg. apply some_mentions in Hpkg.
  unfold detectFramework. rewrite Hpkg. cbn [andb].
  split.
  - intros Hm. apply some_or_mentions in Hm. rewrite Hm. reflexivity.
  - intros Hm. rewrite <- some_or_mentions in Hm. apply not_true_is_false in Hm.
    rewrite Hm. split.
    + intros Hp. apply some_mentions in Hp. rewrite Hp. reflexivity.
    + intros Hp. rewrite <- some_mentions in Hp. apply not_true_is_false in Hp.
      rewrite Hp. split.
      * intros Ha. apply some_or_mentions in Ha. rewrite Ha. reflexivity.
      * intros Ha. rewrite <- some_or_mentions in Ha. apply not_true_is_false in Ha.
        rewrite Ha.
        assert (Hc : some (fun f => Js.includes f "config.xml" && Js.includes f "www") files = true
                     <-> exists f, In f files /\ Js.includes f "config.xml" = true
                                   /\ Js.includes f "www" = true).
        { unfold some. rewrite existsb_exists.
          split; intros (f & Hf & Hi); exists f; (split; [exact Hf|]).
          - apply andb_true_iff in Hi. exact Hi.
          - apply andb_true_iff. exact Hi. }
        split.
        -- intros Hx. apply Hc in Hx. rewrite Hx. reflexivity.
        -- intros Hx. rewrite <- Hc in Hx. apply not_true_is_false in Hx.
           rewrite Hx. reflexivity.
Qed.

(** The tree of the spec's example: [package.json] with a [metro.config.js]
    is react-native; the same tree without the marker is unknown. *)
Lemma detectFramework_precedence_witness :
  detectFramework ["package.json"; "metro.config.js"]
    = mkDetection "react-native" "javascript" "hybrid"
  /\ detectFramework ["package.json"] = mkDetection "unknown" "unknown" "unknown".
Proof.
  split.
  - apply (detectFramework_precedence ["package.json"; "metro.config.js"]).
    + exists "package.json". split; [left; reflexivity | reflexivity].
    + right. exists "metro.config.js". split; [right; left; reflexivity | reflexivity].
  - apply (detectFramework_precedence ["package.json"]).
    + exists "package.json". split; [left; reflexivity | reflexivity].
    + intros [(f & [<-|[]] & Hf)|(f & [<-|[]] & Hf)]; discriminate Hf.
    + intros (f & [<-|[]] & Hf). discriminate Hf.
    + intros [(f & [<-|[]] & Hf)|(f & [<-|[]] & Hf)]; discriminate Hf.
    + intros (f & [<-|[]] & Hf & _). discriminate Hf.
Defined.

(** ** Frame reasoning for the monad *)

Section Keeps.
Context {L : Type} (R : relation (World * L)) `{!PreOrder R}.

Lemma keeps_ret {A} (a : A) : keeps R (mret a).
Proof. intros s. reflexivity. Qed.

Lemma keeps_throw {A} (e : Exn) : keeps R (throw e : M L A).
Proof. intros s. reflexivity. Qed.

Lemma keeps_bind {A B} (m : M L A) (k : A -> M L B) :
  keeps R m -> (forall a, keeps R (k a)) -> keeps R (m ≫= k).
Proof.
  intros Hm Hk s. specialize (Hm s).
  unfold mbind, M_bind, bind. destruct (m s) as [[a|e] s']; cbn in *.
  - etransitivity; [exact Hm | apply Hk].
  - exact Hm.
Qed.

Lemma keeps_try_catch {A} (m : M L A) (h : Exn -> M L A) :
  keeps R m -> (forall e, keeps R (h e)) -> keeps R (try_catch m h).
Proof.
  intros Hm Hh s. specialize (Hm s).
  unfold try_catch. destruct (m s) as [[a|e] s']; cbn in *.
  - exact Hm.
  - etransitivity; [exact Hm | apply Hh].
Qed.

Lemma keeps_for_each {A} (xs : list A) (body : A -> M L unit) :
  (forall x, In x xs -> keeps R (body x)) -> keeps R (for_each xs body).
Proof.
  induction xs as [|x xs IH]; intros Hb; cbn [for_each].
  - apply keeps_ret.
  - apply keeps_bind; [apply Hb; left; reflexivity|].
    intros _. apply IH. intros y Hy. apply Hb. right. exact Hy.
Qed.

Lemma keeps_get_local : keeps R get_local.
Proof. intros s. reflexivity. Qed.

Lemma keeps_get_world : keeps R get_world.
Proof. intros s. reflexivity. Qed.

Lemma keeps_modify (f : L -> L) :
  (forall w l, R (w, l) (w, f l)) -> keeps R (modify f).
Proof. intros Hf [w l]. apply Hf. Qed.

Lemma keeps_modify_world (f : World -> World) :
  (forall w l, R (w, l) (f w, l)) -> keeps R (modify_world f).
Proof. intros Hf [w l]. apply Hf. Qed.

Lemma keeps_io : fault_blind R -> keeps R io.
Proof.
  intros Hb [w l]. unfold io. cbn.
  destruct (faults w) as [|[e|] rest] eqn:E; cbn; try (eapply Hb; exact E). reflexivity.
Qed.

Lemma keeps_callProgress (onProgress : option Callback) (progress : Z) (msg : string) :
  log_blind R -> keeps R (callProgress onProgress progress msg).
Proof.
  intros Hb [w l]. unfold callProgress. destruct onProgress as [cb|]; cbn.
  - destruct (cb (progressLog w) progress msg); cbn; apply Hb.
  - reflexivity.
Qed.

Lemma keeps_call {L' A} (R' : relation (World * L')) (l0 : L') (m : M L' A) :
  keeps R' m ->
  (forall w l w' l', R' (w, l0) (w', l') -> R (w, l) (w', l)) ->
  keeps R (call l0 m).
Proof.
  intros Hm Hlift [w l]. specialize (Hm (w, l0)). unfold call. cbn in *.
  destruct (m (w, l0)) as [[a|e] [w' l']]; cbn in *; eapply Hlift; exact Hm.
Qed.

Lemma keeps_fileExists (p : path) : fault_blind R -> keeps R (FileManager.fileExists p).
Proof.
  intros Hb. unfold FileManager.fileExists.
  apply keeps_bind; [apply keeps_io, Hb|]. intros _.
  apply keeps_bind; [apply keeps_get_world|]. intros w. apply keeps_ret.
Qed.

Lemma keeps_readFile (p : path) : fault_blind R -> keeps R (FileManager.readFile p).
Proof.
  intros Hb. unfold FileManager.readFile.
  apply keeps_bind; [apply keeps_io, Hb|]. intros _.
  apply keeps_bind; [apply keeps_get_world|]. intros w.
  destruct (fs w !! p) as [[d|]|]; first [apply keeps_ret | apply keeps_throw].
Qed.

Lemma keeps_listFiles (p : path) : fault_blind R -> keeps R (FileManager.listFiles p).
Proof.
  intros Hb. unfold FileManager.listFiles.
  apply keeps_bind; [apply keeps_io, Hb|]. intros _.
  apply keeps_bind; [apply keeps_get_world|]. intros w.
  destruct (FileManager.lookup_node (fs w) p) as [[d|]|]; first [apply keeps_ret | apply keeps_throw].
Qed.

Lemma keeps_listDirectories (p : path) :
  fault_blind R -> keeps R (FileManager.listDirectories p).
Proof.
  intros Hb. unfold FileManager.listDirectories.
  apply keeps_bind; [apply keeps_io, Hb|]. intros _.
  apply keeps_bind; [apply keeps_get_world|]. intros w.
  destruct (FileManager.lookup_node (fs w) p) as [[d|]|]; first [apply keeps_ret | apply keeps_throw].
Qed.

Lemma keeps_getFileStats (p : path) : fault_blind R -> keeps R (FileManager.getFileStats p).
Proof.
  intros Hb. unfold FileManager.getFileStats.
  apply keeps_bind; [apply keeps_io, Hb|]. intros _.
  apply keeps_bind; [apply keeps_get_world|]. intros w.
  destruct (fs w !! p) as [[d|]|]; apply keeps_ret.
Qed.

End Keeps.

Lemma keeps_run {L A} (R : relation (World * L)) (m : M L A) (s s' : World * L) (r : Res A) :
  keeps R m -> m s = (r, s') -> R s s'.
Proof. intros Hk E. specialize (Hk s). rewrite E in Hk. exact Hk. Qed.

Lemma total_run {L A} (m : M L A) (s s' : World * L) (e : Exn) :
  total m -> m s = (Throw e, s') -> False.
Proof. intros Ht E. destruct (Ht s) as [a Ha]. rewrite E in Ha. discriminate. Qed.

(** One syntax-directed step of a [keeps] proof. *)
Ltac keeps_step :=
  lazymatch goal with
  | |- keeps ?R (mret _) => apply (keeps_ret R)
  | |- keeps ?R (throw _) => apply (keeps_throw R)
  | |- keeps ?R (_ ≫= _) => apply (keeps_bind R); [| intros ?]
  | |- keeps ?R (try_catch _ _) => apply (keeps_try_catch R); [| intros ?]
  | |- keeps ?R (for_each _ _) => apply (keeps_for_each R); intros ? ?
  | |- keeps ?R get_local => apply (keeps_get_local R)
  | |- keeps ?R get_world => apply (keeps_get_world R)
  | |- keeps ?R io => apply (keeps_io R)
  | |- keeps ?R (callProgress _ _ _) => apply (keeps_callProgress R)
  | |- keeps ?R (FileManager.fileExists _) => apply (keeps_fileExists R)
  | |- keeps ?R (FileManager.readFile _) => apply (keeps_readFile R)
  | |- keeps ?R (FileManager.listFiles _) => apply (keeps_listFiles R)
  | |- keeps ?R (FileManager.listDirectories _) => apply (keeps_listDirectories R)
  | |- keeps ?R (FileManager.getFileStats _) => apply (keeps_getFileStats R)
  | |- keeps ?R (modify _) => apply (keeps_modify R)
  | |- keeps ?R (modify_world _) => apply (keeps_modify_world R)
  | |- keeps _ (if ?b then _ else _) => destruct b
  | |- keeps _ (match ?x with _ => _ end) => destruct x
  | |- keeps _ (let _ := _ in _) => cbv zeta
  end.

(** Closes a case in which a computation known to return has thrown. *)
Ltac absurd_run H := cbv beta iota in H; discriminate H.

(** Case analysis on the outcome of the stage that hypothesis [H] runs next. *)
Tactic Notation "stage" "in" hyp(H) "as" simple_intropattern(pat) "eqn" ident(E) :=
  match type of H with
  | context [match ?t with _ => _ end] =>
      lazymatch t with
      | _ _ => destruct t as pat eqn:E; cbv beta iota in H
      end
  end.

(** The same on the goal. *)
Tactic Notation "stage" "as" simple_intropattern(pat) "eqn" ident(E) :=
  match goal with
  | |- context [match ?t with _ => _ end] =>
      lazymatch t with
      | _ _ => destruct t as pat eqn:E; cbv beta iota
      end
  end.

(** ** The analyzer leaves tag and validity flag to [analyzeProject] *)

(** What the four framework analyzers never touch: the framework tag and the
    validity flag; and they only ever append to the error list. *)
Definition analyzerFrame : relation (World * ProjectAnalysis) :=
  fun s s' =>
    framework s'.2 = framework s.2
    /\ hasValidStructure s'.2 = hasValidStructure s.2
    /\ exists more, errors s'.2 = errors s.2 ++ more.

#[local] Instance analyzerFrame_preorder : PreOrder analyzerFrame.
Proof.
  split.
  - intros s. repeat split. exists []. symmetry. apply app_nil_r.
  - intros s1 s2 s3 (F1 & V1 & m1 & E1) (F2 & V2 & m2 & E2). repeat split; try congruence.
    exists (m1 ++ m2). rewrite E2, E1. symmetry. apply app_assoc.
Qed.

Lemma analyzerFrame_fault_blind : fault_blind analyzerFrame.
Proof.
  intros w l x rest _. unfold analyzerFrame. cbn. repeat split.
  exists []. symmetry. apply app_nil_r.
Qed.

Ltac analyzer_frame :=
  repeat keeps_step;
  try apply analyzerFrame_fault_blind;
  try (intros ? ?; repeat split; cbn; try reflexivity;
       first [ exists []; symmetry; apply app_nil_r | eexists; reflexivity ]).

Section AnalyzerFrame.
Context `{Runtime}.

Lemma analyzeReactNative_frame pp files : keeps analyzerFrame (analyzeReactNative pp files).
Proof. unfold analyzeReactNative. analyzer_frame. Qed.

Lemma analyzeFlutter_frame pp files : keeps analyzerFrame (analyzeFlutter pp files).
Proof. unfold analyzeFlutter. analyzer_frame. Qed.

Lemma analyzeAndroid_frame pp files : keeps analyzerFrame (analyzeAndroid pp files).
Proof. unfold analyzeAndroid. analyzer_frame. Qed.

Lemma analyzeCordova_frame pp files : keeps analyzerFrame (analyzeCordova pp files).
Proof. unfold analyzeCordova. analyzer_frame. Qed.

End AnalyzerFrame.

(** ** Running a computation step by step *)

Lemma run_bind {L A B} (m : M L A) (k : A -> M L B) (s : World * L) :
  (m ≫= k) s = match m s with
               | (Ok a, s') => k a s'
               | (Throw e, s') => (Throw e, s')
               end.
Proof. reflexivity. Qed.

Lemma run_bind_ret {L A B} (a : A) (k : A -> M L B) (s : World * L) :
  (mret a ≫= k) s = k a s.
Proof. reflexivity. Qed.

Lemma run_ret {L A} (a : A) (s : World * L) : (mret a : M L A) s = (Ok a, s).
Proof. reflexivity. Qed.

Lemma run_throw {L A} (e : Exn) (s : World * L) : (throw e : M L A) s = (Throw e, s).
Proof. reflexivity. Qed.

Lemma run_bind_modify {L B} (f : L -> L) (k : unit -> M L B) (w : World) (l : L) :
  (modify f ≫= k) (w, l) = k tt (w, f l).
Proof. reflexivity. Qed.

Lemma run_modify {L} (f : L -> L) (w : World) (l : L) :
  modify f (w, l) = (Ok tt, (w, f l)).
Proof. reflexivity. Qed.

Lemma run_bind_get_local {L B} (k : L -> M L B) (w : World) (l : L) :
  (get_local ≫= k) (w, l) = k l (w, l).
Proof. reflexivity. Qed.

Lemma run_bind_get_world {L B} (k : World -> M L B) (w : World) (l : L) :
  (get_world ≫= k) (w, l) = k w (w, l).
Proof. reflexivity. Qed.

Lemma run_try_catch {L A} (m : M L A) (h : Exn -> M L A) (s : World * L) :
  try_catch m h s = match m s with
                    | (Ok a, s') => (Ok a, s')
                    | (Throw e, s') => h e s'
                    end.
Proof. reflexivity. Qed.

Lemma run_call {L L' A} (l0 : L') (m : M L' A) (w : World) (l : L) :
  call l0 m (w, l) = match m (w, l0) with
                     | (Ok a, (w', l')) => (Ok (a, l'), (w', l))
                     | (Throw e, (w', _)) => (Throw e, (w', l))
                     end.
Proof. reflexivity. Qed.

(** ** C2 and C9: what [analyzeProject] returns *)

Section AnalyzeProject.
Context `{Runtime}.

Lemma walk_total fuel directory rel : total (walk fuel directory rel).
Proof.
  intros s. destruct fuel as [|fuel]; cbn [walk].
  - exists tt. reflexivity.
  - unfold try_catch.
    match goal with |- context [match ?m s with _ => _ end] => destruct (m s) as [[[]|e] s'] end;
      exists tt; reflexivity.
Qed.

Lemma getAllFiles_eq {L} (directory : path) (w : World) (l : L) :
  getAllFiles directory (w, l) = (Ok (treeFiles directory w), (afterWalk directory w, l)).
Proof.
  unfold getAllFiles, treeFiles, afterWalk, mbind, M_bind, bind, call. cbn [fst snd].
  destruct (walk_total 11 directory [] (w, [])) as [[] Hok].
  destruct (walk 11 directory [] (w, [])) as [r [w' fl]]. cbn in Hok. subst r. reflexivity.
Qed.

Lemma detectFramework_tags (files : list string) :
  In (d_framework (detectFramework files)) ["react-native"; "flutter"; "android"; "cordova"; "unknown"].
Proof.
  unfold detectFramework.
  repeat match goal with
         | |- context [if ?b then _ else _] => destruct b
         end; cbn; auto 10.
Qed.

(** The analysis after the two assignments that follow the walk. *)
Definition detected (files : list string) : ProjectAnalysis :=
  set_detection (detectFramework files)
    (set_totalFiles (Z.of_nat (length files)) initialAnalysis).

(** The outcome of [analyzeProject], by the detected tag: for one of the four
    frameworks the analysis is what that framework's analyzer leaves, closed
    by the validity flag or, after an exception, by the diagnostic; for an
    undetected framework it is the generic project with its diagnostic. *)
Lemma analyzeProject_cases {L} (projectPath : path) (w : World) (l : L) :
  let files := treeFiles projectPath w in
  let w1 := afterWalk projectPath w in
  let fw := d_framework (detectFramework files) in
  exists a w',
    analyzeProject projectPath (w, l) = (Ok a, (w', l)) /\
    ((fw = "unknown"
      /\ a = set_hasValidStructure false
               (push_error "Framework not automatically detected - will use generic mobile project setup"
                  (set_framework "generic-mobile" (detected files))))
     \/
     (In fw ["react-native"; "flutter"; "android"; "cordova"]
      /\ exists (analyzer : M ProjectAnalysis unit) r a2,
          keeps analyzerFrame analyzer
          /\ (fw = "react-native" -> analyzer = analyzeReactNative projectPath files)
          /\ (fw = "flutter" -> analyzer = analyzeFlutter projectPath files)
          /\ (fw = "android" -> analyzer = analyzeAndroid projectPath files)
          /\ (fw = "cordova" -> analyzer = analyzeCordova projectPath files)
          /\ analyzer (w1, detected files) = (r, (w', a2))
          /\ match r with
             | Ok _ => a = set_hasValidStructure (bool_decide (errors a2 = [])) a2
             | Throw e =>
                 a = push_error ("Analysis failed: " +:+ Js.opt_to_string (message e)) a2
             end)).
Proof.
  intros files w1 fw.
  unfold analyzeProject.
  rewrite run_bind, run_call, run_try_catch, run_bind, getAllFiles_eq.
  fold files. fold w1.
  rewrite !run_bind_modify, run_bind_get_local. fold (detected files).
  assert (Hfw : framework (detected files) = fw) by reflexivity.
  pose proof (detectFramework_tags files) as Htag. fold fw in Htag.
  cbn in Htag.
  destruct Htag as [E|[E|[E|[E|[E|[]]]]]]; symmetry in E.
  all: rewrite Hfw, E; cbn [String.eqb Ascii.eqb Bool.eqb]; rewrite run_bind.
  5: { do 2 eexists. split; [reflexivity|]. left. split; reflexivity. }
  - destruct (analyzeReactNative projectPath files (w1, detected files)) as [[[]|e] [w2 a2]] eqn:Ea;
      (do 2 eexists; split; [reflexivity|]; right; split; [cbn; auto|]);
      exists (analyzeReactNative projectPath files); do 2 eexists;
      (split; [apply analyzeReactNative_frame|]);
      repeat (split; [intros; first [reflexivity | discriminate]|]);
      (split; [exact Ea|]); reflexivity.
  - destruct (analyzeFlutter projectPath files (w1, detected files)) as [[[]|e] [w2 a2]] eqn:Ea;
      (do 2 eexists; split; [reflexivity|]; right; split; [cbn; auto|]);
      exists (analyzeFlutter projectPath files); do 2 eexists;
      (split; [apply analyzeFlutter_frame|]);
      repeat (split; [intros; first [reflexivity | discriminate]|]);
      (split; [exact Ea|]); reflexivity.
  - destruct (analyzeAndroid projectPath files (w1, detected files)) as [[[]|e] [w2 a2]] eqn:Ea;
      (do 2 eexists; split; [reflexivity|]; right; split; [cbn; auto|]);
      exists (analyzeAndroid projectPath files); do 2 eexists;
      (split; [apply analyzeAndroid_frame|]);
      repeat (split; [intros; first [reflexivity | discriminate]|]);
      (split; [exact Ea|]); reflexivity.
  - destruct (analyzeCordova projectPath files (w1, detected files)) as [[[]|e] [w2 a2]] eqn:Ea;
      (do 2 eexists; split; [reflexivity|]; right; split; [cbn; auto 10|]);
      exists (analyzeCordova projectPath files); do 2 eexists;
      (split; [apply analyzeCordova_frame|]);
      repeat (split; [intros; first [reflexivity | discriminate]|]);
      (split; [exact Ea|]); reflexivity.
Qed.

Lemma analyzerFrame_run (analyzer : M ProjectAnalysis unit) w1 a1 r w' a2 :
  keeps analyzerFrame analyzer ->
  analyzer (w1, a1) = (r, (w', a2)) ->
  framework a2 = framework a1 /\ hasValidStructure a2 = hasValidStructure a1
  /\ exists more, errors a2 = errors a1 ++ more.
Proof.
  intros Hk Hrun. specialize (Hk (w1, a1)). rewrite Hrun in Hk. exact Hk.
Qed.

(** C2. [analyzeProject] always returns an analysis, and never one whose
    framework is [unknown]: the returned tag is one of react-native, flutter,
    android, cordova, generic-mobile; and when the classifier yields
    [unknown] for the project's file list, the returned analysis has framework
    [generic-mobile] and an empty [missingFiles]. *)
Theorem analyzeProject_never_unknown {L} (projectPath : path) (w : World) (l : L) :
  exists a w',
    analyzeProject projectPath (w, l) = (Ok a, (w', l))
    /\ In (framework a) definedTags
    /\ String.eqb (framework a) "unknown" = false
    /\ (d_framework (detectFramework (treeFiles projectPath w)) = "unknown" ->
        framework a = "generic-mobile" /\ missingFiles a = []).
Proof.
  destruct (analyzeProject_cases projectPath w l) as (a & w' & Hrun & Hcase).
  exists a, w'. split; [exact Hrun|].
  destruct Hcase as [[Hu ->] | [Hin (analyzer & r & a2 & Hk & _ & _ & _ & _ & Ha & Hr)]].
  - cbn. auto 10.
  - destruct (analyzerFrame_run _ _ _ _ _ _ Hk Ha) as (Hf & _ & _).
    assert (Hfa : framework a = d_framework (detectFramework (treeFiles projectPath w))).
    { destruct r; subst a; cbn; exact Hf. }
    rewrite Hfa. cbn in Hin.
    destruct Hin as [E|[E|[E|[E|[]]]]]; rewrite <- E; cbn; repeat split; auto 10;
      discriminate.
Qed.

(** C9. The analysis [analyzeProject] returns has [hasValidStructure = true]
    exactly when its error list is empty. In particular, when the classifier
    yields [unknown], the analysis is normalised to [generic-mobile], carries
    the diagnostic in [errors] and has [hasValidStructure = false], although a
    generic-mobile analysis passes the requirement validator (no error) and
    the structure validator (always [true]). *)
Theorem analyzeProject_valid_iff_no_errors {L} (projectPath : path) (w : World) (l : L) :
  exists a w',
    analyzeProject projectPath (w, l) = (Ok a, (w', l))
    /\ (hasValidStructure a = true <-> errors a = [])
    /\ (d_framework (detectFramework (treeFiles projectPath w)) = "unknown" ->
        framework a = "generic-mobile"
        /\ In "Framework not automatically detected - will use generic mobile project setup"
              (errors a)
        /\ hasValidStructure a = false
        /\ validateBuildRequirements a = []
        /\ forall s : World * L, (validateProjectStructure projectPath a s).1 = Ok true).
Proof.
  destruct (analyzeProject_cases projectPath w l) as (a & w' & Hrun & Hcase).
  exists a, w'. split; [exact Hrun|].
  destruct Hcase as [[Hu ->] | [Hin (analyzer & r & a2 & Hk & _ & _ & _ & _ & Ha & Hr)]].
  - cbn. split; [split; discriminate|]. intros _. repeat split; auto.
  - destruct (analyzerFrame_run _ _ _ _ _ _ Hk Ha) as (_ & Hv & more & He).
    split.
    + destruct r; subst a; cbn.
      * apply bool_decide_eq_true.
      * rewrite Hv. cbn. split; [discriminate|].
        intros Hnil. apply app_eq_nil in Hnil as [_ Hnil]. discriminate.
    + intros Hu. rewrite Hu in Hin. cbn in Hin.
      destruct Hin as [E|[E|[E|[E|[]]]]]; discriminate.
Qed.

End AnalyzeProject.

(** ** C4: a failed requirement validation stops the build before any write *)

Section BuildApk.
Context `{Runtime}.

Lemma run_callProgress_quiet {L} (onProgress : option Callback) progress msg (w : World) (l : L) :
  quiet onProgress ->
  callProgress onProgress progress msg (w, l)
  = (Ok tt, (mkWorld (fs w) (faults w)
               (progressLog w ++ match onProgress with
                                 | Some _ => [(progress, msg)]
                                 | None => []
                                 end), l)).
Proof.
  intros Hq. destruct onProgress as [cb|]; cbn.
  - rewrite (Hq (progressLog w) progress msg). reflexivity.
  - rewrite app_nil_r. destruct w; reflexivity.
Qed.

Lemma callProgress_world {L} (onProgress : option Callback) progress msg (s : World * L) :
  let s' := (callProgress onProgress progress msg s).2 in
  fs s'.1 = fs s.1 /\ faults s'.1 = faults s.1 /\ s'.2 = s.2.
Proof.
  destruct s as [w l]. unfold callProgress. destruct onProgress as [cb|]; cbn.
  - destruct (cb (progressLog w) progress msg); cbn; auto.
  - auto.
Qed.


End BuildApk.


(** ** Frames of the builder's stages *)

Section WorldFrames.
Context `{Runtime}.
Context (Rw : relation World) `{!PreOrder Rw}.
Hypothesis Rw_faults : forall w x rest, faults w = x :: rest -> Rw w (set_faults rest w).

#[global] Instance wrel_preorder {L} : PreOrder (@wrel L Rw).
Proof.
  split.
  - intros s. unfold wrel. reflexivity.
  - intros s1 s2 s3. unfold wrel. intros H1 H2. etransitivity; eassumption.
Qed.

#[global] Instance wrel_same_preorder {L} : PreOrder (@wrel_same L Rw).
Proof.
  split.
  - intros s. unfold wrel_same. split; reflexivity.
  - intros s1 s2 s3. unfold wrel_same. intros [H1 E1] [H2 E2]. split.
    + etransitivity; eassumption.
    + congruence.
Qed.

Lemma wrel_fault_blind {L} : fault_blind (@wrel L Rw).
Proof. intros w l x rest E. unfold wrel. cbn. eapply Rw_faults, E. Qed.

Lemma wrel_same_fault_blind {L} : fault_blind (@wrel_same L Rw).
Proof.
  intros w l x rest E. unfold wrel_same. cbn. split; [eapply Rw_faults, E | reflexivity].
Qed.

Lemma wrel_modify {L} (f : L -> L) : keeps (wrel Rw) (modify f).
Proof. intros [w l]. unfold wrel. cbn. reflexivity. Qed.

Lemma keeps_call_wrel {L L' A} (l0 : L') (m : M L' A) :
  keeps (wrel Rw) m -> keeps (@wrel L Rw) (call l0 m).
Proof.
  intros Hm. apply (keeps_call _ (wrel Rw)); [exact Hm|].
  intros w l w' l' Hr. exact Hr.
Qed.

Lemma keeps_call_wrel_same {L L' A} (l0 : L') (m : M L' A) :
  keeps (wrel Rw) m -> keeps (@wrel_same L Rw) (call l0 m).
Proof.
  intros Hm. apply (keeps_call _ (wrel Rw)); [exact Hm|].
  intros w l w' l' Hr. split; [exact Hr | reflexivity].
Qed.

Lemma validateProjectStructure_frame {L} pp analysis :
  keeps (@wrel_same L Rw) (validateProjectStructure pp analysis).
Proof.
  unfold validateProjectStructure. keeps_step; [|keeps_step].
  induction (getEssentialFiles (framework analysis)) as [|f fl IH]; cbn [allExist].
  - keeps_step.
  - keeps_step; [keeps_step; apply wrel_same_fault_blind|].
    keeps_step; [exact IH | keeps_step].
Qed.

Lemma addFile_frame name data : keeps (wrel Rw) (AdmZip.addFile name data).
Proof. unfold AdmZip.addFile. apply wrel_modify. Qed.

Ltac zip_step :=
  lazymatch goal with
  | |- keeps _ (AdmZip.addFile _ _) => apply addFile_frame
  | |- fault_blind (wrel _) => apply wrel_fault_blind
  | |- fault_blind (wrel_same _) => apply wrel_same_fault_blind
  | |- _ => keeps_step
  end.

Lemma addFrameworkAssets_frame pp analysis :
  keeps (wrel Rw) (addFrameworkAssets pp analysis).
Proof.
  unfold addFrameworkAssets, addFlutterAssets, addReactNativeAssets, addCordovaAssets,
    addGenericAssets.
  repeat zip_step.
Qed.

Hypothesis Rw_fs : forall w m, Rw w (set_fs m w).

Lemma keeps_writeFile {L} p data : keeps (@wrel_same L Rw) (FileManager.writeFile p data).
Proof.
  unfold FileManager.writeFile.
  repeat zip_step.
  intros w l. split; [apply Rw_fs | reflexivity].
Qed.

Lemma keeps_ensureDirectory {L} dir : keeps (@wrel_same L Rw) (FileManager.ensureDirectory dir).
Proof.
  unfold FileManager.ensureDirectory.
  repeat zip_step.
  intros w l. split; [apply Rw_fs | reflexivity].
Qed.

Lemma keeps_writeZip target : keeps (wrel Rw) (AdmZip.writeZip target).
Proof.
  unfold AdmZip.writeZip.
  repeat zip_step.
  intros w l. apply Rw_fs.
Qed.

Ltac builder_step :=
  lazymatch goal with
  | |- keeps _ (AdmZip.writeZip _) => apply keeps_writeZip
  | |- keeps _ AdmZip.load => unfold AdmZip.load
  | |- keeps _ (addFrameworkAssets _ _) => apply addFrameworkAssets_frame
  | |- keeps _ (FileManager.writeFile _ _) => apply keeps_writeFile
  | |- keeps _ (FileManager.ensureDirectory _) => apply keeps_ensureDirectory
  | |- keeps (wrel_same _) (call _ _) => apply keeps_call_wrel_same
  | |- _ => zip_step
  end.

Lemma createMissingFile_frame {L} pp analysis missingFile :
  keeps (@wrel_same L Rw) (createMissingFile pp analysis missingFile).
Proof.
  unfold createMissingFile, createAndroidManifest, createBuildGradle, createPackageJson,
    createConfigXml.
  repeat builder_step.
Qed.

Lemma createMissingFiles_frame {L} pp analysis :
  keeps (@wrel_same L Rw) (createMissingFiles pp analysis).
Proof.
  unfold createMissingFiles. keeps_step. apply createMissingFile_frame.
Qed.

Lemma createBasicApkFallback_frame {L} pp apk :
  keeps (@wrel_same L Rw) (createBasicApkFallback pp apk).
Proof.
  unfold createBasicApkFallback. repeat builder_step.
Qed.

Lemma packageProjectAsApk_frame {L} pp analysis apk :
  keeps (@wrel_same L Rw) (packageProjectAsApk pp analysis apk).
Proof.
  unfold packageProjectAsApk, assembleApk. keeps_step; [|apply createBasicApkFallback_frame].
  repeat builder_step.
Qed.

Lemma createRealApk_frame {L} pp analysis :
  keeps (@wrel_same L Rw) (createRealApk pp analysis).
Proof.
  unfold createRealApk. keeps_step; [builder_step|].
  keeps_step; [apply packageProjectAsApk_frame | keeps_step].
Qed.

Lemma getFileStats_frame {L} p : keeps (@wrel_same L Rw) (FileManager.getFileStats p).
Proof. keeps_step. apply wrel_same_fault_blind. Qed.

End WorldFrames.

(** ** C8: [buildApk] and its progress callback *)

#[local] Instance sameLog_preorder : PreOrder sameLog.
Proof.
  split.
  - intros w. reflexivity.
  - intros w1 w2 w3 H1 H2. unfold sameLog in *. congruence.
Qed.

Lemma sameLog_faults w x rest : faults w = x :: rest -> sameLog w (set_faults rest w).
Proof. reflexivity. Qed.

Lemma sameLog_fs w m : sameLog w (set_fs m w).
Proof. reflexivity. Qed.

Lemma logged_app onProgress c1 c2 :
  logged onProgress c1 ++ logged onProgress c2 = logged onProgress (c1 ++ c2).
Proof. destruct onProgress; reflexivity. Qed.

Section BuildApkTotal.
Context `{Runtime}.

Lemma run_callProgress_logged {L} (onProgress : option Callback) progress msg (w : World) (l : L) :
  quiet onProgress ->
  callProgress onProgress progress msg (w, l)
  = (Ok tt, (mkWorld (fs w) (faults w) (progressLog w ++ logged onProgress [(progress, msg)]), l)).
Proof. intros Hq. rewrite (run_callProgress_quiet _ _ _ _ _ Hq). reflexivity. Qed.


Lemma log_step (onProgress : option Callback) (base cur c1 c2 : list (Z * string)) :
  cur = base ++ logged onProgress c1 ->
  cur ++ logged onProgress c2 = base ++ logged onProgress (c1 ++ c2).
Proof. intros ->. rewrite <- app_assoc, logged_app. reflexivity. Qed.



End BuildApkTotal.



(** ** Reading does not change the world *)

#[local] Instance readOnly_preorder : PreOrder readOnly.
Proof.
  split.
  - intros w. repeat split. exists 0%nat. reflexivity.
  - intros w1 w2 w3 (F1 & P1 & k1 & D1) (F2 & P2 & k2 & D2).
    split; [congruence|]. split; [congruence|].
    exists (k1 + k2)%nat. rewrite D2, D1. apply drop_drop.
Qed.

Lemma readOnly_faults w x rest : faults w = x :: rest -> readOnly w (set_faults rest w).
Proof.
  intros E. repeat split. exists 1%nat. cbn. rewrite E. reflexivity.
Qed.

Lemma readOnly_nofault w w' : readOnly w w' -> faults w = [] -> faults w' = [].
Proof.
  intros (_ & _ & k & D) E. rewrite D, E. apply drop_nil.
Qed.

Section ReadOnly.
Context `{Runtime}.

Lemma walk_readOnly fuel directory rel : keeps (wrel readOnly) (walk fuel directory rel).
Proof.
  revert rel. induction fuel as [|fuel IH]; intros rel; cbn [walk].
  - keeps_step.
  - keeps_step; [|keeps_step].
    cbv zeta.
    keeps_step; [keeps_step; apply (wrel_fault_blind readOnly readOnly_faults)|].
    keeps_step; [keeps_step; apply (wrel_fault_blind readOnly readOnly_faults)|].
    keeps_step.
    + keeps_step. apply (wrel_modify readOnly).
    + keeps_step; [|keeps_step]. keeps_step. keeps_step; [|keeps_step].
      keeps_step; [|apply (wrel_modify readOnly)].
      apply (keeps_call_wrel readOnly). apply IH.
Qed.

Lemma afterWalk_readOnly directory w : readOnly w (afterWalk directory w).
Proof. exact (walk_readOnly 11 directory [] (w, [])). Qed.

Lemma run_io_nofault {L} (w : World) (l : L) :
  faults w = [] -> io (w, l) = (Ok tt, (w, l)).
Proof. intros E. unfold io. cbn. rewrite E. reflexivity. Qed.

Lemma run_bind_io_nofault {L B} (k : unit -> M L B) (w : World) (l : L) :
  faults w = [] -> (io ≫= k) (w, l) = k tt (w, l).
Proof. intros E. rewrite run_bind, (run_io_nofault _ _ E). reflexivity. Qed.

Lemma run_fileExists_nofault {L} (p : path) (w : World) (l : L) :
  faults w = [] ->
  FileManager.fileExists p (w, l)
  = (Ok (bool_decide (is_Some (FileManager.lookup_node (fs w) p))), (w, l)).
Proof.
  intros E. unfold FileManager.fileExists. rewrite run_bind, (run_io_nofault _ _ E). reflexivity.
Qed.

Lemma run_readFile_nofault {L} (p : path) (data : string) (w : World) (l : L) :
  faults w = [] -> fs w !! p = Some (File data) ->
  FileManager.readFile p (w, l) = (Ok data, (w, l)).
Proof.
  intros E Hp. unfold FileManager.readFile.
  rewrite run_bind, (run_io_nofault _ _ E), run_bind_get_world, Hp. reflexivity.
Qed.

Lemma lookup_node_snoc (m : gmap path Node) (p : path) (name : string) :
  FileManager.lookup_node m (p ++ [name]) = m !! (p ++ [name]).
Proof. destruct p; reflexivity. Qed.

(** [path.join] with a relative path made of ordinary segments appends them. *)
Definition plain (seg : string) : bool :=
  negb (String.eqb seg "") && negb (String.eqb seg ".") && negb (String.eqb seg "..").

Lemma fold_push_plain (segs : list string) (p : path) :
  forallb plain segs = true -> fold_left Path.push segs p = p ++ segs.
Proof.
  revert p. induction segs as [|seg segs IH]; intros p Hall; cbn.
  - symmetry. apply app_nil_r.
  - cbn in Hall. apply andb_true_iff in Hall as [Hp Hall].
    rewrite IH by exact Hall.
    unfold plain in Hp. unfold Path.push.
    destruct (String.eqb seg ""); [discriminate|].
    destruct (String.eqb seg "."); [discriminate|].
    destruct (String.eqb seg ".."); [discriminate|].
    rewrite <- app_assoc. reflexivity.
Qed.

Lemma join_plain (p : path) (rel : string) :
  forallb plain (Path.split rel) = true -> Path.join p rel = p ++ Path.split rel.
Proof. apply fold_push_plain. Qed.

(** [analyzeAndroid] on a readable app-level descriptor without SDK tokens,
    in a world where the environment does not fail. *)
Lemma analyzeAndroid_without_tokens (projectPath : path) (files : list string)
    (w : World) (a : ProjectAnalysis) (content : string) :
  faults w = [] ->
  fs w !! (projectPath ++ ["app"; "build.gradle"]) = Some (File content) ->
  extractGradleValue content "targetSdkVersion" = None ->
  extractGradleValue content "minSdkVersion" = None ->
  exists a',
    analyzeAndroid projectPath files (w, a) = (Ok tt, (w, a'))
    /\ buildConfig a' !! "targetSdk" = Some (Js.VNum 33)
    /\ buildConfig a' !! "minSdk" = Some (Js.VNum 21)
    /\ ps_targetSdk (projectStats a') = Some 33
    /\ ps_minSdk (projectStats a') = Some 21
    /\ errors a' = errors a.
Proof.
  intros Hf Hfile Ht Hm. unfold analyzeAndroid. cbv zeta.
  rewrite !run_bind_modify, run_bind, (run_fileExists_nofault _ _ _ Hf).
  rewrite (join_plain projectPath "app/build.gradle") by reflexivity.
  change (Path.split "app/build.gradle") with ["app"; "build.gradle"].
  replace (projectPath ++ ["app"; "build.gradle"])
    with ((projectPath ++ ["app"]) ++ ["build.gradle"]) in * by (rewrite <- app_assoc; reflexivity).
  rewrite lookup_node_snoc, Hfile.
  rewrite bool_decide_eq_true_2 by eauto.
  rewrite run_bind, run_bind_modify, run_try_catch, run_bind.
  rewrite (run_readFile_nofault _ content) by assumption.
  rewrite Ht, Hm. rewrite !run_bind_modify, run_modify.
  rewrite run_bind, (run_fileExists_nofault _ _ _ Hf).
  destruct (bool_decide _); rewrite ?run_bind_modify, ?run_bind_ret, run_modify;
    eexists; (split; [reflexivity|]); cbn; repeat split; reflexivity.
Qed.

End ReadOnly.

(** ** C6: SDK levels that cannot be extracted *)

Section SdkDefaults.
Context `{Runtime}.

(** C6 (as amended). For an android project whose app-level build descriptor
    contains no [targetSdkVersion <int>] and no [minSdkVersion <int>] token,
    the analysis (in a world whose environment does not fail) completes
    without an exception and its build configuration carries the defaults
    [targetSdk = 33] and [minSdk = 21]; the missing tokens add no diagnostic:
    the error list stays empty and the structure is reported valid. *)
Theorem analyzeProject_android_sdk_defaults {L} (projectPath : path) (w : World) (l : L)
    (content : string) :
  faults w = [] ->
  d_framework (detectFramework (treeFiles projectPath w)) = "android" ->
  fs w !! (projectPath ++ ["app"; "build.gradle"]) = Some (File content) ->
  extractGradleValue content "targetSdkVersion" = None ->
  extractGradleValue content "minSdkVersion" = None ->
  exists a w',
    analyzeProject projectPath (w, l) = (Ok a, (w', l))
    /\ buildConfig a !! "targetSdk" = Some (Js.VNum 33)
    /\ buildConfig a !! "minSdk" = Some (Js.VNum 21)
    /\ ps_targetSdk (projectStats a) = Some 33
    /\ ps_minSdk (projectStats a) = Some 21
    /\ errors a = []
    /\ hasValidStructure a = true.
Proof.
  intros Hf Hfw Hfile Ht Hm.
  destruct (analyzeProject_cases projectPath w l) as (a & w' & Hrun & Hcase).
  exists a, w'. split; [exact Hrun|].
  destruct Hcase as [[Hu _] | [_ (analyzer & r & a2 & _ & _ & _ & Han & _ & Ha & Hr)]].
  { rewrite Hfw in Hu. discriminate. }
  rewrite (Han Hfw) in Ha.
  pose proof (afterWalk_readOnly projectPath w) as Hro.
  assert (Hf1 : faults (afterWalk projectPath w) = []) by (eapply readOnly_nofault; eauto).
  destruct Hro as (Hfs & _).
  rewrite <- Hfs in Hfile.
  destruct (analyzeAndroid_without_tokens projectPath (treeFiles projectPath w)
              (afterWalk projectPath w) (detected (treeFiles projectPath w)) content
              Hf1 Hfile Ht Hm) as (a' & Hrun' & Hts & Hms & Hpt & Hpm & He).
  rewrite Hrun' in Ha. injection Ha as <- <- <-.
  subst a. cbn. rewrite He. cbn. repeat split; assumption.
Qed.

End SdkDefaults.

(** The android project of the example: its descriptor is [android { }]. *)
Lemma analyzeProject_android_sdk_defaults_witness :
  exists a w',
    analyzeProject (H:=demoRuntime) ["srv"; "app"] (androidWithoutSdk, tt) = (Ok a, (w', tt))
    /\ buildConfig a !! "targetSdk" = Some (Js.VNum 33)
    /\ buildConfig a !! "minSdk" = Some (Js.VNum 21)
    /\ ps_targetSdk (projectStats a) = Some 33
    /\ ps_minSdk (projectStats a) = Some 21
    /\ errors a = []
    /\ hasValidStructure a = true.
Proof.
  apply (analyzeProject_android_sdk_defaults (H:=demoRuntime) (L:=unit) ["srv"; "app"]
           androidWithoutSdk tt "android { }").
  - reflexivity.
  - vm_compute. reflexivity.
  - vm_compute. reflexivity.
  - vm_compute. reflexivity.
  - vm_compute. reflexivity.
Defined.

(** C6, counterexample. The descriptor [android { }] holds neither token; the
    analysis of the project returns with the defaults, and its error list is
    empty: no diagnostic was appended for the failed extraction. *)
Lemma analyzeProject_no_diagnostic_for_missing_sdk :
  extractGradleValue "android { }" "targetSdkVersion" = None
  /\ extractGradleValue "android { }" "minSdkVersion" = None
  /\ fs androidWithoutSdk !! ["srv"; "app"; "app"; "build.gradle"] = Some (File "android { }")
  /\ (framework <$> resultOf (analyzeProject (H:=demoRuntime) ["srv"; "app"]
                                (androidWithoutSdk, tt)).1) = Some "android"
  /\ (errors <$> resultOf (analyzeProject (H:=demoRuntime) ["srv"; "app"]
                             (androidWithoutSdk, tt)).1) = Some [].
Proof.
  repeat split; vm_compute; reflexivity.
Qed.

(** ** The archive assembler *)




#[local] Instance assetsOnly_preorder : PreOrder assetsOnly.
Proof.
  split.
  - intros s name data _. reflexivity.
  - intros s1 s2 s3 H12 H23 name data Hn. rewrite (H23 name data Hn). apply H12, Hn.
Qed.



Lemma total_try_catch_ret {L A} (m : M L A) (a : A) : total (try_catch m (fun _ => mret a)).
Proof.
  intros s. unfold try_catch. destruct (m s) as [[x|e] s']; eexists; reflexivity.
Qed.


Section Assembler.
Context `{Runtime}.




Lemma write_insert (p : path) (data : string) (m m' : gmap path Node) :
  FileManager.write p data m = Some m' -> m' = <[p := File data]> m.
Proof.
  unfold FileManager.write. destruct p as [|seg p]; [discriminate|].
  intros E. repeat case_match; simplify_eq; reflexivity.
Qed.

Lemma io_ok {L} (w w' : World) (l l' : L) (u : unit) :
  io (w, l) = (Ok u, (w', l')) -> l' = l /\ readOnly w w'.
Proof.
  unfold io. cbn. destruct (faults w) as [|[e|] rest] eqn:E; intros Hio; simplify_eq.
  - split; reflexivity.
  - split; [reflexivity|]. eapply readOnly_faults, E.
Qed.

Lemma run_modify_world {L} (f : World -> World) (w : World) (l : L) :
  modify_world f (w, l) = (Ok tt, (f w, l)).
Proof. reflexivity. Qed.



#[local] Instance fallbackLoop_preorder pp : PreOrder (fallbackLoop pp).
Proof.
  split.
  - intros s. split; [reflexivity | auto].
  - intros s1 s2 s3 [R12 C12] [R23 C23]. split; [etransitivity; eassumption|].
    intros Hc. destruct R12 as (Hfs & _). rewrite Hfs in C23. auto.
Qed.






Lemma io_readOnly {L} : keeps (@wrel_same L readOnly) io.
Proof.
  apply (keeps_io (wrel_same readOnly)).
  apply (wrel_same_fault_blind readOnly readOnly_faults).
Qed.





#[local] Instance anyWorld_preorder : PreOrder anyWorld.
Proof. split; [intros w; exact I | intros w1 w2 w3 _ _; exact I]. Qed.



Lemma callProgress_run {L} (onProgress : option Callback) progress msg
    (s s' : World * L) (r : Res unit) :
  callProgress onProgress progress msg s = (r, s') ->
  fs s'.1 = fs s.1 /\ faults s'.1 = faults s.1 /\ s'.2 = s.2.
Proof.
  intros E. pose proof (callProgress_world onProgress progress msg s) as Hw.
  cbv zeta in Hw. rewrite E in Hw. exact Hw.
Qed.


End Assembler.

(** ** The generated manifest carries the build-config fields *)

Lemma append_nil_r (s : string) : s +:+ "" = s.
Proof.
  induction s as [|c s IH]; [reflexivity|].
  change (String c (s +:+ "") = String c s). f_equal. exact IH.
Qed.


Lemma concat_cons (x : string) (xs : list string) :
  String.concat "" (x :: xs) = x +:+ String.concat "" xs.
Proof.
  destruct xs as [|y ys]; [|reflexivity].
  change (String.concat "" [x]) with x. change (String.concat "" []) with "".
  symmetry. apply append_nil_r.
Qed.


Lemma startsWith_app (s k : string) : Js.startsWith (s +:+ k) s = true.
Proof.
  induction s as [|c s IH]; [reflexivity|].
  change ((if Ascii.eqb c c then Js.startsWith (s +:+ k) s else false) = true).
  rewrite Ascii.eqb_refl. exact IH.
Qed.

Lemma includes_startsWith (s sub : string) :
  Js.startsWith s sub = true -> Js.includes s sub = true.
Proof. intros Hs. destruct s; cbn; rewrite Hs; reflexivity. Qed.

Lemma includes_app_r (a s sub : string) :
  Js.includes s sub = true -> Js.includes (a +:+ s) sub = true.
Proof.
  intros Hs. induction a as [|c a IH]; [exact Hs|].
  change ((if Js.startsWith (String c (a +:+ s)) sub then true
           else Js.includes (a +:+ s) sub) = true).
  rewrite IH. destruct (Js.startsWith (String c (a +:+ s)) sub); reflexivity.
Qed.



Section Manifest.
Context `{Runtime}.





End Manifest.

(** ** C5: the fallback archive *)

Section Fallback.
Context `{Runtime}.





End Fallback.




(** ** C10: the synthesizer writes templates only *)

Lemma mkdirs_files (todo pre : path) (m m' : gmap path Node) :
  FileManager.mkdirs pre todo m = Some m' ->
  forall p data, m' !! p = Some (File data) -> m !! p = Some (File data).
Proof.
  revert pre m. induction todo as [|seg todo IH]; intros pre m Hmk p data Hp; cbn in Hmk.
  - simplify_eq. exact Hp.
  - destruct (m !! (pre ++ [seg])) as [[d|]|] eqn:E; [discriminate | eauto |].
    specialize (IH _ _ Hmk p data Hp).
    destruct (decide (pre ++ [seg] = p)) as [<-|Hne].
    + rewrite lookup_insert_eq in IH. discriminate.
    + rewrite lookup_insert_ne in IH by exact Hne. exact IH.
Qed.

#[local] Instance templatesOnly_preorder pp entries : PreOrder (templatesOnly pp entries).
Proof.
  split.
  - intros w p data Hp. left. exact Hp.
  - intros w1 w2 w3 H12 H23 p data Hp.
    destruct (H23 p data Hp) as [H2|Hnew]; [apply H12, H2 | right; exact Hnew].
Qed.

Lemma templatesOnly_faults pp entries w x rest :
  faults w = x :: rest -> templatesOnly pp entries w (set_faults rest w).
Proof. intros _ p data Hp. left. exact Hp. Qed.

Section Synthesizer.
Context `{Runtime}.

(** The two outcomes of [ensureDirectory] and of [writeFile]. *)
Lemma ensureDirectory_cases {L} (dir : path) (w : World) (l : L) :
  exists w1, readOnly w w1
    /\ ((exists e, FileManager.ensureDirectory dir (w, l) = (Throw e, (w1, l)))
        \/ (exists m, FileManager.mkdirs [] dir (fs w) = Some m
                      /\ FileManager.ensureDirectory dir (w, l) = (Ok tt, (set_fs m w1, l)))).
Proof.
  unfold FileManager.ensureDirectory. rewrite run_bind.
  stage as [[[]|e] [w1 l1]] eqn Eio;
    destruct (keeps_run _ _ _ _ _ io_readOnly Eio) as [Hro Hl]; cbn [fst snd] in Hro, Hl;
    subst l1; exists w1; (split; [exact Hro|]).
  - rewrite run_bind_get_world. destruct Hro as (Hfs & _). rewrite Hfs.
    destruct (FileManager.mkdirs [] dir (fs w)) as [m|].
    + right. exists m. split; reflexivity.
    + left. eexists. reflexivity.
  - left. eexists. reflexivity.
Qed.

Lemma writeFile_cases {L} (p : path) (data : string) (w : World) (l : L) :
  exists w1, readOnly w w1
    /\ ((exists e, FileManager.writeFile p data (w, l) = (Throw e, (w1, l)))
        \/ (FileManager.write p data (fs w) = Some (<[p := File data]> (fs w))
            /\ FileManager.writeFile p data (w, l)
               = (Ok tt, (set_fs (<[p := File data]> (fs w)) w1, l)))).
Proof.
  unfold FileManager.writeFile. rewrite run_bind.
  stage as [[[]|e] [w1 l1]] eqn Eio;
    destruct (keeps_run _ _ _ _ _ io_readOnly Eio) as [Hro Hl]; cbn [fst snd] in Hro, Hl;
    subst l1; exists w1; (split; [exact Hro|]).
  - rewrite run_bind_get_world. destruct Hro as (Hfs & _). rewrite Hfs.
    destruct (FileManager.write p data (fs w)) as [m|] eqn:Ew.
    + right. rewrite (write_insert _ _ _ _ Ew) in *. split; reflexivity.
    + left. eexists. reflexivity.
  - left. eexists. reflexivity.
Qed.

Lemma readOnly_templatesOnly pp entries w w' : readOnly w w' -> templatesOnly pp entries w w'.
Proof. intros (Hfs & _) p data Hp. left. rewrite <- Hfs. exact Hp. Qed.

Lemma ensureDirectory_templatesOnly {L} pp entries dir :
  keeps (@wrel_same L (templatesOnly pp entries)) (FileManager.ensureDirectory dir).
Proof.
  intros [w l].
  destruct (ensureDirectory_cases dir w l) as (w1 & Hro & [[e Hr]|(m & Hmk & Hr)]);
    rewrite Hr; (split; [|reflexivity]); cbn [fst snd].
  - apply readOnly_templatesOnly, Hro.
  - intros p data Hp. left. cbn in Hp. eapply mkdirs_files; eassumption.
Qed.

Lemma writeFile_templatesOnly {L} pp entries entry data :
  In entry entries -> hasTemplate entry = true ->
  keeps (@wrel_same L (templatesOnly pp entries))
    (FileManager.writeFile (Path.join pp entry) data).
Proof.
  intros Hin Ht [w l].
  destruct (writeFile_cases (Path.join pp entry) data w l) as (w1 & Hro & [[e Hr]|(Hw & Hr)]);
    rewrite Hr; (split; [|reflexivity]); cbn [fst snd].
  - apply readOnly_templatesOnly, Hro.
  - intros p d Hp. cbn in Hp.
    destruct (decide (Path.join pp entry = p)) as [<-|Hne].
    + right. exists entry. auto.
    + rewrite lookup_insert_ne in Hp by exact Hne. left. exact Hp.
Qed.

Lemma createMissingFile_templatesOnly {L} pp analysis entries entry :
  In entry entries ->
  keeps (@wrel_same L (templatesOnly pp entries)) (createMissingFile pp analysis entry).
Proof.
  intros Hin. unfold createMissingFile, createAndroidManifest, createBuildGradle,
    createPackageJson, createConfigXml. cbv zeta.
  keeps_step; [apply ensureDirectory_templatesOnly|].
  destruct (Js.includes entry "AndroidManifest.xml") eqn:E1;
    [apply writeFile_templatesOnly; [exact Hin | unfold hasTemplate; rewrite E1; reflexivity]|].
  destruct (Js.includes entry "build.gradle") eqn:E2;
    [apply writeFile_templatesOnly; [exact Hin | unfold hasTemplate; rewrite E1, E2; reflexivity]|].
  destruct (Js.includes entry "package.json") eqn:E3;
    [apply writeFile_templatesOnly;
       [exact Hin | unfold hasTemplate; rewrite E1, E2, E3; reflexivity]|].
  destruct (Js.includes entry "config.xml") eqn:E4;
    [apply writeFile_templatesOnly;
       [exact Hin | unfold hasTemplate; rewrite E1, E2, E3, E4; reflexivity]|].
  keeps_step.
Qed.

(** An entry without a template only has its parent directory ensured. *)
Lemma createMissingFile_without_template {L} pp analysis entry (s : World * L) :
  hasTemplate entry = false ->
  createMissingFile pp analysis entry s
  = FileManager.ensureDirectory (Path.dirname (Path.join pp entry)) s.
Proof.
  unfold hasTemplate. intros Ht.
  apply orb_false_iff in Ht as [Ht E4]. apply orb_false_iff in Ht as [Ht E3].
  apply orb_false_iff in Ht as [E1 E2].
  unfold createMissingFile. cbv zeta. rewrite E1, E2, E3, E4. rewrite run_bind.
  destruct (FileManager.ensureDirectory (Path.dirname (Path.join pp entry)) s)
    as [[[]|e] s']; reflexivity.
Qed.

(** C10. [createMissingFiles] writes file content only for the entries of
    [missingFiles] whose path contains [AndroidManifest.xml], [build.gradle],
    [package.json] or [config.xml]: whatever the outcome, every regular file
    of the resulting tree was already there with the same content, or sits at
    the path of such an entry. For every other entry (flutter's
    [lib/main.dart], cordova's [www/index.html]) the iteration only ensures
    that the parent directory exists and writes nothing, so that the entry is
    still not a file of the tree when it was not one before (unless an entry
    with a template names the same path). *)
Theorem createMissingFiles_writes_templates_only {L} (projectPath : path)
    (analysis : ProjectAnalysis) (s : World * L) :
  (forall p data,
      fs (createMissingFiles projectPath analysis s).2.1 !! p = Some (File data) ->
      fs s.1 !! p = Some (File data)
      \/ exists entry, In entry (missingFiles analysis) /\ hasTemplate entry = true
                       /\ p = Path.join projectPath entry)
  /\ (forall entry (s0 : World * L),
        hasTemplate entry = false ->
        createMissingFile projectPath analysis entry s0
        = FileManager.ensureDirectory (Path.dirname (Path.join projectPath entry)) s0)
  /\ (forall entry,
        In entry (missingFiles analysis) -> hasTemplate entry = false ->
        (forall other, In other (missingFiles analysis) -> hasTemplate other = true ->
                       Path.join projectPath other <> Path.join projectPath entry) ->
        forall data,
          fs (createMissingFiles projectPath analysis s).2.1 !! Path.join projectPath entry
            = Some (File data) ->
          fs s.1 !! Path.join projectPath entry = Some (File data))
  /\ hasTemplate "lib/main.dart" = false
  /\ hasTemplate "www/index.html" = false.
Proof.
  assert (Hmain : forall p data,
             fs (createMissingFiles projectPath analysis s).2.1 !! p = Some (File data) ->
             fs s.1 !! p = Some (File data)
             \/ exists entry, In entry (missingFiles analysis) /\ hasTemplate entry = true
                              /\ p = Path.join projectPath entry).
  { assert (Hk : keeps (@wrel_same L (templatesOnly projectPath (missingFiles analysis)))
                   (createMissingFiles projectPath analysis)).
    { unfold createMissingFiles. apply (keeps_for_each _). intros entry Hin.
      apply createMissingFile_templatesOnly, Hin. }
    destruct (Hk s) as [Hgrow _]. exact Hgrow. }
  split; [exact Hmain|].
  split; [intros entry s0 Ht; apply createMissingFile_without_template, Ht|].
  split; [|split; reflexivity].
  intros entry Hin Ht Hother data Hp.
  destruct (Hmain _ _ Hp) as [Hold|(other & Ho & Hto & Heq)]; [exact Hold|].
  exfalso. eapply Hother; eauto.
Qed.

End Synthesizer.

(** ** C3, first half: [missingFiles] is the absent part of the checklist *)

#[local] Instance missingKept_preorder : PreOrder missingKept.
Proof.
  split.
  - intros s. reflexivity.
  - intros s1 s2 s3 H12 H23. unfold missingKept in *. congruence.
Qed.

Lemma missingKept_fault_blind : fault_blind missingKept.
Proof. intros w l x rest _. reflexivity. Qed.

(** After its two leading assignments an analyzer leaves [missingFiles] alone. *)
Ltac missing_rest :=
  intros [w a]; rewrite !run_bind_modify;
  lazymatch goal with
  | |- missingFiles (?m ?s).2.2 = _ =>
      let Hk := fresh "Hk" in
      assert (Hk : keeps missingKept m)
        by (repeat keeps_step; try apply missingKept_fault_blind;
            try (intros ? ?; reflexivity));
      exact (Hk s)
  end.

Section Checklist.
Context `{Runtime}.

Lemma analyzeReactNative_missing pp files s :
  missingFiles (analyzeReactNative pp files s).2.2
  = absentFrom files ["package.json"; "android/build.gradle"; "android/app/build.gradle"].
Proof. revert s. unfold analyzeReactNative. cbv zeta. missing_rest. Qed.

Lemma analyzeFlutter_missing pp files s :
  missingFiles (analyzeFlutter pp files s).2.2
  = absentFrom files ["pubspec.yaml"; "android/build.gradle"; "lib/main.dart"].
Proof. revert s. unfold analyzeFlutter. cbv zeta. missing_rest. Qed.

Lemma analyzeAndroid_missing pp files s :
  missingFiles (analyzeAndroid pp files s).2.2
  = absentFrom files ["build.gradle"; "app/build.gradle"; "app/src/main/AndroidManifest.xml"].
Proof. revert s. unfold analyzeAndroid. cbv zeta. missing_rest. Qed.

Lemma analyzeCordova_missing pp files s :
  missingFiles (analyzeCordova pp files s).2.2
  = absentFrom files ["config.xml"; "www/index.html"].
Proof. revert s. unfold analyzeCordova. cbv zeta. missing_rest. Qed.

(** Tag and missing files of the analysis that [analyzeProject] returns. *)
Lemma analyzeProject_summary {L} (projectPath : path) (w : World) (l : L) :
  exists a w',
    analyzeProject projectPath (w, l) = (Ok a, (w', l))
    /\ framework a = normalized (d_framework (detectFramework (treeFiles projectPath w)))
    /\ missingFiles a
       = absentFrom (treeFiles projectPath w)
           (checklist (d_framework (detectFramework (treeFiles projectPath w)))).
Proof.
  destruct (analyzeProject_cases projectPath w l) as (a & w' & Hrun & Hcase).
  exists a, w'. split; [exact Hrun|].
  destruct Hcase as [[Hu ->] | [Hin (analyzer & r & a2 & Hk & Hrn & Hfl & Han & Hco & Ha & Hr)]].
  - rewrite Hu. split; reflexivity.
  - destruct (analyzerFrame_run _ _ _ _ _ _ Hk Ha) as (Hf & _ & _).
    assert (Hfa : framework a = d_framework (detectFramework (treeFiles projectPath w))
                  /\ missingFiles a = missingFiles a2).
    { destruct r; subst a; cbn; split; first [exact Hf | reflexivity]. }
    destruct Hfa as [Hfa Hma]. rewrite Hfa, Hma.
    assert (Hm2 : a2 = (analyzer (afterWalk projectPath w, detected (treeFiles projectPath w))).2.2)
      by (rewrite Ha; reflexivity).
    cbn in Hin. destruct Hin as [E|[E|[E|[E|[]]]]]; symmetry in E; rewrite E; split;
      try reflexivity; rewrite Hm2.
    + rewrite (Hrn E). apply analyzeReactNative_missing.
    + rewrite (Hfl E). apply analyzeFlutter_missing.
    + rewrite (Han E). apply analyzeAndroid_missing.
    + rewrite (Hco E). apply analyzeCordova_missing.
Qed.

End Checklist.

(** ** The walker without failures *)

Lemma for_each_push {L A} (g : A -> L -> L) (xs : list A) (w : World) (l : L) :
  for_each xs (fun x => modify (g x)) (w, l) = (Ok tt, (w, fold_left (fun acc x => g x acc) xs l)).
Proof.
  revert l. induction xs as [|x xs IH]; intros l; cbn [for_each fold_left].
  - reflexivity.
  - rewrite run_bind_modify. apply IH.
Qed.

Lemma fold_left_snoc {A B} (g : A -> B) (xs : list A) (acc : list B) :
  fold_left (fun acc x => acc ++ [g x]) xs acc = acc ++ map g xs.
Proof.
  revert acc. induction xs as [|x xs IH]; intros acc; cbn.
  - symmetry. apply app_nil_r.
  - rewrite IH, <- app_assoc. reflexivity.
Qed.

Section WalkNoFault.
Context `{Runtime}.

Lemma run_listFiles_nofault {L} (dir : path) (w : World) (l : L) :
  faults w = [] ->
  FileManager.listFiles dir (w, l)
  = match FileManager.lookup_node (fs w) dir with
    | Some Dir => (Ok (fileNames (fs w) dir), (w, l))
    | _ => (Throw (error "ENOENT: no such directory"), (w, l))
    end.
Proof.
  intros Hf. unfold FileManager.listFiles.
  rewrite (run_bind_io_nofault _ _ _ Hf), run_bind_get_world.
  destruct (FileManager.lookup_node (fs w) dir) as [[d|]|]; reflexivity.
Qed.

Lemma run_listDirectories_nofault {L} (dir : path) (w : World) (l : L) :
  faults w = [] ->
  FileManager.listDirectories dir (w, l)
  = match FileManager.lookup_node (fs w) dir with
    | Some Dir => (Ok (dirNames (fs w) dir), (w, l))
    | _ => (Throw (error "ENOENT: no such directory"), (w, l))
    end.
Proof.
  intros Hf. unfold FileManager.listDirectories.
  rewrite (run_bind_io_nofault _ _ _ Hf), run_bind_get_world.
  destruct (FileManager.lookup_node (fs w) dir) as [[d|]|]; reflexivity.
Qed.

(** Without failures the walker leaves the world alone and appends the
    listing of the directory to its array. *)
Lemma walk_nofault (fuel : nat) (directory rel : path) (w : World) (acc : list string) :
  faults w = [] ->
  walk fuel directory rel (w, acc)
  = (Ok tt, (w, acc ++ listing fuel (fs w) directory rel)).
Proof.
  intros Hf. revert rel acc. induction fuel as [|fuel IH]; intros rel acc.
  - cbn. rewrite app_nil_r. reflexivity.
  - cbn [walk listing]. rewrite run_try_catch. cbv zeta.
    rewrite run_bind, (run_listFiles_nofault _ _ _ Hf).
    destruct (FileManager.lookup_node (fs w) (directory ++ rel)) as [[d|]|] eqn:Elook;
      try (rewrite run_ret, app_nil_r; reflexivity).
    rewrite run_bind, (run_listDirectories_nofault _ _ _ Hf), Elook.
    rewrite run_bind, for_each_push, fold_left_snoc.
    rewrite app_assoc. unfold render.
    set (acc' := acc ++ map _ _). clearbody acc'.
    destruct (splitLength rel <? 10)%nat.
    2: { rewrite run_ret, app_nil_r. reflexivity. }
    assert (Hloop : forall dirs acc0,
      for_each dirs
        (fun dir : string =>
           if negb (Js.startsWith dir ".") && negb (String.eqb dir "node_modules")
              && negb (String.eqb dir ".git")
           then sub ← call [] (walk fuel directory (rel ++ [dir]));
                modify (fun files : list string => files ++ sub.2)
           else mret tt) (w, acc0)
      = (Ok tt, (w, acc0 ++ flat_map (fun dir : string =>
                                if okDir dir then listing fuel (fs w) directory (rel ++ [dir])
                                else []) dirs))).
    { induction dirs as [|dir dirs IHd]; intros acc0; cbn [for_each flat_map].
      - rewrite app_nil_r. reflexivity.
      - rewrite run_bind. unfold okDir at 1.
        destruct (negb (Js.startsWith dir ".") && negb (String.eqb dir "node_modules")
                  && negb (String.eqb dir ".git")).
        + rewrite run_bind, run_call, IH. cbn [app snd]. rewrite run_modify.
          rewrite IHd, <- app_assoc. reflexivity.
        + rewrite run_ret, IHd. reflexivity. }
    rewrite Hloop. reflexivity.
Qed.

(** The analyzer only reads. *)
Lemma analyzeProject_readOnly {L} (projectPath : path) :
  keeps (@wrel L readOnly) (analyzeProject projectPath).
Proof.
  unfold analyzeProject, getAllFiles, analyzeReactNative, analyzeFlutter, analyzeAndroid,
    analyzeCordova.
  repeat first
    [ apply (keeps_call_wrel readOnly)
    | apply walk_readOnly
    | apply (wrel_modify readOnly)
    | apply (wrel_fault_blind readOnly readOnly_faults)
    | keeps_step ].
Qed.

Lemma analyzeProject_nofault {L} (projectPath : path) (w w' : World) (l l' : L) r :
  faults w = [] -> analyzeProject projectPath (w, l) = (r, (w', l')) ->
  fs w' = fs w /\ faults w' = [].
Proof.
  intros Hf Hrun. pose proof (analyzeProject_readOnly projectPath (w, l)) as Hro.
  rewrite Hrun in Hro. unfold wrel in Hro. cbn in Hro.
  split; [apply Hro | eapply readOnly_nofault; eauto].
Qed.

Lemma treeFiles_nofault (directory : path) (w : World) :
  faults w = [] -> treeFiles directory w = listing 11 (fs w) directory [].
Proof. intros Hf. unfold treeFiles. rewrite (walk_nofault _ _ _ _ _ Hf). reflexivity. Qed.

Lemma afterWalk_nofault (directory : path) (w : World) :
  faults w = [] -> afterWalk directory w = w.
Proof. intros Hf. unfold afterWalk. rewrite (walk_nofault _ _ _ _ _ Hf). reflexivity. Qed.

End WalkNoFault.

(** ** The listing of a tree, by membership *)

Lemma in_children (m : gmap path Node) (dir : path) (name : string) (n : Node) :
  In (name, n) (FileManager.children m dir) <-> m !! (dir ++ [name]) = Some n.
Proof.
  unfold FileManager.children. rewrite <- list_elem_of_In, list_elem_of_omap. split.
  - intros [[p n'] [Hin Hf]]. apply elem_of_map_to_list in Hin.
    destruct (last p) as [name'|] eqn:El; [|discriminate].
    apply last_Some in El as [p' ->]. rewrite removelast_last in Hf.
    case_bool_decide; [|discriminate]. simplify_eq. exact Hin.
  - intros Hp. exists (dir ++ [name], n). split; [apply elem_of_map_to_list, Hp|].
    rewrite last_snoc, removelast_last. rewrite bool_decide_eq_true_2 by reflexivity.
    reflexivity.
Qed.

Lemma in_fileNames (m : gmap path Node) (dir : path) (file : string) :
  In file (fileNames m dir) <-> exists data, m !! (dir ++ [file]) = Some (File data).
Proof.
  unfold fileNames. rewrite in_map_iff. split.
  - intros [[name n] [<- Hin]]. apply list_elem_of_In, list_elem_of_filter in Hin as [Hf Hin].
    apply list_elem_of_In, in_children in Hin. cbn in *.
    destruct n as [data|]; [eauto | discriminate].
  - intros [data Hp]. exists (file, File data). split; [reflexivity|].
    apply list_elem_of_In, list_elem_of_filter. split; [reflexivity|].
    apply list_elem_of_In, in_children, Hp.
Qed.

Lemma in_dirNames (m : gmap path Node) (dir : path) (name : string) :
  In name (dirNames m dir) <-> m !! (dir ++ [name]) = Some Dir.
Proof.
  unfold dirNames. rewrite in_map_iff. split.
  - intros [[name' n] [<- Hin]]. apply list_elem_of_In, list_elem_of_filter in Hin as [Hf Hin].
    apply list_elem_of_In, in_children in Hin. cbn in *.
    destruct n as [data|]; [discriminate | exact Hin].
  - intros Hp. exists (name, Dir). split; [reflexivity|].
    apply list_elem_of_In, list_elem_of_filter. split; [reflexivity|].
    apply list_elem_of_In, in_children, Hp.
Qed.

(** What it takes for a path to be listed at the next level. *)
Lemma in_listing_S (fuel : nat) (m : gmap path Node) (d rel : path) (f : string) :
  In f (listing (S fuel) m d rel)
  <-> FileManager.lookup_node m (d ++ rel) = Some Dir
      /\ ((exists file data, m !! ((d ++ rel) ++ [file]) = Some (File data)
                             /\ f = render (rel ++ [file]))
          \/ ((splitLength rel < 10)%nat
              /\ exists dir, m !! ((d ++ rel) ++ [dir]) = Some Dir /\ okDir dir = true
                             /\ In f (listing fuel m d (rel ++ [dir])))).
Proof.
  cbn [listing].
  destruct (FileManager.lookup_node m (d ++ rel)) as [[data|]|];
    [split; [intros [] | intros [? _]; discriminate] | | split; [intros [] | intros [? _]; discriminate]].
  rewrite in_app_iff, in_map_iff. split.
  - intros [(file & <- & Hin) | Hin].
    + split; [reflexivity|]. left. apply in_fileNames in Hin as [data Hp]. eauto.
    + split; [reflexivity|]. right.
      destruct (Nat.ltb_spec (splitLength rel) 10) as [Hlt|]; [|destruct Hin].
      split; [exact Hlt|]. apply in_flat_map in Hin as (dir & Hd & Hin).
      apply in_dirNames in Hd. exists dir.
      destruct (okDir dir); [auto | destruct Hin].
  - intros [_ [(file & data & Hp & ->) | (Hlt & dir & Hp & Hok & Hin)]].
    + left. exists file. split; [reflexivity|]. apply in_fileNames. eauto.
    + right. apply Nat.ltb_lt in Hlt. rewrite Hlt. apply in_flat_map. exists dir.
      split; [apply in_dirNames, Hp|]. rewrite Hok. exact Hin.
Qed.

Lemma listing_root_dir (fuel : nat) (m : gmap path Node) (d rel : path) (f : string) :
  In f (listing fuel m d rel) -> FileManager.lookup_node m (d ++ rel) = Some Dir.
Proof.
  destruct fuel as [|fuel]; [intros []|]. intros Hin. apply in_listing_S in Hin. tauto.
Qed.

(** ** A file system that only grows *)

Lemma grown_refl (news : list path) (m : gmap path Node) : grown news m m.
Proof. intros p. destruct (m !! p) as [n|]; auto. Qed.

Lemma grown_kept (news : list path) (m m' : gmap path Node) (p : path) (n : Node) :
  grown news m m' -> m !! p = Some n -> ~ In p news -> m' !! p = Some n.
Proof.
  intros Hg Hp Hout. specialize (Hg p). rewrite Hp in Hg.
  match type of Hg with
  | match ?t with _ => _ end => destruct t as [n'|]
  end; [|destruct Hg].
  destruct Hg as [_ [->|Hin]]; [reflexivity | contradiction].
Qed.

Lemma grown_some (news : list path) (m m' : gmap path Node) (p : path) :
  grown news m m' -> is_Some (m !! p) -> is_Some (m' !! p).
Proof.
  intros Hg [n Hp]. specialize (Hg p). rewrite Hp in Hg.
  match type of Hg with
  | match ?t with _ => _ end => destruct t as [n'|]
  end; [eauto | destruct Hg].
Qed.

Lemma grown_files (news : list path) (m m' : gmap path Node) (p : path) (data : string) :
  grown news m m' -> m' !! p = Some (File data) ->
  m !! p = Some (File data) \/ In p news.
Proof.
  intros Hg Hp. specialize (Hg p). rewrite Hp in Hg.
  match type of Hg with
  | match ?t with _ => _ end => destruct t as [n|]
  end; [|right; exact Hg].
  destruct Hg as [_ [E|Hin]]; [left; congruence | right; exact Hin].
Qed.

Lemma grown_trans (news : list path) (m1 m2 m3 : gmap path Node) :
  grown news m1 m2 -> grown news m2 m3 -> grown news m1 m3.
Proof.
  intros H12 H23 p. specialize (H12 p). specialize (H23 p).
  destruct (m1 !! p) as [n1|], (m2 !! p) as [n2|], (m3 !! p) as [n3|];
    try tauto; try congruence.
  - destruct H12 as [K12 [E12|I12]], H23 as [K23 [E23|I23]];
      (split; [congruence|]); auto. left. congruence.
  - destruct H23 as [K23 [E23|I23]]. 
    + subst n3. exact H12.
    + destruct n3; auto.
Qed.

Lemma grown_more (news news' : list path) (m m' : gmap path Node) :
  incl news news' -> grown news m m' -> grown news' m m'.
Proof.
  intros Hin Hg p. specialize (Hg p).
  destruct (m !! p) as [n|], (m' !! p) as [[d|]|]; auto;
    destruct Hg as [K [E|I]]; auto.
Qed.

Lemma grown_dir (news : list path) (m m' : gmap path Node) (p : path) :
  grown news m m' ->
  FileManager.lookup_node m p = Some Dir -> FileManager.lookup_node m' p = Some Dir.
Proof.
  intros Hg. destruct p as [|seg p]; [auto|].
  unfold FileManager.lookup_node. cbv beta iota. intros Hp.
  specialize (Hg (seg :: p)). rewrite Hp in Hg.
  match type of Hg with
  | match ?t with _ => _ end => destruct t as [[d|]|]
  end; cbn in Hg; [destruct Hg as [Hg _]; discriminate Hg | reflexivity | destruct Hg].
Qed.

Lemma grown_file (news : list path) (m m' : gmap path Node) (p : path) (data : string) :
  grown news m m' -> m !! p = Some (File data) -> exists data', m' !! p = Some (File data').
Proof.
  intros Hg Hp. specialize (Hg p). rewrite Hp in Hg.
  match type of Hg with
  | match ?t with _ => _ end => destruct t as [[d|]|]
  end; cbn in Hg; [eauto | destruct Hg as [Hg _]; discriminate Hg | destruct Hg].
Qed.

Lemma grown_dirsTo (news : list path) (m m' : gmap path Node) (p : path) :
  grown news m m' -> dirsTo m p -> dirsTo m' p.
Proof. intros Hg Hd k. eapply grown_dir; eauto. Qed.

(** What was listed stays listed. *)
Lemma listing_grown (news : list path) (m m' : gmap path Node) (d : path) :
  grown news m m' ->
  forall fuel rel f, In f (listing fuel m d rel) -> In f (listing fuel m' d rel).
Proof.
  intros Hg. induction fuel as [|fuel IH]; intros rel f; [intros []|].
  rewrite !in_listing_S.
  intros [Hd [(file & data & Hp & ->) | (Hlt & dir & Hp & Hok & Hin)]];
    (split; [eapply grown_dir; eauto|]).
  - left. destruct (grown_file _ _ _ _ _ Hg Hp) as [data' Hp']. eauto.
  - right. split; [exact Hlt|]. exists dir. split; [|auto].
    rewrite <- lookup_node_snoc in Hp |- *. eapply grown_dir; eauto.
Qed.

(** What is listed afterwards was listed before, or is one of the new files. *)
Lemma listing_grown_inv (news : list path) (m m' : gmap path Node) (d : path) :
  wellFormed m -> grown news m m' ->
  forall fuel rel f, In f (listing fuel m' d rel) ->
    In f (listing fuel m d rel) \/ exists q, In (d ++ q) news /\ f = render q.
Proof.
  intros Hwf Hg. induction fuel as [|fuel IH]; intros rel f; [intros []|].
  rewrite !in_listing_S.
  intros [Hd [(file & data & Hp & ->) | (Hlt & dir & Hp & Hok & Hin)]].
  - pose proof (Hg ((d ++ rel) ++ [file])) as Hk. unfold path in *. rewrite Hp in Hk.
    destruct (m !! ((d ++ rel) ++ [file])) as [[data0|]|] eqn:Hp0.
    + left. split; [eapply Hwf; eauto|]. left. eauto.
    + destruct Hk as [Hk _]. discriminate Hk.
    + right. exists (rel ++ [file]). rewrite app_assoc. auto.
  - destruct (IH _ _ Hin) as [Hold | Hnew]; [left | right; exact Hnew].
    pose proof (listing_root_dir _ _ _ _ _ Hold) as Hdd.
    rewrite app_assoc, lookup_node_snoc in Hdd.
    split; [eapply Hwf; eauto|]. right. split; [exact Hlt|]. exists dir. auto.
Qed.

(** A regular file below directories with ordinary names, not too deep, is
    listed. *)
Lemma listing_complete (m : gmap path Node) (d : path) (file : string) (data : string) :
  forall names rel fuel,
    (length names < fuel)%nat ->
    (length rel + length names <= 10)%nat ->
    (forall k, FileManager.lookup_node m (d ++ rel ++ take k names) = Some Dir) ->
    forallb okDir names = true ->
    m !! (d ++ rel ++ names ++ [file]) = Some (File data) ->
    In (render (rel ++ names ++ [file])) (listing fuel m d rel).
Proof.
  induction names as [|name names IH]; intros rel fuel Hfuel Hdepth Hdirs Hok Hp;
    (destruct fuel as [|fuel]; [cbn in Hfuel; lia|]); apply in_listing_S.
  - specialize (Hdirs 0%nat). cbn in Hdirs. rewrite app_nil_r in Hdirs.
    split; [exact Hdirs|]. left. exists file, data. cbn in Hp. rewrite <- app_assoc. auto.
  - split; [specialize (Hdirs 0%nat); cbn in Hdirs; rewrite app_nil_r in Hdirs; exact Hdirs|].
    right. cbn in Hok. apply andb_true_iff in Hok as [Hok1 Hok].
    split; [unfold splitLength; cbn in Hdepth; lia|].
    exists name. split; [|split; [exact Hok1|]].
    + specialize (Hdirs 1%nat). cbn in Hdirs. rewrite take_0 in Hdirs.
      rewrite app_assoc, lookup_node_snoc in Hdirs. exact Hdirs.
    + replace (rel ++ (name :: names) ++ [file]) with ((rel ++ [name]) ++ names ++ [file])
        by (rewrite <- app_assoc; reflexivity).
      apply IH.
      * cbn in Hfuel. lia.
      * rewrite length_app. cbn in *. lia.
      * intros k. specialize (Hdirs (S k)). cbn in Hdirs.
        rewrite <- app_assoc. exact Hdirs.
      * exact Hok.
      * rewrite <- app_assoc. exact Hp.
Qed.

(** ** What the synthesizer leaves in the tree *)

Lemma grown_insert_dir (news : list path) (m : gmap path Node) (p : path) :
  m !! p = None -> grown news m (<[p := Dir]> m).
Proof.
  intros E q. destruct (decide (p = q)) as [<-|Hne].
  - rewrite lookup_insert_eq, E. exact I.
  - rewrite lookup_insert_ne by exact Hne. destruct (m !! q); auto.
Qed.

Lemma grown_insert_file (m : gmap path Node) (p : path) (data : string) :
  m !! p <> Some Dir -> grown [p] m (<[p := File data]> m).
Proof.
  intros E q. destruct (decide (p = q)) as [<-|Hne].
  - rewrite lookup_insert_eq. destruct (m !! p) as [[d|]|];
      [split; [reflexivity | right; left; reflexivity] | congruence | left; reflexivity].
  - rewrite lookup_insert_ne by exact Hne. destruct (m !! q); auto.
Qed.

Lemma mkdirs_grown (news : list path) (todo pre : path) (m m' : gmap path Node) :
  FileManager.mkdirs pre todo m = Some m' -> grown news m m'.
Proof.
  revert pre m. induction todo as [|seg todo IH]; intros pre m Hmk; cbn in Hmk.
  - simplify_eq. apply grown_refl.
  - destruct (m !! (pre ++ [seg])) as [[d|]|] eqn:E; [discriminate | eauto |].
    eapply grown_trans; [|eapply IH, Hmk]. apply grown_insert_dir, E.
Qed.

Lemma mkdirs_dirs (todo pre : path) (m m' : gmap path Node) :
  FileManager.mkdirs pre todo m = Some m' ->
  FileManager.lookup_node m pre = Some Dir ->
  forall k, FileManager.lookup_node m' (pre ++ take k todo) = Some Dir.
Proof.
  revert pre m. induction todo as [|seg todo IH]; intros pre m Hmk Hpre k.
  - cbn in Hmk. simplify_eq. rewrite take_nil, app_nil_r. exact Hpre.
  - destruct k as [|k].
    + rewrite take_0, app_nil_r. eapply grown_dir; [eapply (mkdirs_grown []), Hmk | exact Hpre].
    + cbn [take]. replace (pre ++ seg :: take k todo) with ((pre ++ [seg]) ++ take k todo)
        by (rewrite <- app_assoc; reflexivity).
      cbn in Hmk. destruct (m !! (pre ++ [seg])) as [[d|]|] eqn:E; [discriminate | |].
      * eapply IH; [exact Hmk|]. rewrite lookup_node_snoc. exact E.
      * eapply IH; [exact Hmk|]. rewrite lookup_node_snoc. apply lookup_insert_eq.
Qed.

Lemma write_grown (p : path) (data : string) (m m' : gmap path Node) :
  FileManager.write p data m = Some m' -> grown [p] m m'.
Proof.
  intros Hw. pose proof (write_insert _ _ _ _ Hw) as ->.
  apply grown_insert_file. intros Hd. unfold FileManager.write in Hw.
  destruct p as [|seg p]; [discriminate|]. rewrite Hd in Hw. discriminate.
Qed.

#[local] Instance grows_preorder news : PreOrder (grows news).
Proof.
  split.
  - intros w. split; [apply grown_refl | auto].
  - intros w1 w2 w3 [G12 F12] [G23 F23]. split; [eapply grown_trans; eauto | auto].
Qed.

Lemma readOnly_grows news w w' : readOnly w w' -> grows news w w'.
Proof.
  intros Hro. split.
  - destruct Hro as (-> & _). apply grown_refl.
  - apply readOnly_nofault, Hro.
Qed.

Lemma ensureDirectory_grows {L} news dir :
  keeps (@wrel_same L (grows news)) (FileManager.ensureDirectory dir).
Proof.
  intros [w l].
  destruct (ensureDirectory_cases dir w l) as (w1 & Hro & [[e Hr]|(m & Hmk & Hr)]);
    rewrite Hr; (split; [|reflexivity]); cbn [fst snd].
  - apply readOnly_grows, Hro.
  - split; cbn.
    + eapply mkdirs_grown, Hmk.
    + apply readOnly_nofault, Hro.
Qed.

Lemma writeFile_grows {L} news p data :
  In p news -> keeps (@wrel_same L (grows news)) (FileManager.writeFile p data).
Proof.
  intros Hin [w l].
  destruct (writeFile_cases p data w l) as (w1 & Hro & [[e Hr]|(Hw & Hr)]);
    rewrite Hr; (split; [|reflexivity]); cbn [fst snd].
  - apply readOnly_grows, Hro.
  - split; cbn.
    + eapply grown_more; [|eapply write_grown, Hw]. intros q [<-|[]]. exact Hin.
    + apply readOnly_nofault, Hro.
Qed.

Lemma createMissingFile_grows {L} pp analysis news entry :
  (hasTemplate entry = true -> In (Path.join pp entry) news) ->
  keeps (@wrel_same L (grows news)) (createMissingFile pp analysis entry).
Proof.
  intros Hin. unfold createMissingFile, createAndroidManifest, createBuildGradle,
    createPackageJson, createConfigXml. cbv zeta.
  keeps_step; [apply ensureDirectory_grows|].
  unfold hasTemplate in Hin.
  destruct (Js.includes entry "AndroidManifest.xml"); [apply writeFile_grows, Hin; reflexivity|].
  destruct (Js.includes entry "build.gradle"); [apply writeFile_grows, Hin; reflexivity|].
  destruct (Js.includes entry "package.json"); [apply writeFile_grows, Hin; reflexivity|].
  destruct (Js.includes entry "config.xml"); [apply writeFile_grows, Hin; reflexivity|].
  keeps_step.
Qed.

Lemma createMissingFiles_grows {L} pp analysis :
  keeps (@wrel_same L (grows (map (Path.join pp) (missingFiles analysis))))
    (createMissingFiles pp analysis).
Proof.
  unfold createMissingFiles. apply (keeps_for_each _). intros entry Hin.
  apply createMissingFile_grows. intros _. apply in_map, Hin.
Qed.

(** An iteration for an entry with a template, when it completes, leaves the
    file in place below directories. *)
Lemma createMissingFile_creates {L} pp analysis entry (w w' : World) (l l' : L) :
  hasTemplate entry = true ->
  createMissingFile pp analysis entry (w, l) = (Ok tt, (w', l')) ->
  (exists data, fs w' !! Path.join pp entry = Some (File data))
  /\ dirsTo (fs w') (Path.dirname (Path.join pp entry)).
Proof.
  intros Ht. unfold createMissingFile. cbv zeta. rewrite run_bind.
  destruct (ensureDirectory_cases (Path.dirname (Path.join pp entry)) w l)
    as (w1 & Hro & [[e Hr]|(m & Hmk & Hr)]); rewrite Hr; [intros Hx; absurd_run Hx|].
  cbv beta iota.
  assert (Hdirs : dirsTo m (Path.dirname (Path.join pp entry))).
  { intros k. apply (mkdirs_dirs _ [] _ _ Hmk). reflexivity. }
  assert (Hwrite : forall data,
    FileManager.writeFile (Path.join pp entry) data (set_fs m w1, l) = (Ok tt, (w', l')) ->
    (exists data, fs w' !! Path.join pp entry = Some (File data))
    /\ dirsTo (fs w') (Path.dirname (Path.join pp entry))).
  { intros data Hrun.
    destruct (writeFile_cases (Path.join pp entry) data (set_fs m w1) l)
      as (w2 & Hro2 & [[e Hr2]|(Hw & Hr2)]); rewrite Hr2 in Hrun; [discriminate|].
    simplify_eq. cbn [fs set_fs] in *. split.
    - exists data. apply lookup_insert_eq.
    - eapply grown_dirsTo; [eapply write_grown, Hw | exact Hdirs]. }
  unfold createAndroidManifest, createBuildGradle, createPackageJson, createConfigXml.
  cbv zeta.
  unfold hasTemplate in Ht.
  destruct (Js.includes entry "AndroidManifest.xml"); [apply Hwrite|].
  destruct (Js.includes entry "build.gradle"); [apply Hwrite|].
  destruct (Js.includes entry "package.json"); [apply Hwrite|].
  destruct (Js.includes entry "config.xml"); [apply Hwrite|].
  discriminate Ht.
Qed.

Lemma createMissingFiles_creates {L} pp analysis (entries : list string) :
  forallb hasTemplate entries = true ->
  forall (w w' : World) (l l' : L),
    for_each entries (createMissingFile pp analysis) (w, l) = (Ok tt, (w', l')) ->
    forall entry, In entry entries ->
      (exists data, fs w' !! Path.join pp entry = Some (File data))
      /\ dirsTo (fs w') (Path.dirname (Path.join pp entry)).
Proof.
  induction entries as [|e entries IH]; intros Hall w w' l l' Hrun entry Hin; [destruct Hin|].
  cbn in Hall. apply andb_true_iff in Hall as [He Hall].
  cbn [for_each] in Hrun. rewrite run_bind in Hrun.
  stage in Hrun as [[[]|ex] [w1 l1]] eqn E1; [|absurd_run Hrun].
  destruct Hin as [<-|Hin]; [|eapply IH; eauto].
  destruct (createMissingFile_creates _ _ _ _ _ _ _ He E1) as [[data Hfile] Hdirs].
  assert (Hk : keeps (@wrel_same L (grows (map (Path.join pp) entries)))
                 (for_each entries (createMissingFile pp analysis))).
  { apply (keeps_for_each _). intros x Hx. apply createMissingFile_grows. intros _.
    apply in_map, Hx. }
  destruct (keeps_run _ _ _ _ _ Hk Hrun) as [[Hg _] _]. cbn [fst snd] in Hg.
  split.
  - eapply grown_file; eauto.
  - eapply grown_dirsTo; eauto.
Qed.

(** ** Detection on a tree that gained synthesized files *)

Lemma some_mono {A} (P : A -> bool) (F F' : list A) :
  incl F F' -> some P F = true -> some P F' = true.
Proof.
  unfold some. intros Hin HF. apply existsb_exists in HF as (x & Hx & HP).
  apply existsb_exists. exists x. auto.
Qed.

Lemma some_stable {A} (P : A -> bool) (F F' N : list A) :
  incl F F' -> (forall f, In f F' -> In f F \/ In f N) ->
  forallb (fun f => negb (P f)) N = true ->
  some P F' = some P F.
Proof.
  intros Hsub Hsup HN. destruct (some P F) eqn:HF; [eapply some_mono; eauto|].
  unfold some in *. apply not_true_is_false. intros HF'.
  apply existsb_exists in HF' as (x & Hx & HP).
  destruct (Hsup _ Hx) as [Hold | Hnew].
  - assert (existsb P F = true) by (apply existsb_exists; eauto). congruence.
  - rewrite forallb_forall in HN. specialize (HN _ Hnew). rewrite HP in HN. discriminate.
Qed.

(** Files synthesized for the checklist of the detected framework do not
    change what is detected. *)
Lemma detect_stable (F F' : list string) :
  incl F F' ->
  (forall f, In f F' ->
     In f F \/ In f (List.filter hasTemplate (checklist (d_framework (detectFramework F))))) ->
  d_framework (detectFramework F') = d_framework (detectFramework F).
Proof.
  intros Hsub. unfold detectFramework. cbv zeta.
  set (pj := fun f => Js.includes f "package.json").
  set (rn := fun f => Js.includes f "react-native" || Js.includes f "metro.config").
  set (pub := fun f => Js.includes f "pubspec.yaml").
  set (andr := fun f => Js.includes f "build.gradle" || Js.includes f "AndroidManifest.xml").
  set (cor := fun f => Js.includes f "config.xml" && Js.includes f "www").
  destruct (some pj F && some rn F) eqn:B1.
  { intros _. apply andb_true_iff in B1 as [B1 B1'].
    rewrite (some_mono _ _ _ Hsub B1), (some_mono _ _ _ Hsub B1'). reflexivity. }
  destruct (some pub F) eqn:B2.
  { cbn [d_framework]. intros Hsup.
    rewrite (some_stable pj F F' _ Hsub Hsup), (some_stable rn F F' _ Hsub Hsup), B1
      by reflexivity.
    rewrite (some_mono _ _ _ Hsub B2). reflexivity. }
  destruct (some andr F) eqn:B3.
  { cbn [d_framework]. intros Hsup.
    rewrite (some_stable pj F F' _ Hsub Hsup), (some_stable rn F F' _ Hsub Hsup), B1
      by reflexivity.
    rewrite (some_stable pub F F' _ Hsub Hsup), B2 by reflexivity.
    rewrite (some_mono _ _ _ Hsub B3). reflexivity. }
  destruct (some cor F) eqn:B4.
  { cbn [d_framework]. intros Hsup.
    rewrite (some_stable pj F F' _ Hsub Hsup), (some_stable rn F F' _ Hsub Hsup), B1
      by reflexivity.
    rewrite (some_stable pub F F' _ Hsub Hsup), B2 by reflexivity.
    rewrite (some_stable andr F F' _ Hsub Hsup), B3 by reflexivity.
    rewrite (some_mono _ _ _ Hsub B4). reflexivity. }
  cbn [d_framework]. intros Hsup.
  rewrite (some_stable pj F F' _ Hsub Hsup), (some_stable rn F F' _ Hsub Hsup), B1
    by reflexivity.
  rewrite (some_stable pub F F' _ Hsub Hsup), B2 by reflexivity.
  rewrite (some_stable andr F F' _ Hsub Hsup), B3 by reflexivity.
  rewrite (some_stable cor F F' _ Hsub Hsup), B4 by reflexivity.
  reflexivity.
Qed.

(** ** Round trip: analysis, synthesis, analysis *)

(** A checklist entry that [path.join] appends as it stands and that the
    walker reaches: ordinary segments, no directory the walker skips, within
    its depth, printed back as written. *)
Definition wellPlaced (entry : string) : bool :=
  let segs := Path.split entry in
  negb (Nat.eqb (length segs) 0) && forallb plain segs && forallb okDir (removelast segs)
  && (length segs <=? 11)%nat && String.eqb (render segs) entry && Js.includes entry entry.

Lemma checklist_wellPlaced (fw : string) : forallb wellPlaced (checklist fw) = true.
Proof.
  unfold checklist.
  repeat match goal with
         | |- context [if ?b then _ else _] => destruct b
         end; vm_compute; reflexivity.
Qed.

Lemma absentFrom_In (files required : list string) (entry : string) :
  In entry (absentFrom files required)
  <-> In entry required /\ some (fun f => Js.includes f entry) files = false.
Proof.
  unfold absentFrom. rewrite filter_In, negb_true_iff. reflexivity.
Qed.

Lemma absentFrom_nil (files required : list string) :
  (forall entry, In entry required -> some (fun f => Js.includes f entry) files = true) ->
  absentFrom files required = [].
Proof.
  intros Hall. unfold absentFrom. induction required as [|e required IH]; [reflexivity|].
  cbn. rewrite (Hall e) by (left; reflexivity). cbn. apply IH.
  intros entry Hin. apply Hall. right. exact Hin.
Qed.

(** A well-placed entry that is a regular file below directories is listed
    under its own name. *)
Lemma listed_when_created (m : gmap path Node) (pp : path) (entry : string) (data : string) :
  wellPlaced entry = true ->
  m !! Path.join pp entry = Some (File data) ->
  dirsTo m (Path.dirname (Path.join pp entry)) ->
  In entry (listing 11 m pp []).
Proof.
  unfold wellPlaced. cbv zeta. intros Hwp.
  apply andb_true_iff in Hwp as [Hwp Hinc]. apply andb_true_iff in Hwp as [Hwp Hrender].
  apply andb_true_iff in Hwp as [Hwp Hlen]. apply andb_true_iff in Hwp as [Hwp Hok].
  apply andb_true_iff in Hwp as [Hne Hplain].
  rewrite (join_plain _ _ Hplain). apply String.eqb_eq in Hrender. apply Nat.leb_le in Hlen.
  destruct (Path.split entry) as [|seg0 segs0]; [discriminate|].
  destruct (@exists_last _ (seg0 :: segs0)) as (names & file & Eq); [discriminate|].
  rewrite Eq in *. clear Eq seg0 segs0 Hne.
  rewrite removelast_last in Hok. rewrite length_app in Hlen. cbn in Hlen.
  unfold Path.dirname. rewrite app_assoc, removelast_last.
  intros Hfile Hdirs. rewrite <- Hrender.
  apply (listing_complete m pp file data names [] 11).
  - lia.
  - cbn. lia.
  - intros k. cbn [app]. specialize (Hdirs (length pp + k)%nat).
    rewrite take_app_add in Hdirs. exact Hdirs.
  - exact Hok.
  - cbn [app]. rewrite app_assoc. exact Hfile.
Qed.

(** [wellFormed], checked on the entries of a map. *)
Definition hasParents (m : gmap path Node) : bool :=
  forallb (fun e : path * Node =>
             match e.1 with
             | [] => true
             | _ => match FileManager.lookup_node m (removelast e.1) with
                    | Some Dir => true
                    | _ => false
                    end
             end) (map_to_list m).

Lemma hasParents_wellFormed (m : gmap path Node) : hasParents m = true -> wellFormed m.
Proof.
  unfold hasParents. rewrite forallb_forall. intros Hall p seg n Hp.
  specialize (Hall (p ++ [seg], n)). cbn [fst] in Hall.
  rewrite removelast_last in Hall.
  destruct (p ++ [seg]) as [|x y] eqn:E; [destruct p; discriminate|].
  assert (Hin : In (x :: y, n) (map_to_list m))
    by (apply list_elem_of_In, elem_of_map_to_list; exact Hp).
  specialize (Hall Hin).
  destruct (FileManager.lookup_node m p) as [[d|]|]; [discriminate | reflexivity | discriminate].
Qed.

Section RoundTrip.
Context `{Runtime}.

(** After synthesis the walker lists what it listed before and the
    synthesized entries, under their checklist names. *)
Lemma treeFiles_after_synthesis {L} (pp : path) (analysis : ProjectAnalysis)
    (w w' : World) (l l' : L) :
  faults w = [] -> wellFormed (fs w) ->
  forallb wellPlaced (missingFiles analysis) = true ->
  createMissingFiles pp analysis (w, l) = (Ok tt, (w', l')) ->
  faults w' = []
  /\ incl (treeFiles pp w) (treeFiles pp w')
  /\ (forall f, In f (treeFiles pp w') ->
        In f (treeFiles pp w) \/ In f (missingFiles analysis)).
Proof.
  intros Hf Hwf Hwp Hrun.
  destruct (keeps_run _ _ _ _ _ (createMissingFiles_grows pp analysis) Hrun) as [[Hg Hf'] _].
  cbn [fst snd] in Hg, Hf'. specialize (Hf' Hf).
  rewrite (treeFiles_nofault _ _ Hf), (treeFiles_nofault _ _ Hf').
  split; [exact Hf'|]. split.
  - intros f. eapply listing_grown, Hg.
  - intros f Hin.
    destruct (listing_grown_inv _ _ _ pp Hwf Hg _ _ _ Hin) as [Hold | (q & Hq & ->)];
      [left; exact Hold | right].
    apply in_map_iff in Hq as (entry & Hjoin & Hentry).
    rewrite forallb_forall in Hwp. pose proof (Hwp _ Hentry) as Hw1.
    unfold wellPlaced in Hw1. cbv zeta in Hw1.
    apply andb_true_iff in Hw1 as [Hw1 _]. apply andb_true_iff in Hw1 as [Hw1 Hrender].
    apply andb_true_iff in Hw1 as [Hw1 _]. apply andb_true_iff in Hw1 as [Hw1 _].
    apply andb_true_iff in Hw1 as [_ Hplain].
    rewrite (join_plain _ _ Hplain) in Hjoin. apply app_inv_head in Hjoin. subst q.
    apply String.eqb_eq in Hrender. rewrite Hrender. exact Hentry.
Qed.

(** X13. Round trip. In a tree-shaped file system and without failures of the
    environment: when every entry that the analysis reports missing is one
    the synthesizer has a template for, and [createMissingFiles] completes,
    a second analysis detects the same framework and reports nothing missing. *)
Theorem createMissingFiles_round_trip {L} (projectPath : path) (w w1 w2 : World)
    (l l2 : L) (analysis : ProjectAnalysis) :
  faults w = [] -> wellFormed (fs w) ->
  analyzeProject projectPath (w, l) = (Ok analysis, (w1, l)) ->
  forallb hasTemplate (missingFiles analysis) = true ->
  createMissingFiles projectPath analysis (w1, l) = (Ok tt, (w2, l2)) ->
  exists analysis2 w3,
    analyzeProject projectPath (w2, l2) = (Ok analysis2, (w3, l2))
    /\ framework analysis2 = framework analysis
    /\ missingFiles analysis2 = [].
Proof.
  intros Hf Hwf Hrun Htpl Hsyn.
  destruct (analyzeProject_summary projectPath w l) as (a & w' & Hrun' & Hfw & Hmiss).
  rewrite Hrun in Hrun'. assert (Ea : a = analysis) by congruence. subst a. clear Hrun'.
  destruct (analyzeProject_nofault _ _ _ _ _ _ Hf Hrun) as [Hfs1 Hf1].
  set (F := treeFiles projectPath w) in *.
  set (fw := d_framework (detectFramework F)) in *.
  assert (Hwp : forallb wellPlaced (missingFiles analysis) = true).
  { apply forallb_forall. intros e He. rewrite Hmiss in He. apply absentFrom_In in He as [He _].
    pose proof (checklist_wellPlaced fw) as Hall. rewrite forallb_forall in Hall. auto. }
  assert (HF1 : treeFiles projectPath w1 = F).
  { unfold F. rewrite (treeFiles_nofault _ _ Hf), (treeFiles_nofault _ _ Hf1), Hfs1.
    reflexivity. }
  assert (Hwf1 : wellFormed (fs w1)) by (rewrite Hfs1; exact Hwf).
  destruct (treeFiles_after_synthesis _ _ _ _ _ _ Hf1 Hwf1 Hwp Hsyn) as (Hf2 & Hsub & Hsup).
  rewrite HF1 in Hsub, Hsup.
  set (F' := treeFiles projectPath w2) in *.
  assert (Hdet : d_framework (detectFramework F') = fw).
  { apply detect_stable; [exact Hsub|]. intros f Hin.
    destruct (Hsup _ Hin) as [Hold | Hnew]; [left; exact Hold | right].
    apply filter_In. split.
    - rewrite Hmiss in Hnew. apply absentFrom_In in Hnew. apply Hnew.
    - rewrite forallb_forall in Htpl. auto. }
  destruct (analyzeProject_summary projectPath w2 l2) as (a2 & w3 & Hrun2 & Hfw2 & Hmiss2).
  exists a2, w3. split; [exact Hrun2|].
  fold F' in Hfw2, Hmiss2. rewrite Hdet in Hfw2, Hmiss2.
  split; [congruence|].
  rewrite Hmiss2. apply absentFrom_nil. intros entry Hentry.
  destruct (some (fun f => Js.includes f entry) F) eqn:Hold.
  - eapply some_mono; eauto.
  - assert (Hm : In entry (missingFiles analysis))
      by (rewrite Hmiss; apply absentFrom_In; auto).
    rewrite forallb_forall in Htpl, Hwp.
    destruct (createMissingFiles_creates projectPath analysis (missingFiles analysis)
                ltac:(apply forallb_forall; exact Htpl) _ _ _ _ Hsyn entry Hm)
      as [[data Hfile] Hdirs].
    pose proof (listed_when_created _ _ _ _ (Hwp _ Hm) Hfile Hdirs) as Hlisted.
    unfold F'. rewrite (treeFiles_nofault _ _ Hf2).
    unfold some. apply existsb_exists. exists entry. split; [exact Hlisted|].
    specialize (Hwp _ Hm). unfold wellPlaced in Hwp. cbv zeta in Hwp.
    apply andb_true_iff in Hwp as [_ Hinc]. exact Hinc.
Qed.

End RoundTrip.

Lemma createMissingFiles_round_trip_witness :
  exists analysis2 w3,
    analyzeProject (H:=demoRuntime) ["srv"; "app"] (androidSynthesized, tt)
    = (Ok analysis2, (w3, tt))
    /\ framework analysis2 = framework androidAnalysis
    /\ missingFiles analysis2 = [].
Proof.
  apply (createMissingFiles_round_trip (H:=demoRuntime) (L:=unit) ["srv"; "app"]
           androidWithoutSdk androidWithoutSdk androidSynthesized tt tt androidAnalysis).
  - reflexivity.
  - apply hasParents_wellFormed. vm_compute. reflexivity.
  - vm_compute. reflexivity.
  - vm_compute. reflexivity.
  - vm_compute. reflexivity.
Defined.

(** ** What the walker lists *)

Lemma listing_sound (m : gmap path Node) (d : path) :
  forall fuel rel f,
    In f (listing fuel m d rel) ->
    exists names file data,
      f = render (rel ++ names ++ [file])
      /\ (length names < fuel)%nat
      /\ (names = [] \/ length rel + length names <= 10)%nat
      /\ forallb okDir names = true
      /\ (forall k, FileManager.lookup_node m (d ++ rel ++ take k names) = Some Dir)
      /\ m !! (d ++ rel ++ names ++ [file]) = Some (File data).
Proof.
  induction fuel as [|fuel IH]; intros rel f; [intros []|].
  rewrite in_listing_S.
  intros [Hd [(file & data & Hp & ->) | (Hlt & dir & Hp & Hok & Hin)]].
  - exists [], file, data. cbn [app length]. repeat split.
    + lia.
    + left. reflexivity.
    + intros k. rewrite take_nil, app_nil_r. exact Hd.
    + rewrite app_assoc. exact Hp.
  - destruct (IH _ _ Hin) as (names & file & data & -> & Hfuel & Hdepth & Hoks & Hdirs & Hfile).
    exists (dir :: names), file, data.
    rewrite <- !app_assoc in *. cbn [app] in *. repeat split.
    + cbn. lia.
    + right. unfold splitLength in Hlt. rewrite length_app in Hdepth. cbn in *.
      destruct Hdepth as [->|Hdepth]; cbn; lia.
    + cbn. rewrite Hok. exact Hoks.
    + intros [|k]; [rewrite take_0, app_nil_r; exact Hd|]. cbn [take].
      specialize (Hdirs k). rewrite <- app_assoc in Hdirs. exact Hdirs.
    + exact Hfile.
Qed.

Section Walker.
Context `{Runtime}.

(** X1. The walker, when the environment does not fail, returns exactly the
    regular files that lie at most ten directories below the start, along
    directories whose names do not start with a dot and are not
    [node_modules]; each as its relative path with ['/'] between the
    segments. It leaves the world and the caller's state as they were. *)
Theorem getAllFiles_lists_exactly {L} (directory : path) (w : World) (l : L) :
  faults w = [] ->
  exists files,
    getAllFiles directory (w, l) = (Ok files, (w, l))
    /\ forall f,
        In f files
        <-> exists names file data,
              f = render (names ++ [file])
              /\ (length names <= 10)%nat
              /\ forallb okDir names = true
              /\ (forall k, FileManager.lookup_node (fs w) (directory ++ take k names)
                            = Some Dir)
              /\ fs w !! (directory ++ names ++ [file]) = Some (File data).
Proof.
  intros Hf. exists (treeFiles directory w). split.
  - rewrite getAllFiles_eq, (afterWalk_nofault _ _ Hf). reflexivity.
  - intros f. rewrite (treeFiles_nofault _ _ Hf). split.
    + intros Hin. apply listing_sound in Hin
        as (names & file & data & -> & Hfuel & Hdepth & Hoks & Hdirs & Hfile).
      exists names, file, data. cbn [app] in *. repeat split; auto.
      destruct Hdepth as [->|Hdepth]; cbn in *; lia.
    + intros (names & file & data & -> & Hlen & Hoks & Hdirs & Hfile).
      apply (listing_complete (fs w) directory file data names [] 11); cbn [app length];
        auto; lia.
Qed.

End Walker.

Lemma getAllFiles_lists_exactly_witness :
  exists files,
    getAllFiles ["srv"; "app"] (androidWithoutSdk, tt)
    = (Ok files, (androidWithoutSdk, tt))
    /\ forall f,
        In f files
        <-> exists names file data,
              f = render (names ++ [file])
              /\ (length names <= 10)%nat
              /\ forallb okDir names = true
              /\ (forall k, FileManager.lookup_node (fs androidWithoutSdk)
                              (["srv"; "app"] ++ take k names) = Some Dir)
              /\ fs androidWithoutSdk !! (["srv"; "app"] ++ names ++ [file])
                 = Some (File data).
Proof.
  apply (getAllFiles_lists_exactly (H:=demoRuntime) (L:=unit) ["srv"; "app"]
           androidWithoutSdk tt).
  reflexivity.
Defined.

(** ** The builder only adds to the project tree *)

Lemma grows_faults news w x rest : faults w = x :: rest -> grows news w (set_faults rest w).
Proof. intros E. split; [apply grown_refl|]. intros E0. rewrite E in E0. discriminate. Qed.

Lemma keeps_weaken {L A} (Rw : relation World) (m : M L A) :
  keeps (wrel_same Rw) m -> keeps (wrel Rw) m.
Proof. intros Hk s. destruct (Hk s) as [Hw _]. exact Hw. Qed.

Section Grows.
Context `{Runtime}.
Variable news : list path.

Lemma writeZip_grows target :
  In target news -> keeps (wrel (grows news)) (AdmZip.writeZip target).
Proof.
  intros Hin [w zip]. unfold AdmZip.writeZip, wrel. rewrite run_bind.
  stage as [[[]|e] [w1 z1]] eqn Eio;
    destruct (keeps_run _ _ _ _ _ io_readOnly Eio) as [Hro Hz]; cbn [fst snd] in Hro, Hz;
    subst z1.
  2: { cbn. apply readOnly_grows, Hro. }
  rewrite run_bind_get_local, run_bind_get_world.
  destruct (FileManager.write target (zipData zip) (fs w1)) as [m|] eqn:Ew.
  - rewrite run_modify_world. cbn. split; cbn.
    + destruct Hro as (Hfs & _). rewrite <- Hfs.
      eapply grown_more; [|eapply write_grown, Ew]. intros q [<-|[]]; exact Hin.
    + apply readOnly_nofault, Hro.
  - rewrite run_throw. cbn. apply readOnly_grows, Hro.
Qed.

Ltac grows_step :=
  lazymatch goal with
  | |- keeps _ (AdmZip.writeZip _) => apply writeZip_grows
  | |- keeps _ AdmZip.load => unfold AdmZip.load
  | |- keeps _ (addFrameworkAssets _ _) =>
      apply (addFrameworkAssets_frame (grows news) (grows_faults news))
  | |- keeps _ (AdmZip.addFile _ _) => apply (addFile_frame (grows news))
  | |- keeps _ (FileManager.writeFile _ _) => apply writeFile_grows
  | |- keeps _ (FileManager.ensureDirectory _) => apply ensureDirectory_grows
  | |- keeps (wrel_same _) (call _ _) => apply (keeps_call_wrel_same (grows news))
  | |- keeps (wrel _) (callProgress _ _ _) =>
      apply (keeps_callProgress _); intros ? ? ?; split; [apply grown_refl | auto]
  | |- keeps (wrel _) (modify _) => apply (wrel_modify (grows news))
  | |- fault_blind (wrel _) => apply (wrel_fault_blind (grows news) (grows_faults news))
  | |- fault_blind (wrel_same _) =>
      apply (wrel_same_fault_blind (grows news) (grows_faults news))
  | |- _ => keeps_step
  end.

Lemma createBasicApkFallback_grows {L} pp apk :
  In apk news -> keeps (@wrel_same L (grows news)) (createBasicApkFallback pp apk).
Proof. intros Hin. unfold createBasicApkFallback. repeat grows_step. exact Hin. Qed.

Lemma packageProjectAsApk_grows {L} pp analysis apk :
  In apk news -> keeps (@wrel_same L (grows news)) (packageProjectAsApk pp analysis apk).
Proof.
  intros Hin. unfold packageProjectAsApk, assembleApk.
  keeps_step; [|apply createBasicApkFallback_grows, Hin].
  repeat grows_step. exact Hin.
Qed.

Lemma createRealApk_grows {L} pp analysis :
  In (pp ++ ["build"; "outputs"; "apk"; "release"; "app-release.apk"]) news ->
  keeps (@wrel_same L (grows news)) (createRealApk pp analysis).
Proof.
  intros Hin. unfold createRealApk. cbv zeta.
  keeps_step; [grows_step|].
  keeps_step; [apply packageProjectAsApk_grows|keeps_step].
  rewrite <- app_assoc. exact Hin.
Qed.

End Grows.

Section BuildGrows.
Context `{Runtime}.

Lemma buildApk_grows {L} pp analysis onProgress :
  keeps (@wrel_same L (grows (buildTargets pp analysis))) (buildApk pp analysis onProgress).
Proof.
  set (news := buildTargets pp analysis).
  assert (Hcall : forall progress msg,
            keeps (@wrel BuildResult (grows news)) (callProgress onProgress progress msg)).
  { intros progress msg. apply (keeps_callProgress _). intros w l pl.
    split; [apply grown_refl | auto]. }
  unfold buildApk. keeps_step; [|keeps_step].
  apply (keeps_call_wrel_same (grows news)).
  keeps_step.
  2: { unfold buildApkHandler. keeps_step; [apply (wrel_modify (grows news)) | apply Hcall]. }
  unfold buildApkBody. cbv zeta.
  keeps_step; [apply Hcall|].
  keeps_step.
  { keeps_step; [apply (wrel_modify (grows news)) | apply Hcall]. }
  keeps_step.
  { apply keeps_weaken. unfold createMissingFiles. apply (keeps_for_each _). intros entry Hin.
    apply createMissingFile_grows. intros Ht. right. apply in_map, filter_In. auto. }
  keeps_step; [apply Hcall|].
  keeps_step.
  { apply keeps_weaken, (validateProjectStructure_frame (grows news) (grows_faults news)). }
  keeps_step.
  { keeps_step; [apply (wrel_modify (grows news)) | apply Hcall]. }
  keeps_step; [apply Hcall|].
  keeps_step.
  { apply keeps_weaken, createRealApk_grows. left. reflexivity. }
  keeps_step.
  { apply keeps_weaken, (getFileStats_frame (grows news) (grows_faults news)). }
  repeat (keeps_step; [apply (wrel_modify (grows news))|]).
  apply Hcall.
Qed.

(** X15. Whatever the outcome of a build and whatever the callback does, the
    project tree only gains: no entry is removed; every entry other than the
    archive path and the paths of the missing entries that have a template
    is exactly as it was; and every regular file of the resulting tree was
    there with the same content, or is the archive or such an entry. *)
Theorem buildApk_only_adds {L} (projectPath : path) (analysis : ProjectAnalysis)
    (onProgress : option Callback) (s : World * L) :
  let after := fs (buildApk projectPath analysis onProgress s).2.1 in
  (forall p, is_Some (fs s.1 !! p) -> is_Some (after !! p))
  /\ (forall p n, fs s.1 !! p = Some n ->
        ~ In p (buildTargets projectPath analysis) -> after !! p = Some n)
  /\ (forall p data, after !! p = Some (File data) ->
        fs s.1 !! p = Some (File data) \/ In p (buildTargets projectPath analysis))
  /\ (forall p, In p (buildTargets projectPath analysis) <->
        p = projectPath ++ ["build"; "outputs"; "apk"; "release"; "app-release.apk"]
        \/ exists entry, In entry (missingFiles analysis) /\ hasTemplate entry = true
                         /\ p = Path.join projectPath entry).
Proof.
  cbv zeta. destruct (buildApk_grows projectPath analysis onProgress s) as [[Hg _] _].
  repeat split.
  - intros p. apply (grown_some _ _ _ _ Hg).
  - intros p n Hp Hout. eapply grown_kept; eauto.
  - intros p data. apply (grown_files _ _ _ _ _ Hg).
  - unfold buildTargets. intros [<-|Hin]; [left; reflexivity | right].
    apply in_map_iff in Hin as (entry & <- & Hin). apply filter_In in Hin as [Hin Ht]. eauto.
  - unfold buildTargets. intros [->|(entry & Hin & Ht & ->)]; [left; reflexivity | right].
    apply in_map, filter_In. auto.
Qed.

End BuildGrows.

(** ** The outcomes of a build whose callback returns normally *)

Section Outcomes.
Context `{Runtime}.

Lemma buildApkBody_outcomes (pp : path) (analysis : ProjectAnalysis)
    (onProgress : option Callback) (w : World) :
  quiet onProgress ->
  let out := buildApkBody pp analysis onProgress (w, initialResult) in
  exists calls,
    progressLog out.2.1 = progressLog w ++ logged onProgress calls
    /\ match out.1 with
       | Ok _ =>
           (validateBuildRequirements analysis <> []
            /\ out.2.2 = mkBuildResult false None None (validateBuildRequirements analysis) []
            /\ calls = [started; (100, "Build validation failed - missing requirements")])
           \/ (validateBuildRequirements analysis = []
               /\ out.2.2 = mkBuildResult false None None
                              ["Project structure validation failed after setup"] []
               /\ calls = [started; setupDone; (100, "Project setup validation failed")])
           \/ (validateBuildRequirements analysis = []
               /\ (exists apk size,
                     out.2.2 = mkBuildResult true (Some apk) (Some size) []
                                 (successLogs analysis size))
               /\ calls = [started; setupDone; packaging;
                           (100, "APK build completed successfully!")])
       | Throw _ =>
           validateBuildRequirements analysis = []
           /\ out.2.2 = initialResult
           /\ In calls [[started]; [started; setupDone]; [started; setupDone; packaging]]
       end.
Proof.
  intros Hq. cbv zeta. unfold buildApkBody.
  rewrite run_bind, (run_callProgress_logged _ _ _ _ _ Hq).
  destruct (validateBuildRequirements analysis) as [|v vs] eqn:Ev; cbn [length Nat.ltb Nat.leb].
  2: { rewrite run_bind_modify, (run_callProgress_logged _ _ _ _ _ Hq). cbn.
       eexists. split; [apply log_step; reflexivity|]. left.
       split; [discriminate|]. split; reflexivity. }
  rewrite run_bind.
  stage as [[[]|e] [w1 r1]] eqn E1;
    destruct (keeps_run _ _ _ _ _
                (createMissingFiles_frame sameLog sameLog_faults sameLog_fs pp analysis) E1)
      as [Hl1 Hr1]; unfold sameLog in Hl1; cbn [fst snd progressLog] in Hl1, Hr1; subst r1.
  2: { cbn. exists [started]. rewrite Hl1. auto 10. }
  rewrite run_bind, (run_callProgress_logged _ _ _ _ _ Hq).
  rewrite run_bind.
  stage as [[valid|e] [w2 r2]] eqn E2;
    destruct (keeps_run _ _ _ _ _
                (validateProjectStructure_frame sameLog sameLog_faults pp analysis) E2)
      as [Hl2 Hr2]; unfold sameLog in Hl2; cbn [fst snd progressLog] in Hl2, Hr2; subst r2.
  2: { cbn. exists [started; setupDone]. rewrite Hl2, Hl1.
       split; [apply (log_step _ _ _ [started] [setupDone]); reflexivity | auto 10]. }
  destruct valid; cbn [negb].
  2: { rewrite run_bind_modify, (run_callProgress_logged _ _ _ _ _ Hq). cbn.
       eexists. rewrite Hl2, Hl1. split.
       - apply log_step. apply (log_step _ _ _ [started] [setupDone]). reflexivity.
       - right. left. auto. }
  rewrite run_bind, (run_callProgress_logged _ _ _ _ _ Hq).
  rewrite run_bind.
  stage as [[apk|e] [w3 r3]] eqn E3;
    destruct (keeps_run _ _ _ _ _
                (createRealApk_frame sameLog sameLog_faults sameLog_fs pp analysis) E3)
      as [Hl3 Hr3]; unfold sameLog in Hl3; cbn [fst snd progressLog] in Hl3, Hr3; subst r3.
  all: assert (Hlog3 : progressLog w3
                       = progressLog w ++ logged onProgress [started; setupDone; packaging])
         by (rewrite Hl3, Hl2, Hl1;
             apply (log_step _ _ _ [started; setupDone] [packaging]);
             apply (log_step _ _ _ [started] [setupDone]); reflexivity).
  2: { cbn. exists [started; setupDone; packaging]. split; [exact Hlog3 | auto 10]. }
  rewrite run_bind.
  stage as [[st|e] [w4 r4]] eqn E4;
    destruct (keeps_run _ _ _ _ _ (getFileStats_frame sameLog sameLog_faults apk) E4)
      as [Hl4 Hr4]; unfold sameLog in Hl4; cbn [fst snd progressLog] in Hl4, Hr4; subst r4.
  2: { cbn. exists [started; setupDone; packaging]. rewrite Hl4. split; [exact Hlog3 | auto 10]. }
  cbv zeta. rewrite !run_bind_modify, (run_callProgress_logged _ _ _ _ _ Hq). cbn.
  eexists. rewrite Hl4. split.
  - apply log_step. exact Hlog3.
  - right. right. split; [reflexivity|]. split; [|reflexivity].
    exists apk, (Js.or_num st 0). reflexivity.
Qed.

Lemma buildApk_outcomes {L} (pp : path) (analysis : ProjectAnalysis)
    (onProgress : option Callback) (w : World) (l : L) :
  quiet onProgress ->
  exists r w' calls,
    buildApk pp analysis onProgress (w, l) = (Ok r, (w', l))
    /\ progressLog w' = progressLog w ++ logged onProgress calls
    /\ ((validateBuildRequirements analysis <> []
         /\ r = mkBuildResult false None None (validateBuildRequirements analysis) []
         /\ calls = [started; (100, "Build validation failed - missing requirements")])
        \/ (validateBuildRequirements analysis = []
            /\ r = mkBuildResult false None None
                     ["Project structure validation failed after setup"] []
            /\ calls = [started; setupDone; (100, "Project setup validation failed")])
        \/ (validateBuildRequirements analysis = []
            /\ (exists apk size,
                  r = mkBuildResult true (Some apk) (Some size) [] (successLogs analysis size))
            /\ calls = [started; setupDone; packaging;
                        (100, "APK build completed successfully!")])
        \/ (validateBuildRequirements analysis = []
            /\ (exists e, r = mkBuildResult false None None
                               ["Build failed: " +:+ messageOr e "Unknown error"] [])
            /\ exists pre, calls = pre ++ [(100, "Build process failed")]
                /\ In pre [[started]; [started; setupDone]; [started; setupDone; packaging]])).
Proof.
  intros Hq. unfold buildApk. rewrite run_bind, run_call, run_try_catch.
  destruct (buildApkBody_outcomes pp analysis onProgress w Hq) as (calls & Hlog & Hout).
  destruct (buildApkBody pp analysis onProgress (w, initialResult))
    as [[[]|e] [w1 r1]] eqn:Eb; cbn [fst snd] in Hlog, Hout.
  - cbv beta iota. rewrite run_ret. exists r1, w1, calls.
    split; [reflexivity|]. split; [exact Hlog|].
    destruct Hout as [(Hv & -> & ->) | [(Hv & -> & ->) | (Hv & (apk & size & ->) & ->)]];
      eauto 10.
  - destruct Hout as (Hv & -> & Hpre).
    unfold buildApkHandler. cbv beta iota.
    rewrite run_bind_modify, (run_callProgress_logged _ _ _ _ _ Hq). cbn.
    eexists _, _, (calls ++ [(100, "Build process failed")]).
    split; [reflexivity|]. split; [apply log_step, Hlog|].
    right. right. right. split; [exact Hv|]. split; [exists e; reflexivity|].
    exists calls. auto.
Qed.

End Outcomes.

Lemma validateBuildRequirements_at_most_one (analysis : ProjectAnalysis) :
  validateBuildRequirements analysis = []
  \/ exists msg, validateBuildRequirements analysis = [msg].
Proof.
  unfold validateBuildRequirements.
  repeat match goal with
         | |- context [if ?b then _ else _] => destruct b
         end; eauto.
Qed.

Section BuildResults.
Context `{Runtime}.

(** X16. With a callback that returns normally, the result of a build is one of
    two kinds. A successful one has no error, names the archive and its size
    and carries the five log lines; a failed one has exactly one error, no
    archive path, no size and no log line. *)
Theorem buildApk_result_consistent {L} (projectPath : path) (analysis : ProjectAnalysis)
    (onProgress : option Callback) (w : World) (l : L) :
  quiet onProgress ->
  exists r w',
    buildApk projectPath analysis onProgress (w, l) = (Ok r, (w', l))
    /\ (success r = true <-> br_errors r = [])
    /\ (success r = true ->
          exists apk size,
            apkPath r = Some apk /\ apkSize r = Some size
            /\ logs r = successLogs analysis size)
    /\ (success r = false ->
          apkPath r = None /\ apkSize r = None /\ logs r = []
          /\ exists msg, br_errors r = [msg]).
Proof.
  intros Hq.
  destruct (buildApk_outcomes projectPath analysis onProgress w l Hq)
    as (r & w' & calls & Hrun & _ & Hcase).
  exists r, w'. split; [exact Hrun|].
  destruct Hcase as [(Hv & -> & _) | [(_ & -> & _) | [(_ & (apk & size & ->) & _)
                    | (_ & (e & ->) & _)]]]; cbn.
  - destruct (validateBuildRequirements_at_most_one analysis) as [E|[msg E]]; [contradiction|].
    rewrite E. repeat split; intros; try discriminate; eauto 10.
  - repeat split; intros; try discriminate; eauto 10.
  - repeat split; intros; try discriminate; eauto 10.
  - repeat split; intros; try discriminate; eauto 10.
Qed.

(** X17. With a callback that returns normally, the progress values it receives
    during one build are 10, then 30, then 70, as far as the build gets, and
    a closing 100: they strictly increase, whatever the outcome; a successful
    build reports all four. *)
Theorem buildApk_progress_increases {L} (projectPath : path) (analysis : ProjectAnalysis)
    (onProgress : option Callback) (w : World) (l : L) :
  quiet onProgress ->
  exists r w' calls,
    buildApk projectPath analysis onProgress (w, l) = (Ok r, (w', l))
    /\ progressLog w' = progressLog w ++ logged onProgress calls
    /\ In (map fst calls) [[10; 100]; [10; 30; 100]; [10; 30; 70; 100]]
    /\ (success r = true -> map fst calls = [10; 30; 70; 100])
    /\ (validateBuildRequirements analysis <> [] -> map fst calls = [10; 100]).
Proof.
  intros Hq.
  destruct (buildApk_outcomes projectPath analysis onProgress w l Hq)
    as (r & w' & calls & Hrun & Hlog & Hcase).
  exists r, w', calls. split; [exact Hrun|]. split; [exact Hlog|].
  destruct Hcase as [(Hv & -> & ->) | [(Hv & -> & ->) | [(Hv & (apk & size & ->) & ->)
                    | (Hv & (e & ->) & pre & -> & Hpre)]]]; cbn.
  - repeat split; intros; try discriminate; auto.
  - repeat split; intros; try discriminate; try contradiction; auto.
  - repeat split; intros; try discriminate; try contradiction; auto 10.
  - destruct Hpre as [<-|[<-|[<-|[]]]]; cbn;
      repeat split; intros; try discriminate; try contradiction; auto 10.
Qed.

End BuildResults.

Lemma buildApk_result_consistent_witness :
  exists r w',
    buildApk (H:=demoRuntime) ["srv"; "app"] genericAnalysis (Some quietCallback)
      (genericProject, tt) = (Ok r, (w', tt))
    /\ (success r = true <-> br_errors r = [])
    /\ (success r = true ->
          exists apk size,
            apkPath r = Some apk /\ apkSize r = Some size
            /\ logs r = successLogs genericAnalysis size)
    /\ (success r = false ->
          apkPath r = None /\ apkSize r = None /\ logs r = []
          /\ exists msg, br_errors r = [msg]).
Proof.
  apply (buildApk_result_consistent (H:=demoRuntime) (L:=unit) ["srv"; "app"] genericAnalysis
           (Some quietCallback) genericProject tt).
  intros log progress msg. reflexivity.
Defined.

Lemma buildApk_progress_increases_witness :
  exists r w' calls,
    buildApk (H:=demoRuntime) ["srv"; "app"] genericAnalysis (Some quietCallback)
      (genericProject, tt) = (Ok r, (w', tt))
    /\ progressLog w' = progressLog genericProject ++ logged (Some quietCallback) calls
    /\ In (map fst calls) [[10; 100]; [10; 30; 100]; [10; 30; 70; 100]]
    /\ (success r = true -> map fst calls = [10; 30; 70; 100])
    /\ (validateBuildRequirements genericAnalysis <> [] -> map fst calls = [10; 100]).
Proof.
  apply (buildApk_progress_increases (H:=demoRuntime) (L:=unit) ["srv"; "app"] genericAnalysis
           (Some quietCallback) genericProject tt).
  intros log progress msg. reflexivity.
Defined.

(** ** A successful build has its essential files *)

Lemma grown_exists (news : list path) (m m' : gmap path Node) (p : path) :
  grown news m m' ->
  is_Some (FileManager.lookup_node m p) -> is_Some (FileManager.lookup_node m' p).
Proof.
  intros Hg. destruct p as [|seg p]; [auto|].
  unfold FileManager.lookup_node. cbv beta iota. intros [n Hp].
  specialize (Hg (seg :: p)). rewrite Hp in Hg.
  match type of Hg with
  | match ?t with _ => _ end => destruct t as [n'|]
  end; [eauto | destruct Hg].
Qed.

Section Essentials.
Context `{Runtime}.

Lemma allExist_true {L} (pp : path) (files : list string) (w w' : World) (l l' : L) :
  allExist pp files (w, l) = (Ok true, (w', l')) ->
  fs w' = fs w
  /\ forall f, In f files -> is_Some (FileManager.lookup_node (fs w) (Path.join pp f)).
Proof.
  revert w l. induction files as [|file files IH]; intros w l; cbn [allExist].
  - rewrite run_ret. intros E. simplify_eq. split; [reflexivity | intros f []].
  - rewrite run_bind. unfold FileManager.fileExists. rewrite run_bind.
    stage as [[[]|e] [w1 l1]] eqn Eio; [|intros Hx; discriminate Hx].
    destruct (keeps_run _ _ _ _ _ io_readOnly Eio) as [Hro Hl]. cbn [fst snd] in Hro, Hl.
    destruct Hro as (Hfs & _).
    rewrite run_bind_get_world, run_ret. cbv beta iota.
    case_bool_decide as Hex; [|rewrite run_ret; intros Hx; discriminate Hx].
    intros Hrun. destruct (IH _ _ Hrun) as [Hfs' Hall]. split; [congruence|].
    intros f [<-|Hin]; [rewrite <- Hfs; exact Hex | rewrite <- Hfs; auto].
Qed.

Lemma validateProjectStructure_true {L} (pp : path) (analysis : ProjectAnalysis)
    (w w' : World) (l l' : L) :
  validateProjectStructure pp analysis (w, l) = (Ok true, (w', l')) ->
  fs w' = fs w
  /\ forall f, In f (getEssentialFiles (framework analysis)) ->
       is_Some (FileManager.lookup_node (fs w) (Path.join pp f)).
Proof.
  unfold validateProjectStructure. rewrite run_try_catch.
  stage as [[b|e] [w1 l1]] eqn E; [|rewrite run_ret; intros Hx; discriminate Hx].
  intros Hx. simplify_eq. eapply allExist_true, E.
Qed.

Lemma buildApkBody_essentials (pp : path) (analysis : ProjectAnalysis)
    (onProgress : option Callback) (w : World) :
  let out := buildApkBody pp analysis onProgress (w, initialResult) in
  success out.2.2 = true ->
  validateBuildRequirements analysis = []
  /\ forall f, In f (getEssentialFiles (framework analysis)) ->
       is_Some (FileManager.lookup_node (fs out.2.1) (Path.join pp f)).
Proof.
  cbv zeta. unfold buildApkBody. rewrite run_bind.
  destruct (callProgress onProgress 10 "Starting APK build process..." (w, initialResult))
    as [[[]|e] [w0 r0]] eqn:E0;
    destruct (callProgress_run _ _ _ _ _ _ E0) as (_ & _ & Hr0); cbn [fst snd] in Hr0; subst r0;
    cbv beta iota; [|intros Hs; discriminate Hs].
  destruct (validateBuildRequirements analysis) as [|v vs]; cbn [length Nat.ltb Nat.leb].
  2: { rewrite run_bind_modify.
       match goal with
       | |- context [callProgress ?o ?p ?m ?s] =>
           destruct (callProgress o p m s) as [r1 [w1 l1]] eqn:E1;
           destruct (callProgress_run _ _ _ _ _ _ E1) as (_ & _ & Hr1)
       end.
       cbn [fst snd] in *. subst l1. intros Hs; discriminate Hs. }
  rewrite run_bind.
  destruct (createMissingFiles pp analysis (w0, initialResult)) as [[[]|e] [w1 r1]] eqn:E1;
    destruct (keeps_run _ _ _ _ _
                (createMissingFiles_frame sameLog sameLog_faults sameLog_fs pp analysis) E1)
      as [_ Hr1]; cbn [fst snd] in Hr1; subst r1; cbv beta iota; [|intros Hs; discriminate Hs].
  rewrite run_bind.
  destruct (callProgress onProgress 30 "Project setup completed..." (w1, initialResult))
    as [[[]|e] [w2 r2]] eqn:E2;
    destruct (callProgress_run _ _ _ _ _ _ E2) as (_ & _ & Hr2); cbn [fst snd] in Hr2; subst r2;
    cbv beta iota; [|intros Hs; discriminate Hs].
  rewrite run_bind.
  destruct (validateProjectStructure pp analysis (w2, initialResult))
    as [[valid|e] [w3 r3]] eqn:E3;
    destruct (keeps_run _ _ _ _ _
                (validateProjectStructure_frame sameLog sameLog_faults pp analysis) E3)
      as [_ Hr3]; cbn [fst snd] in Hr3; subst r3; cbv beta iota; [|intros Hs; discriminate Hs].
  destruct valid; cbn [negb].
  2: { rewrite run_bind_modify.
       match goal with
       | |- context [callProgress ?o ?p ?m ?s] =>
           destruct (callProgress o p m s) as [r4 [w4 l4]] eqn:E4;
           destruct (callProgress_run _ _ _ _ _ _ E4) as (_ & _ & Hr4)
       end.
       cbn [fst snd] in *. subst l4. intros Hs; discriminate Hs. }
  destruct (validateProjectStructure_true _ _ _ _ _ _ E3) as [Hfs3 Hall].
  assert (Hfrom : forall w', (exists news, grown news (fs w3) (fs w')) ->
            forall f, In f (getEssentialFiles (framework analysis)) ->
              is_Some (FileManager.lookup_node (fs w') (Path.join pp f))).
  { intros w' [news Hg] f Hin. eapply grown_exists; [exact Hg|]. rewrite Hfs3. auto. }
  clear Hall.
  rewrite run_bind.
  destruct (callProgress onProgress 70 "Packaging APK file..." (w3, initialResult))
    as [[[]|e] [w4 r4]] eqn:E4;
    destruct (callProgress_run _ _ _ _ _ _ E4) as (Hfs4 & _ & Hr4);
    cbn [fst snd] in Hfs4, Hr4; subst r4;
    cbv beta iota; [|intros Hs; discriminate Hs].
  rewrite run_bind.
  destruct (createRealApk pp analysis (w4, initialResult)) as [[apk|e] [w5 r5]] eqn:E5;
    destruct (keeps_run _ _ _ _ _
                (createRealApk_grows (buildTargets pp analysis) pp analysis
                   ltac:(left; reflexivity)) E5)
      as [[Hg5 _] Hr5]; cbn [fst snd] in Hg5, Hr5; subst r5; cbv beta iota;
    [|intros Hs; discriminate Hs].
  rewrite Hfs4 in Hg5.
  rewrite run_bind.
  destruct (FileManager.getFileStats apk (w5, initialResult)) as [[st|e] [w6 r6]] eqn:E6;
    destruct (keeps_run _ _ _ _ _ (getFileStats_frame readOnly readOnly_faults apk) E6)
      as [Hro6 Hr6]; cbn [fst snd] in Hro6, Hr6; subst r6; cbv beta iota;
    [|intros Hs; discriminate Hs].
  destruct Hro6 as (Hfs6 & _).
  cbv zeta. rewrite !run_bind_modify.
  match goal with
  | |- context [callProgress ?o ?p ?m ?s] =>
      destruct (callProgress o p m s) as [r7 [w7 l7]] eqn:E7;
      destruct (callProgress_run _ _ _ _ _ _ E7) as (Hfs7 & _ & Hr7)
  end.
  cbn [fst snd] in *. intros _. split; [reflexivity|].
  apply Hfrom. exists (buildTargets pp analysis). rewrite Hfs7, Hfs6. exact Hg5.
Qed.

(** X18. A build reports success only when requirement validation found nothing
    and every essential file of the framework exists in the project tree it
    leaves (as a regular file or as a directory), whatever the callback
    does. *)
Theorem buildApk_success_has_essentials {L} (projectPath : path)
    (analysis : ProjectAnalysis) (onProgress : option Callback)
    (w w' : World) (l l' : L) (r : BuildResult) :
  buildApk projectPath analysis onProgress (w, l) = (Ok r, (w', l')) ->
  success r = true ->
  validateBuildRequirements analysis = []
  /\ forall f, In f (getEssentialFiles (framework analysis)) ->
       is_Some (FileManager.lookup_node (fs w') (Path.join projectPath f)).
Proof.
  unfold buildApk. rewrite run_bind, run_call, run_try_catch. intros Hrun Hs.
  pose proof (buildApkBody_essentials projectPath analysis onProgress w) as Hbody.
  cbv zeta in Hbody.
  destruct (buildApkBody projectPath analysis onProgress (w, initialResult))
    as [[[]|e] [w1 r1]] eqn:Eb; cbn [fst snd] in Hbody; cbv beta iota in Hrun.
  - rewrite run_ret in Hrun. simplify_eq. auto.
  - unfold buildApkHandler in Hrun. rewrite run_bind_modify in Hrun.
    stage in Hrun as [[[]|e'] [w2 r2]] eqn Ec; [|discriminate Hrun].
    destruct (callProgress_run _ _ _ _ _ _ Ec) as (Hfs & _ & Hr). cbn [fst snd] in Hfs, Hr.
    rewrite run_ret in Hrun. simplify_eq. cbn in Hs. rewrite Hfs. auto.
Qed.

End Essentials.

Lemma buildApk_success_has_essentials_witness :
  validateBuildRequirements reactNativeAnalysis = []
  /\ forall f, In f (getEssentialFiles (framework reactNativeAnalysis)) ->
       is_Some (FileManager.lookup_node (fs reactNativeBuild.2.1) (Path.join ["srv"; "app"] f)).
Proof.
  apply (buildApk_success_has_essentials (H:=demoRuntime) (L:=unit) ["srv"; "app"]
           reactNativeAnalysis (Some quietCallback) reactNativeProject reactNativeBuild.2.1
           tt tt (default initialResult (resultOf reactNativeBuild.1))).
  - vm_compute. reflexivity.
  - vm_compute. reflexivity.
Defined.

(** ** What an analysis reports missing *)

(** Whatever is detected has its marker among the listed paths. *)
Lemma detect_marker (files : list string) :
  let fw := d_framework (detectFramework files) in
  (fw = "react-native" -> some (fun f => Js.includes f "package.json") files = true)
  /\ (fw = "flutter" -> some (fun f => Js.includes f "pubspec.yaml") files = true)
  /\ (fw = "cordova" -> some (fun f => Js.includes f "config.xml") files = true).
Proof.
  cbv zeta. unfold detectFramework. cbv zeta.
  destruct (some (fun f => Js.includes f "package.json") files) eqn:B0; cbn [andb].
  1: destruct (some (fun f => Js.includes f "react-native" || Js.includes f "metro.config")
                 files) eqn:B1.
  1: { cbn. repeat split; intros; first [reflexivity | discriminate]. }
  all: destruct (some (fun f => Js.includes f "pubspec.yaml") files) eqn:B2;
    [cbn; repeat split; intros; first [reflexivity | discriminate]|].
  all: destruct (some (fun f => Js.includes f "build.gradle"
                                || Js.includes f "AndroidManifest.xml") files) eqn:B3;
    [cbn; repeat split; intros; first [reflexivity | discriminate]|].
  all: destruct (some (fun f => Js.includes f "config.xml" && Js.includes f "www") files)
         eqn:B4; cbn; repeat split; intros; try discriminate; try reflexivity.
  all: unfold some in *; apply existsb_exists in B4 as (f & Hin & Hf);
    apply andb_true_iff in Hf as [Hf _]; apply existsb_exists; eauto.
Qed.

Lemma missing_among_seven (files : list string) (entry : string) :
  In entry (absentFrom files (checklist (d_framework (detectFramework files)))) ->
  In entry ["android/build.gradle"; "android/app/build.gradle"; "lib/main.dart";
            "build.gradle"; "app/build.gradle"; "app/src/main/AndroidManifest.xml";
            "www/index.html"].
Proof.
  intros Hin. apply absentFrom_In in Hin as [Hin Hno].
  destruct (detect_marker files) as (Hrn & Hfl & Hco).
  cbv zeta in Hrn, Hfl, Hco.
  pose proof (detectFramework_tags files) as Htag.
  cbn in Htag. destruct Htag as [E|[E|[E|[E|[E|[]]]]]]; symmetry in E;
    rewrite E in Hin; cbn in Hin.
  - destruct Hin as [<-|[<-|[<-|[]]]]; [rewrite (Hrn E) in Hno; discriminate | |]; cbn; auto 10.
  - destruct Hin as [<-|[<-|[<-|[]]]]; [rewrite (Hfl E) in Hno; discriminate | |]; cbn; auto 10.
  - destruct Hin as [<-|[<-|[<-|[]]]]; cbn; auto 10.
  - destruct Hin as [<-|[<-|[]]]; [rewrite (Hco E) in Hno; discriminate |]; cbn; auto 10.
  - destruct Hin.
Qed.

Section Missing.
Context `{Runtime}.

(** X4. [analyzeProject] always returns, and the [missingFiles] of its analysis
    are exactly the entries of the detected framework's checklist that no
    listed path contains, in the order of the checklist (none for an
    undetected framework). *)
Theorem analyzeProject_missing_files {L} (projectPath : path) (w : World) (l : L) :
  let files := treeFiles projectPath w in
  let fw := d_framework (detectFramework files) in
  exists a w',
    analyzeProject projectPath (w, l) = (Ok a, (w', l))
    /\ framework a = normalized fw
    /\ missingFiles a
       = List.filter (fun entry => negb (some (fun f => Js.includes f entry) files))
           (checklist fw)
    /\ (forall entry,
          In entry (missingFiles a)
          <-> In entry (checklist fw)
              /\ forall f, In f files -> Js.includes f entry = false)
    /\ (fw = "unknown" -> missingFiles a = []).
Proof.
  cbv zeta.
  destruct (analyzeProject_summary projectPath w l) as (a & w' & Hrun & Hfw & Hmiss).
  exists a, w'. split; [exact Hrun|]. split; [exact Hfw|]. split; [exact Hmiss|]. split.
  - intros entry. rewrite Hmiss, absentFrom_In. split; intros [Hin Hno]; (split; [exact Hin|]).
    + intros f Hf. apply not_true_is_false. intros Hinc.
      assert (some (fun f => Js.includes f entry) (treeFiles projectPath w) = true)
        by (apply existsb_exists; eauto).
      congruence.
    + apply not_true_is_false. intros Hs. apply existsb_exists in Hs as (f & Hf & Hinc).
      rewrite (Hno f Hf) in Hinc. discriminate.
  - intros Hu. rewrite Hmiss, Hu. reflexivity.
Qed.

(** X5. The file that makes a framework detected is never reported missing: an
    analysis that [analyzeProject] returns never lists [package.json],
    [pubspec.yaml] or [config.xml] in [missingFiles]; what it lists is among
    the seven other checklist entries. In particular the synthesizer, run on
    such an analysis, never has to write its [package.json] or [config.xml]
    template. *)
Theorem analyzeProject_marker_not_missing {L} (projectPath : path) (w : World) (l : L) :
  exists a w',
    analyzeProject projectPath (w, l) = (Ok a, (w', l))
    /\ (forall entry,
          In entry (missingFiles a) ->
          In entry ["android/build.gradle"; "android/app/build.gradle"; "lib/main.dart";
                    "build.gradle"; "app/build.gradle"; "app/src/main/AndroidManifest.xml";
                    "www/index.html"])
    /\ (forall entry,
          In entry (missingFiles a) ->
          Js.includes entry "package.json" = false /\ Js.includes entry "config.xml" = false).
Proof.
  destruct (analyzeProject_summary projectPath w l) as (a & w' & Hrun & Hfw & Hmiss).
  exists a, w'. split; [exact Hrun|].
  rewrite Hmiss. split; [intros entry; apply missing_among_seven|].
  intros entry Hin. apply missing_among_seven in Hin. cbn in Hin.
  destruct Hin as [<-|[<-|[<-|[<-|[<-|[<-|[<-|[]]]]]]]]; split; vm_compute; reflexivity.
Qed.

(** X8. The requirement validator accepts the framework of every analysis that
    [analyzeProject] returns: it finds nothing, or the one requirement of the
    detected framework that is not met; its [Unsupported framework] branch is
    never taken. *)
Theorem analyzeProject_framework_supported {L} (projectPath : path) (w : World) (l : L) :
  exists a w',
    analyzeProject projectPath (w, l) = (Ok a, (w', l))
    /\ (validateBuildRequirements a = []
        \/ (framework a = "react-native"
            /\ validateBuildRequirements a = ["React Native project missing package.json"])
        \/ (framework a = "flutter"
            /\ validateBuildRequirements a = ["Flutter project missing pubspec.yaml"])
        \/ (framework a = "android"
            /\ validateBuildRequirements a = ["Android project missing build.gradle"])
        \/ (framework a = "cordova"
            /\ validateBuildRequirements a = ["Cordova project missing config.xml"])).
Proof.
  destruct (analyzeProject_summary projectPath w l) as (a & w' & Hrun & Hfw & _).
  exists a, w'. split; [exact Hrun|].
  pose proof (detectFramework_tags (treeFiles projectPath w)) as Htag.
  unfold validateBuildRequirements. rewrite Hfw.
  cbn in Htag. destruct Htag as [E|[E|[E|[E|[E|[]]]]]]; rewrite <- E; cbn;
    match goal with
    | |- context [if ?b then _ else _] => destruct b
    | _ => idtac
    end; auto 10.
Qed.

End Missing.

(** ** The requirement flags of an analysis *)

(** The analysis keeps the value of one field of [buildConfig]. *)
Definition flagKept (key : string) : relation (World * ProjectAnalysis) :=
  fun s s' => buildConfig s'.2 !! key = buildConfig s.2 !! key.

#[local] Instance flagKept_preorder key : PreOrder (flagKept key).
Proof.
  split.
  - intros s. reflexivity.
  - intros s1 s2 s3 H12 H23. unfold flagKept in *. congruence.
Qed.

Lemma flagKept_fault_blind key : fault_blind (flagKept key).
Proof. intros w l x rest _. reflexivity. Qed.

Lemma flagKept_other key key' v w a :
  key' <> key -> flagKept key (w, a) (w, set_config key' v a).
Proof. intros Hne. unfold flagKept. cbn. apply lookup_insert_ne, Hne. Qed.

(** Closes a [keeps (flagKept key)] goal for a computation that assigns
    other fields only. *)
Ltac flag_rest :=
  repeat first
    [ apply flagKept_fault_blind
    | keeps_step
    | (intros ? ?; first [reflexivity | apply flagKept_other; discriminate]) ].

Section Flags.
Context `{Runtime}.

(** The shape the four analyzers share: the flag starts as [false] and is set
    when the file exists; nothing after that assigns it. *)
Lemma flag_after (key : string) (p : path) (init : gmap string Js.Val)
    (missing : list string) (parse rest : M ProjectAnalysis unit)
    (w : World) (a : ProjectAnalysis) :
  faults w = [] ->
  init !! key = Some (Js.VBool false) ->
  keeps (flagKept key) parse -> keeps (flagKept key) rest ->
  buildConfig
    ((modify (set_buildConfig init);;
      modify (set_missingFiles missing);;
      ex ← FileManager.fileExists p;
      (if ex : bool then modify (set_config key (Js.VBool true));; parse else mret tt);;
      rest) (w, a)).2.2 !! key
  = Some (Js.VBool (bool_decide (is_Some (FileManager.lookup_node (fs w) p)))).
Proof.
  intros Hf Hinit Hparse Hrest.
  rewrite !run_bind_modify, run_bind, (run_fileExists_nofault _ _ _ Hf). cbv beta iota.
  case_bool_decide as Hex.
  - assert (Hk : keeps (flagKept key) (parse;; rest)) by (keeps_step; auto).
    match goal with
    | |- buildConfig (?m ?s).2.2 !! _ = _ =>
        change (m s) with ((parse;; rest) (s.1, set_config key (Js.VBool true) s.2))
    end.
    rewrite (Hk _). cbn. apply lookup_insert_eq.
  - rewrite run_bind_ret. rewrite (Hrest _). cbn. exact Hinit.
Qed.

Lemma analyzeReactNative_flag pp files w a :
  faults w = [] ->
  buildConfig (analyzeReactNative pp files (w, a)).2.2 !! "hasPackageJson"
  = Some (Js.VBool (bool_decide
            (is_Some (FileManager.lookup_node (fs w) (Path.join pp "package.json"))))).
Proof.
  intros Hf. unfold analyzeReactNative. cbv zeta.
  apply (flag_after "hasPackageJson"); [exact Hf | reflexivity | flag_rest | flag_rest].
Qed.

Lemma analyzeFlutter_flag pp files w a :
  faults w = [] ->
  buildConfig (analyzeFlutter pp files (w, a)).2.2 !! "hasPubspec"
  = Some (Js.VBool (bool_decide
            (is_Some (FileManager.lookup_node (fs w) (Path.join pp "pubspec.yaml"))))).
Proof.
  intros Hf. unfold analyzeFlutter. cbv zeta.
  apply (flag_after "hasPubspec"); [exact Hf | reflexivity | flag_rest | flag_rest].
Qed.

Lemma analyzeAndroid_flag pp files w a :
  faults w = [] ->
  buildConfig (analyzeAndroid pp files (w, a)).2.2 !! "hasBuildGradle"
  = Some (Js.VBool (bool_decide
            (is_Some (FileManager.lookup_node (fs w) (Path.join pp "app/build.gradle"))))).
Proof.
  intros Hf. unfold analyzeAndroid. cbv zeta.
  apply (flag_after "hasBuildGradle"); [exact Hf | reflexivity | flag_rest | flag_rest].
Qed.

Lemma analyzeCordova_flag pp files w a :
  faults w = [] ->
  buildConfig (analyzeCordova pp files (w, a)).2.2 !! "hasConfigXml"
  = Some (Js.VBool (bool_decide
            (is_Some (FileManager.lookup_node (fs w) (Path.join pp "config.xml"))))).
Proof.
  intros Hf. unfold analyzeCordova. cbv zeta.
  apply (flag_after "hasConfigXml"); [exact Hf | reflexivity | flag_rest | flag_rest].
Qed.

End Flags.

Section Requirements.
Context `{Runtime}.

(** X9. When the environment does not fail, the analysis that [analyzeProject]
    returns passes the requirement validator exactly when the marker file of
    its framework exists at the project root ([package.json],
    [pubspec.yaml], [app/build.gradle], [config.xml]; nothing for a generic
    project): a marker found only deeper in the tree makes the framework
    detected but leaves the requirement unmet. *)
Theorem analyzeProject_requirements_at_root {L} (projectPath : path) (w : World) (l : L) :
  faults w = [] ->
  exists a w',
    analyzeProject projectPath (w, l) = (Ok a, (w', l))
    /\ (validateBuildRequirements a = []
        <-> forall marker, rootMarker (framework a) = Some marker ->
              is_Some (FileManager.lookup_node (fs w) (Path.join projectPath marker))).
Proof.
  intros Hf.
  destruct (analyzeProject_cases projectPath w l) as (a & w' & Hrun & Hcase).
  exists a, w'. split; [exact Hrun|].
  rewrite (afterWalk_nofault _ _ Hf) in Hcase.
  destruct Hcase as [[Hu ->] | [Hin (analyzer & r & a2 & Hk & Hrn & Hfl & Han & Hco & Ha & Hr)]].
  - cbn. split; [intros _ marker Hm; discriminate Hm | reflexivity].
  - destruct (analyzerFrame_run _ _ _ _ _ _ Hk Ha) as (Hfw & _ & _).
    assert (Hfa : framework a = d_framework (detectFramework (treeFiles projectPath w))
                  /\ buildConfig a = buildConfig a2).
    { destruct r; subst a; cbn; split; first [exact Hfw | reflexivity]. }
    destruct Hfa as [Hfa Hbc]. clear Hr.
    assert (Ha2 : a2 = (analyzer (w, detected (treeFiles projectPath w))).2.2)
      by (rewrite Ha; reflexivity).
    unfold validateBuildRequirements, rootMarker. rewrite Hfa, Hbc, Ha2.
    cbn in Hin. destruct Hin as [E|[E|[E|[E|[]]]]]; symmetry in E; rewrite E;
      cbn [String.eqb Ascii.eqb Bool.eqb].
    + rewrite (Hrn E), (analyzeReactNative_flag _ _ _ _ Hf). cbn [Js.truthy].
      case_bool_decide as Hex; cbn; split.
      * intros _ marker Hm. simplify_eq. exact Hex.
      * reflexivity.
      * intros Hx. discriminate Hx.
      * intros Hall. exfalso. apply Hex, Hall. reflexivity.
    + rewrite (Hfl E), (analyzeFlutter_flag _ _ _ _ Hf). cbn [Js.truthy].
      case_bool_decide as Hex; cbn; split.
      * intros _ marker Hm. simplify_eq. exact Hex.
      * reflexivity.
      * intros Hx. discriminate Hx.
      * intros Hall. exfalso. apply Hex, Hall. reflexivity.
    + rewrite (Han E), (analyzeAndroid_flag _ _ _ _ Hf). cbn [Js.truthy].
      case_bool_decide as Hex; cbn; split.
      * intros _ marker Hm. simplify_eq. exact Hex.
      * reflexivity.
      * intros Hx. discriminate Hx.
      * intros Hall. exfalso. apply Hex, Hall. reflexivity.
    + rewrite (Hco E), (analyzeCordova_flag _ _ _ _ Hf). cbn [Js.truthy].
      case_bool_decide as Hex; cbn; split.
      * intros _ marker Hm. simplify_eq. exact Hex.
      * reflexivity.
      * intros Hx. discriminate Hx.
      * intros Hall. exfalso. apply Hex, Hall. reflexivity.
Qed.

End Requirements.

Lemma analyzeProject_requirements_at_root_witness :
  exists a w',
    analyzeProject (H:=demoRuntime) ["srv"; "app"] (reactNativeProject, tt) = (Ok a, (w', tt))
    /\ (validateBuildRequirements a = []
        <-> forall marker, rootMarker (framework a) = Some marker ->
              is_Some (FileManager.lookup_node (fs reactNativeProject)
                         (Path.join ["srv"; "app"] marker))).
Proof.
  apply (analyzeProject_requirements_at_root (H:=demoRuntime) (L:=unit) ["srv"; "app"]
           reactNativeProject tt).
  reflexivity.
Defined.

(** ** Classification looks at the set of paths only *)

Lemma some_ext {A} (P : A -> bool) (F F' : list A) :
  (forall f, In f F <-> In f F') -> some P F = some P F'.
Proof.
  intros Hset. destruct (some P F) eqn:E.
  - symmetry. eapply some_mono; [|exact E]. intros f Hf. apply Hset, Hf.
  - symmetry. apply not_true_is_false. intros E'.
    assert (some P F = true) by (eapply some_mono; [|exact E']; intros f Hf; apply Hset, Hf).
    congruence.
Qed.

(** X3. The classifier and the computation of the missing checklist entries
    depend on which paths are listed, not on their order nor on how often a
    path occurs. *)
Theorem detectFramework_order_independent (files files' : list string) :
  (forall f, In f files <-> In f files') ->
  detectFramework files = detectFramework files'
  /\ forall required, absentFrom files required = absentFrom files' required.
Proof.
  intros Hset. split.
  - unfold detectFramework. cbv zeta.
    rewrite !(some_ext _ files files' Hset). reflexivity.
  - intros required. unfold absentFrom. apply filter_ext. intros entry.
    rewrite (some_ext _ files files' Hset). reflexivity.
Qed.

Lemma detectFramework_order_independent_witness :
  detectFramework ["app/build.gradle"; "Main.kt"] = detectFramework ["Main.kt"; "app/build.gradle"; "Main.kt"]
  /\ forall required,
       absentFrom ["app/build.gradle"; "Main.kt"] required
       = absentFrom ["Main.kt"; "app/build.gradle"; "Main.kt"] required.
Proof.
  apply (detectFramework_order_independent ["app/build.gradle"; "Main.kt"]
           ["Main.kt"; "app/build.gradle"; "Main.kt"]).
  intros f. cbn. tauto.
Defined.

(** ** The statistics of an analysis *)

(** What the analyzers keep of [projectStats]: the file count; the agreement
    of the dependency count with the dependency list; the bound [n] on the
    number of source files. *)
Definition statsKept (n : Z) : relation (World * ProjectAnalysis) :=
  fun s s' =>
    totalFiles (projectStats s'.2) = totalFiles (projectStats s.2)
    /\ (dependenciesCount (projectStats s.2) = Z.of_nat (length (dependencies s.2)) ->
        dependenciesCount (projectStats s'.2) = Z.of_nat (length (dependencies s'.2)))
    /\ (0 <= sourceFiles (projectStats s.2) <= n ->
        0 <= sourceFiles (projectStats s'.2) <= n).

#[local] Instance statsKept_preorder n : PreOrder (statsKept n).
Proof.
  split.
  - intros s. unfold statsKept. auto.
  - intros s1 s2 s3 (T1 & D1 & S1) (T2 & D2 & S2). unfold statsKept.
    split; [congruence|]. split; auto.
Qed.

Lemma statsKept_fault_blind n : fault_blind (statsKept n).
Proof. intros w l x rest _. unfold statsKept. cbn. auto. Qed.

Lemma count_bounds (P : string -> bool) (files : list string) :
  0 <= count P files <= Z.of_nat (length files).
Proof.
  unfold count. split; [lia|]. apply inj_le.
  induction files as [|f files IH]; cbn; [lia|]. destruct (P f); cbn; lia.
Qed.

Lemma statsKept_dependencies n (keys : list string) :
  keeps (statsKept n)
    (modify (set_dependencies keys);; modify (set_dependenciesCount (Z.of_nat (length keys)))).
Proof. intros [w a]. unfold statsKept. cbn. auto. Qed.

Lemma statsKept_sourceFiles (P : string -> bool) (files : list string) :
  keeps (statsKept (Z.of_nat (length files))) (modify (set_sourceFiles (count P files))).
Proof.
  intros [w a]. unfold statsKept. cbn. repeat split; auto; apply count_bounds.
Qed.

Ltac stats_rest :=
  repeat lazymatch goal with
    | |- fault_blind _ => apply statsKept_fault_blind
    | |- keeps _ (modify (set_dependencies _) ≫= _) => apply statsKept_dependencies
    | |- keeps _ (modify (set_sourceFiles _)) => apply statsKept_sourceFiles
    | |- keeps _ _ => keeps_step
    | |- forall _, _ =>
        intros ? ?; unfold statsKept;
        cbn [fst snd projectStats dependencies totalFiles sourceFiles dependenciesCount
             set_config set_buildConfig set_missingFiles push_error set_ps_targetSdk
             set_ps_minSdk];
        solve [auto]
    end.

Section Stats.
Context `{Runtime}.

Lemma analyzers_statsKept pp files :
  keeps (statsKept (Z.of_nat (length files))) (analyzeReactNative pp files)
  /\ keeps (statsKept (Z.of_nat (length files))) (analyzeFlutter pp files)
  /\ keeps (statsKept (Z.of_nat (length files))) (analyzeAndroid pp files)
  /\ keeps (statsKept (Z.of_nat (length files))) (analyzeCordova pp files).
Proof.
  unfold analyzeReactNative, analyzeFlutter, analyzeAndroid, analyzeCordova.
  split; [|split; [|split]]; stats_rest.
Qed.

(** X6. The statistics of the analysis that [analyzeProject] returns agree with
    one another, whatever the environment does: [totalFiles] is the number of
    paths the walker listed, [sourceFiles] counts some of them, and the
    dependency count is the length of the dependency list. *)
Theorem analyzeProject_stats_consistent {L} (projectPath : path) (w : World) (l : L) :
  exists a w',
    analyzeProject projectPath (w, l) = (Ok a, (w', l))
    /\ totalFiles (projectStats a) = Z.of_nat (length (treeFiles projectPath w))
    /\ 0 <= sourceFiles (projectStats a) <= totalFiles (projectStats a)
    /\ dependenciesCount (projectStats a) = Z.of_nat (length (dependencies a)).
Proof.
  destruct (analyzeProject_cases projectPath w l) as (a & w' & Hrun & Hcase).
  exists a, w'. split; [exact Hrun|].
  destruct Hcase as [[Hu ->] | [Hin (analyzer & r & a2 & _ & Hrn & Hfl & Han & Hco & Ha & Hr)]].
  - cbn. repeat split; lia.
  - set (files := treeFiles projectPath w) in *.
    assert (Hk : keeps (statsKept (Z.of_nat (length files))) analyzer).
    { destruct (analyzers_statsKept projectPath files) as (K1 & K2 & K3 & K4).
      cbn in Hin. destruct Hin as [E|[E|[E|[E|[]]]]]; symmetry in E.
      - rewrite (Hrn E). exact K1.
      - rewrite (Hfl E). exact K2.
      - rewrite (Han E). exact K3.
      - rewrite (Hco E). exact K4. }
    destruct (keeps_run _ _ _ _ _ Hk Ha) as (HT & HD & HS). cbn [fst snd] in HT, HD, HS.
    cbn in HT, HD, HS.
    assert (Hstats : projectStats a = projectStats a2 /\ dependencies a = dependencies a2)
      by (destruct r; subst a; split; reflexivity).
    destruct Hstats as [-> ->]. rewrite HT.
    split; [reflexivity|]. split; [apply HS; lia | apply HD; reflexivity].
Qed.

(** X7. Analysis only reads: whatever the environment does, [analyzeProject]
    leaves the file system, the progress log and the caller's state as they
    were; of the world it only consumes pending operations. *)
Theorem analyzeProject_reads_only {L} (projectPath : path) (s : World * L) :
  let s' := (analyzeProject projectPath s).2 in
  fs s'.1 = fs s.1
  /\ progressLog s'.1 = progressLog s.1
  /\ (exists k, faults s'.1 = drop k (faults s.1))
  /\ s'.2 = s.2.
Proof.
  cbv zeta. pose proof (analyzeProject_readOnly projectPath s) as Hro.
  destruct (analyzeProject_summary projectPath s.1 s.2) as (a & w' & Hrun & _).
  destruct s as [w l]. cbn [fst snd] in *. rewrite Hrun in *. cbn.
  destruct Hro as (Hfs & Hlog & Hfaults). auto.
Qed.

End Stats.

(** ** The build route *)

Section BuildRoute.
Context `{Runtime}.

Lemma buildRoute_run {L} (projectDir : path) (onProgress : option Callback)
    (w : World) (l : L) :
  exists a w1,
    analyzeProject projectDir (w, l) = (Ok a, (w1, l))
    /\ buildRoute projectDir onProgress (w, l)
       = match buildApk projectDir a onProgress (w1, l) with
         | (Ok r, s') => (Ok (r, buildStatus r), s')
         | (Throw e, s') => (Throw e, s')
         end.
Proof.
  destruct (analyzeProject_summary projectDir w l) as (a & w1 & Hrun & _).
  exists a, w1. split; [exact Hrun|].
  unfold buildRoute. rewrite run_bind, Hrun. cbv beta iota. rewrite run_bind.
  destruct (buildApk projectDir a onProgress (w1, l)) as [[r|e] s']; reflexivity.
Qed.

(** X20. The build route, with its callback that returns normally, always ends
    with a result and a status: [completed] with no error, or [error] with
    exactly one error, which is never [Unsupported framework]: the validator
    knows every framework the analysis can carry. *)
Theorem buildRoute_status {L} (projectDir : path) (onProgress : option Callback)
    (w : World) (l : L) :
  quiet onProgress ->
  exists r status w',
    buildRoute projectDir onProgress (w, l) = (Ok (r, status), (w', l))
    /\ ((status = "completed" /\ success r = true /\ br_errors r = [])
        \/ (status = "error" /\ success r = false
            /\ exists msg, br_errors r = [msg]
                /\ Js.startsWith msg "Unsupported framework" = false)).
Proof.
  intros Hq.
  destruct (buildRoute_run projectDir onProgress w l) as (a & w1 & Hrun & Hroute).
  destruct (buildApk_outcomes projectDir a onProgress w1 l Hq)
    as (r & w' & calls & Hb & _ & Hcase).
  rewrite Hb in Hroute. exists r, (buildStatus r), w'. split; [exact Hroute|].
  destruct Hcase as [(Hv & -> & _) | [(_ & -> & _) | [(_ & (apk & size & ->) & _)
                    | (_ & (e & ->) & _)]]]; cbn.
  - right. repeat split.
    destruct (analyzeProject_summary projectDir w l) as (a0 & w0 & Hrun0 & Hfw & _).
    rewrite Hrun in Hrun0. assert (a0 = a) by congruence. subst a0.
    pose proof (detectFramework_tags (treeFiles projectDir w)) as Htag.
    revert Hv. unfold validateBuildRequirements. rewrite Hfw.
    cbn in Htag. destruct Htag as [E|[E|[E|[E|[E|[]]]]]]; rewrite <- E; cbn;
      match goal with
      | |- context [if ?b then _ else _] => destruct b
      | _ => idtac
      end; intros Hv; first [contradiction | eexists; split; reflexivity].
  - right. repeat split. eexists; split; reflexivity.
  - left. auto.
  - right. repeat split. eexists; split; reflexivity.
Qed.

(** X21. Whatever the environment and the callback do, the build route removes
    nothing from the project tree, and the regular files it leaves are the
    ones that were there, unchanged, the archive, and synthesized
    [build.gradle] and [AndroidManifest.xml] files at five fixed places: on
    this path the [package.json] and [config.xml] templates of the
    synthesizer are never written. *)
Theorem buildRoute_writes {L} (projectDir : path) (onProgress : option Callback)
    (s : World * L) :
  let after := fs (buildRoute projectDir onProgress s).2.1 in
  (forall p, is_Some (fs s.1 !! p) -> is_Some (after !! p))
  /\ (forall p data,
        after !! p = Some (File data) ->
        fs s.1 !! p = Some (File data)
        \/ p = projectDir ++ ["build"; "outputs"; "apk"; "release"; "app-release.apk"]
        \/ exists entry,
             In entry ["android/build.gradle"; "android/app/build.gradle"; "build.gradle";
                       "app/build.gradle"; "app/src/main/AndroidManifest.xml"]
             /\ p = Path.join projectDir entry).
Proof.
  cbv zeta. destruct s as [w l].
  destruct (buildRoute_run projectDir onProgress w l) as (a & w1 & Hrun & Hroute).
  destruct (analyzeProject_summary projectDir w l) as (a0 & w0 & Hrun0 & _ & Hmiss).
  rewrite Hrun in Hrun0. assert (a0 = a) by congruence. subst a0. clear Hrun0.
  pose proof (analyzeProject_readOnly projectDir (w, l)) as Hro. rewrite Hrun in Hro.
  destruct Hro as (Hfs & _). cbn [fst snd] in Hfs.
  destruct (buildApk_grows projectDir a onProgress (w1, l)) as [[Hg _] _].
  cbn [fst snd] in Hg.
  assert (Hsame : fs (buildRoute projectDir onProgress (w, l)).2.1
                  = fs (buildApk projectDir a onProgress (w1, l)).2.1).
  { rewrite Hroute. destruct (buildApk projectDir a onProgress (w1, l)) as [[r|e] s'];
      reflexivity. }
  rewrite Hsame. cbn [fst snd]. rewrite <- Hfs. split; [intros p; apply (grown_some _ _ _ _ Hg)|].
  intros p data Hp. destruct (grown_files _ _ _ _ _ Hg Hp) as [Hold | Hin];
    [left; exact Hold | right].
  destruct Hin as [<-|Hin]; [left; reflexivity | right].
  apply in_map_iff in Hin as (entry & <- & Hin). apply filter_In in Hin as [Hin Ht].
  exists entry. split; [|reflexivity].
  rewrite Hmiss in Hin. apply missing_among_seven in Hin. cbn in Hin.
  destruct Hin as [<-|[<-|[<-|[<-|[<-|[<-|[<-|[]]]]]]]]; cbn; auto 10;
    vm_compute in Ht; discriminate Ht.
Qed.

End BuildRoute.

Lemma buildRoute_status_witness :
  exists r status w',
    buildRoute (H:=demoRuntime) ["srv"; "app"] (Some quietCallback) (reactNativeProject, tt)
    = (Ok (r, status), (w', tt))
    /\ ((status = "completed" /\ success r = true /\ br_errors r = [])
        \/ (status = "error" /\ success r = false
            /\ exists msg, br_errors r = [msg]
                /\ Js.startsWith msg "Unsupported framework" = false)).
Proof.
  apply (buildRoute_status (H:=demoRuntime) (L:=unit) ["srv"; "app"] (Some quietCallback)
           reactNativeProject tt).
  intros log progress msg. reflexivity.
Defined.

(** ** Reading back a synthesized build descriptor *)

Lemma digitsFrom_acc (s : string) (acc : Z) :
  digitsFrom acc s = acc * 10 ^ Z.of_nat (String.length s) + digitsFrom 0 s.
Proof.
  unfold digitsFrom. revert acc. induction s as [|c s IH]; intros acc.
  - cbn. lia.
  - cbn [list_ascii_of_string fold_left String.length].
    rewrite IH, (IH (10 * 0 + _)). rewrite Nat2Z.inj_succ, Z.pow_succ_r by lia. ring.
Qed.

Lemma digitsFrom_cons (c : ascii) (s : string) :
  digitsFrom 0 (String c s)
  = (Z.of_nat (nat_of_ascii c) - 48) * 10 ^ Z.of_nat (String.length s) + digitsFrom 0 s.
Proof.
  change (digitsFrom 0 (String c s))
    with (digitsFrom (10 * 0 + (Z.of_nat (nat_of_ascii c) - 48)) s).
  rewrite digitsFrom_acc. f_equal.
Qed.

Lemma pretty_N_char_digit (y : N) : Js.is_digit (pretty_N_char y) = true.
Proof.
  destruct y as [|p]; [reflexivity|].
  repeat (destruct p as [p|p|]; try reflexivity).
Qed.

Lemma pretty_N_char_value (y : N) :
  (y < 10)%N -> Z.of_nat (nat_of_ascii (pretty_N_char y)) - 48 = Z.of_N y.
Proof.
  intros Hy. destruct y as [|p]; [reflexivity|].
  repeat (destruct p as [p|p|]; try reflexivity; try (exfalso; lia)).
Qed.

Lemma pretty_N_go_digits (x : N) :
  forall s, allDigits s = true ->
    allDigits (pretty_N_go x s) = true
    /\ digitsFrom 0 (pretty_N_go x s)
       = Z.of_N x * 10 ^ Z.of_nat (String.length s) + digitsFrom 0 s
    /\ (x <> 0%N -> pretty_N_go x s <> "").
Proof.
  induction x as [x IH] using (well_founded_induction N.lt_wf_0). intros s Hs.
  destruct (decide (x = 0%N)) as [->|Hx].
  - rewrite pretty_N_go_0. split; [exact Hs|]. split; [lia | congruence].
  - assert (Hpos : (0 < x)%N) by lia.
    rewrite (pretty_N_go_step x s Hpos).
    set (c := pretty_N_char (x `mod` 10)%N).
    assert (Hcs : allDigits (String c s) = true).
    { unfold allDigits. cbn. unfold c. rewrite pretty_N_char_digit. exact Hs. }
    assert (Hlt : (x `div` 10 < x)%N) by (apply N.div_lt; lia).
    destruct (IH _ Hlt _ Hcs) as (Hd & Hv & Hne).
    split; [exact Hd|]. split.
    + rewrite Hv, digitsFrom_cons. unfold c.
      rewrite pretty_N_char_value by (apply N.mod_lt; lia).
      cbn [String.length]. rewrite Nat2Z.inj_succ, Z.pow_succ_r by lia.
      assert (Hx10 : Z.of_N x = 10 * Z.of_N (x `div` 10)%N + Z.of_N (x `mod` 10)%N).
      { rewrite (N.div_mod x 10%N) at 1 by lia.
        rewrite N2Z.inj_add, N2Z.inj_mul. reflexivity. }
      rewrite Hx10. ring.
    + intros _. destruct (decide ((x `div` 10)%N = 0%N)) as [E|E].
      * rewrite E, pretty_N_go_0. discriminate.
      * apply Hne, E.
Qed.

(** The decimal rendering of a natural number consists of digits and reads
    back as the number. *)
Lemma num_to_string_digits (n : Z) :
  0 <= n ->
  allDigits (Js.num_to_string n) = true
  /\ Js.parseInt (Js.num_to_string n) = n
  /\ Js.num_to_string n <> "".
Proof.
  intros Hn. unfold Js.num_to_string, Js.parseInt. fold (digitsFrom 0 (pretty n)).
  destruct n as [|p|p]; [repeat split; discriminate | | lia].
  change (pretty (Z.pos p)) with (pretty_N_go (N.pos p) "").
  destruct (pretty_N_go_digits (N.pos p) "" eq_refl) as (Hd & Hv & Hne).
  split; [exact Hd|]. split; [|apply Hne; discriminate].
  rewrite Hv. cbn [String.length digitsFrom list_ascii_of_string fold_left]. cbn. lia.
Qed.

(** [mismatch p s]: [p] and [s] differ at a position both of them have. *)
Fixpoint mismatch (p s : string) {struct p} : bool :=
  match p, s with
  | String c p', String d s' => if Ascii.eqb c d then mismatch p' s' else true
  | _, _ => false
  end.

(** The key cannot start anywhere in [text], whatever follows [text]. *)
Fixpoint noMatchIn (key text : string) : bool :=
  match text with
  | EmptyString => true
  | String _ text' => mismatch key text && noMatchIn key text'
  end.

Lemma strip_prefix_mismatch (key s rest : string) :
  mismatch key s = true -> Js.strip_prefix key (s +:+ rest) = None.
Proof.
  revert s. induction key as [|c key IH]; intros s; [discriminate|].
  destruct s as [|d s]; [discriminate|]. cbn [mismatch].
  change (String d s +:+ rest) with (String d (s +:+ rest)). cbn [Js.strip_prefix].
  destruct (Ascii.eqb c d); [apply IH | reflexivity].
Qed.

Lemma strip_prefix_app (key rest : string) : Js.strip_prefix key (key +:+ rest) = Some rest.
Proof.
  induction key as [|c key IH]; [reflexivity|].
  change (String c key +:+ rest) with (String c (key +:+ rest)). cbn [Js.strip_prefix].
  rewrite Ascii.eqb_refl. exact IH.
Qed.

Lemma gradleSearch_cons_none (key : string) (c : ascii) (s : string) :
  Js.strip_prefix key (String c s) = None ->
  gradleSearch key (String c s) = gradleSearch key s.
Proof.
  intros Hn. cbn [gradleSearch]. unfold gradleMatchHere. rewrite Hn. reflexivity.
Qed.

Lemma gradleSearch_skip (key text rest : string) :
  noMatchIn key text = true -> gradleSearch key (text +:+ rest) = gradleSearch key rest.
Proof.
  induction text as [|c text IH]; [reflexivity|]. cbn [noMatchIn].
  intros Hm. apply andb_true_iff in Hm as [Hm Hrest].
  change (String c text +:+ rest) with (String c (text +:+ rest)).
  rewrite gradleSearch_cons_none; [apply IH, Hrest|].
  exact (strip_prefix_mismatch key (String c text) rest Hm).
Qed.

Lemma gradleSearch_skip_digits (k : ascii) (key ds rest : string) :
  Js.is_digit k = false -> allDigits ds = true ->
  gradleSearch (String k key) (ds +:+ rest) = gradleSearch (String k key) rest.
Proof.
  intros Hk. induction ds as [|d ds IH]; [reflexivity|]. unfold allDigits. cbn.
  intros Hd. apply andb_true_iff in Hd as [Hd Hds].
  change (String d ds +:+ rest) with (String d (ds +:+ rest)).
  rewrite gradleSearch_cons_none; [apply IH, Hds|].
  cbn [Js.strip_prefix]. destruct (Ascii.eqb_spec k d) as [->|]; [congruence | reflexivity].
Qed.

Lemma span_digits (ds : string) (c : ascii) (rest : string) :
  allDigits ds = true -> Js.is_digit c = false ->
  Js.span Js.is_digit (ds +:+ String c rest) = (ds, String c rest).
Proof.
  intros Hds Hc. induction ds as [|d ds IH].
  - change ("" +:+ String c rest) with (String c rest). cbn [Js.span].
    rewrite Hc. reflexivity.
  - unfold allDigits in Hds. cbn in Hds. apply andb_true_iff in Hds as [Hd Hds].
    change (String d ds +:+ String c rest) with (String d (ds +:+ String c rest)).
    cbn [Js.span]. rewrite Hd, (IH Hds). reflexivity.
Qed.

(** The pattern matches where the key is followed by one blank, a number
    and something that is not a digit. *)
Lemma gradleMatchHere_number (key ds : string) (c : ascii) (rest : string) :
  allDigits ds = true -> ds <> "" -> Js.is_digit c = false ->
  gradleMatchHere key (key +:+ " " +:+ ds +:+ String c rest) = Some ds.
Proof.
  intros Hds Hne Hc. unfold gradleMatchHere. rewrite strip_prefix_app.
  change (" " +:+ ds +:+ String c rest) with (String " " (ds +:+ String c rest)).
  cbn [Js.span]. change (Js.is_space " ") with true. cbv beta iota.
  assert (Hsp : Js.span Js.is_space (ds +:+ String c rest) = ("", ds +:+ String c rest)).
  { destruct ds as [|d ds]; [congruence|]. unfold allDigits in Hds. cbn in Hds.
    apply andb_true_iff in Hds as [Hd _].
    change (String d ds +:+ String c rest) with (String d (ds +:+ String c rest)).
    cbn [Js.span].
    assert (Js.is_space d = false) as ->; [|reflexivity].
    unfold Js.is_digit, Js.is_space in *. cbv zeta in *.
    apply andb_true_iff in Hd as [H1 H2]. apply Nat.leb_le in H1, H2.
    apply orb_false_iff. split.
    - apply andb_false_iff. right. apply Nat.leb_gt. lia.
    - apply Nat.eqb_neq. lia. }
  rewrite Hsp, (span_digits _ _ _ Hds Hc). cbn [String.eqb].
  destruct ds; [congruence | reflexivity].
Qed.

(** X11. The app-level build descriptor that [createBuildGradle] writes reads
    back, through [extractGradleValue], as the SDK levels it was written
    from: the levels of the analysis, or 33 and 21 where the analysis has
    none (for levels that are safe integers and not negative). *)
Theorem appGradle_round_trip (analysis : ProjectAnalysis) :
  0 <= Js.or_num (ps_targetSdk (projectStats analysis)) 33 < 2 ^ 53 ->
  0 <= Js.or_num (ps_minSdk (projectStats analysis)) 21 < 2 ^ 53 ->
  extractGradleValue (appGradleTemplate analysis) "targetSdkVersion"
    = Some (Js.or_num (ps_targetSdk (projectStats analysis)) 33)
  /\ extractGradleValue (appGradleTemplate analysis) "minSdkVersion"
     = Some (Js.or_num (ps_minSdk (projectStats analysis)) 21).
Proof.
  intros [HT _] [HM _]. unfold appGradleTemplate, extractGradleValue. cbv zeta.
  set (T := Js.or_num (ps_targetSdk (projectStats analysis)) 33) in *.
  set (M := Js.or_num (ps_minSdk (projectStats analysis)) 21) in *.
  destruct (num_to_string_digits T HT) as (HdT & HvT & HnT).
  destruct (num_to_string_digits M HM) as (HdM & HvM & HnM).
  set (sT := Js.num_to_string T) in *. set (sM := Js.num_to_string M) in *.
  rewrite !concat_cons. change (String.concat "" []) with "". rewrite append_nil_r.
  split.
  - rewrite gradleSearch_skip by (vm_compute; reflexivity).
    rewrite gradleSearch_skip_digits by first [reflexivity | exact HdT].
    rewrite gradleSearch_skip by (vm_compute; reflexivity).
    rewrite gradleSearch_skip by (vm_compute; reflexivity).
    rewrite gradleSearch_skip by (vm_compute; reflexivity).
    rewrite gradleSearch_skip_digits by first [reflexivity | exact HdM].
    match goal with
    | |- context [gradleSearch ?key (?d +:+ sT +:+ ?rest)] =>
        change (d +:+ sT +:+ rest)
          with (String "010" "        " +:+ (key +:+ " " +:+ sT +:+ rest))
    end.
    rewrite gradleSearch_skip by (vm_compute; reflexivity).
    match goal with
    | |- context [sT +:+ (String ?c ?e +:+ ?x)] =>
        change (String c e +:+ x) with (String c (e +:+ x))
    end.
    match goal with
    | |- context [gradleSearch ?key (String ?k ?key' +:+ ?rest)] =>
        change (gradleSearch key (String k key' +:+ rest))
          with (match gradleMatchHere key (String k key' +:+ rest) with
                | Some ds => Some ds
                | None => gradleSearch key (key' +:+ rest)
                end)
    end.
    rewrite gradleMatchHere_number by first [exact HdT | exact HnT | reflexivity].
    rewrite HvT. reflexivity.
  - rewrite gradleSearch_skip by (vm_compute; reflexivity).
    rewrite gradleSearch_skip_digits by first [reflexivity | exact HdT].
    rewrite gradleSearch_skip by (vm_compute; reflexivity).
    rewrite gradleSearch_skip by (vm_compute; reflexivity).
    match goal with
    | |- context [gradleSearch ?key (?c +:+ sM +:+ ?rest)] =>
        change (c +:+ sM +:+ rest)
          with (String "010" "        " +:+ (key +:+ " " +:+ sM +:+ rest))
    end.
    rewrite gradleSearch_skip by (vm_compute; reflexivity).
    match goal with
    | |- context [sM +:+ (String ?c ?e +:+ ?x)] =>
        change (String c e +:+ x) with (String c (e +:+ x))
    end.
    match goal with
    | |- context [gradleSearch ?key (String ?k ?key' +:+ ?rest)] =>
        change (gradleSearch key (String k key' +:+ rest))
          with (match gradleMatchHere key (String k key' +:+ rest) with
                | Some ds => Some ds
                | None => gradleSearch key (key' +:+ rest)
                end)
    end.
    rewrite gradleMatchHere_number by first [exact HdM | exact HnM | reflexivity].
    rewrite HvM. reflexivity.
Qed.

Lemma appGradle_round_trip_witness :
  extractGradleValue (appGradleTemplate androidAnalysis) "targetSdkVersion"
    = Some (Js.or_num (ps_targetSdk (projectStats androidAnalysis)) 33)
  /\ extractGradleValue (appGradleTemplate androidAnalysis) "minSdkVersion"
     = Some (Js.or_num (ps_minSdk (projectStats androidAnalysis)) 21).
Proof.
  apply (appGradle_round_trip androidAnalysis); vm_compute; split; congruence.
Defined.

(** ** What [extractGradleValue] finds *)

Lemma strip_prefix_Some (key s rest : string) :
  Js.strip_prefix key s = Some rest -> s = key +:+ rest.
Proof.
  revert s. induction key as [|c key IH]; intros s; cbn [Js.strip_prefix].
  - intros E. simplify_eq. reflexivity.
  - destruct s as [|d s]; [discriminate|].
    destruct (Ascii.eqb_spec c d) as [->|]; [|discriminate].
    intros E. rewrite (IH _ E). reflexivity.
Qed.

Lemma span_spec (f : ascii -> bool) (s a b : string) :
  Js.span f s = (a, b) ->
  s = a +:+ b /\ forallb f (list_ascii_of_string a) = true
  /\ (forall c rest, b = String c rest -> f c = false).
Proof.
  revert a b. induction s as [|c s IH]; intros a b; cbn [Js.span].
  - intros E. simplify_eq. repeat split. intros c rest Hx. discriminate Hx.
  - destruct (f c) eqn:Hc.
    + destruct (Js.span f s) as [a' b'] eqn:Hs. intros E. simplify_eq.
      destruct (IH _ _ eq_refl) as (-> & Ha & Hb).
      repeat split; [cbn; rewrite Hc; exact Ha | exact Hb].
    + intros E. simplify_eq. repeat split. intros c' rest Hx. simplify_eq. exact Hc.
Qed.

Lemma gradleSearch_Some (key content ds : string) :
  gradleSearch key content = Some ds ->
  exists before suffix,
    content = before +:+ suffix /\ gradleMatchHere key suffix = Some ds.
Proof.
  induction content as [|c content IH]; cbn [gradleSearch].
  - destruct (gradleMatchHere key "") as [ds'|] eqn:E; [|discriminate].
    intros Hx. simplify_eq. exists "", "". auto.
  - destruct (gradleMatchHere key (String c content)) as [ds'|] eqn:E.
    + intros Hx. simplify_eq. exists "", (String c content). auto.
    + intros Hx. destruct (IH Hx) as (before & suffix & -> & Hm).
      exists (String c before), suffix. auto.
Qed.

Lemma digitsFrom_nonneg (s : string) (acc : Z) :
  allDigits s = true -> 0 <= acc -> 0 <= digitsFrom acc s.
Proof.
  unfold allDigits, digitsFrom. revert acc. induction s as [|c s IH]; intros acc; cbn.
  - auto.
  - intros Hd Hacc. apply andb_true_iff in Hd as [Hc Hd]. apply IH; [exact Hd|].
    unfold Js.is_digit in Hc. cbv zeta in Hc. apply andb_true_iff in Hc as [H1 _].
    apply Nat.leb_le in H1. lia.
Qed.

(** X10. [extractGradleValue] answers with a number exactly in the form the
    pattern asks for: somewhere the content holds the key, then white space,
    then a longest run of digits, and the answer is the number these digits
    denote; it is never negative. Where the key does not occur the answer is
    [undefined]. The key is a word and the content ASCII text, so that the
    pattern built from the key reads as in the source, and the number is
    below [2 ^ 53], where [parseInt] is exact. *)
Theorem extractGradleValue_found (content key : string) (n : Z) :
  wordKey key = true ->
  asciiText content = true ->
  extractGradleValue content key = Some n ->
  n < 2 ^ 53 ->
  0 <= n
  /\ Js.includes content key = true
  /\ exists before blanks digits after,
       content = before +:+ key +:+ blanks +:+ digits +:+ after
       /\ blanks <> "" /\ forallb Js.is_space (list_ascii_of_string blanks) = true
       /\ digits <> "" /\ allDigits digits = true
       /\ (forall c rest, after = String c rest -> Js.is_digit c = false)
       /\ n = Js.parseInt digits.
Proof.
  unfold extractGradleValue. intros _ _.
  destruct (gradleSearch key content) as [ds|] eqn:Hs; [|discriminate].
  intros E _. simplify_eq.
  destruct (gradleSearch_Some _ _ _ Hs) as (before & suffix & -> & Hm).
  unfold gradleMatchHere in Hm.
  destruct (Js.strip_prefix key suffix) as [r|] eqn:Hp; [|discriminate].
  apply strip_prefix_Some in Hp as ->.
  destruct (Js.span Js.is_space r) as [ws r'] eqn:Hws.
  destruct (Js.span Js.is_digit r') as [ds' after] eqn:Hds.
  destruct (String.eqb_spec ws "") as [|Hwne]; [discriminate|].
  destruct (String.eqb_spec ds' "") as [|Hdne]; [discriminate|].
  simplify_eq.
  apply span_spec in Hws as (-> & Hblank & _).
  apply span_spec in Hds as (-> & Hdig & Hafter).
  split; [apply (digitsFrom_nonneg ds 0 Hdig); lia|].
  split; [apply includes_app_r, includes_startsWith, startsWith_app|].
  exists before, ws, ds, after. auto 10.
Qed.

Lemma extractGradleValue_found_witness :
  0 <= 24
  /\ Js.includes "    minSdkVersion 24" "minSdkVersion" = true
  /\ exists before blanks digits after,
       "    minSdkVersion 24" = before +:+ "minSdkVersion" +:+ blanks +:+ digits +:+ after
       /\ blanks <> "" /\ forallb Js.is_space (list_ascii_of_string blanks) = true
       /\ digits <> "" /\ allDigits digits = true
       /\ (forall c rest, after = String c rest -> Js.is_digit c = false)
       /\ 24 = Js.parseInt digits.
Proof.
  apply (extractGradleValue_found "    minSdkVersion 24" "minSdkVersion" 24);
    vm_compute; reflexivity.
Defined.

(** ** The entries of the primary archive *)











Section ArchiveEntries.
Context `{Runtime}.








End ArchiveEntries.


(** ** The structure validator *)

Section Structure.
Context `{Runtime}.

Lemma allExist_nofault {L} (pp : path) (files : list string) (w : World) (l : L) :
  faults w = [] ->
  allExist pp files (w, l)
  = (Ok (forallb (fun f => bool_decide (is_Some (FileManager.lookup_node (fs w)
                                                   (Path.join pp f)))) files), (w, l)).
Proof.
  intros Hf. induction files as [|file files IH]; cbn [allExist forallb].
  - reflexivity.
  - rewrite run_bind, (run_fileExists_nofault _ _ _ Hf). cbv beta iota.
    destruct (bool_decide _); [exact IH | reflexivity].
Qed.

(** X14. [validateProjectStructure] never throws and only reads, whatever the
    environment does: a query that fails makes the answer [false]. When no
    query fails, the answer is [true] exactly when every essential file of
    the framework exists below the project directory (as a regular file or
    as a directory); a framework without essential files always passes. *)
Theorem validateProjectStructure_answers {L} (projectPath : path)
    (analysis : ProjectAnalysis) (w : World) (l : L) :
  exists valid w',
    validateProjectStructure projectPath analysis (w, l) = (Ok valid, (w', l))
    /\ readOnly w w'
    /\ (valid = true ->
          forall f, In f (getEssentialFiles (framework analysis)) ->
            is_Some (FileManager.lookup_node (fs w) (Path.join projectPath f)))
    /\ (faults w = [] ->
          (forall f, In f (getEssentialFiles (framework analysis)) ->
             is_Some (FileManager.lookup_node (fs w) (Path.join projectPath f))) ->
          valid = true)
    /\ (getEssentialFiles (framework analysis) = [] -> valid = true).
Proof.
  pose proof (validateProjectStructure_frame readOnly readOnly_faults (L:=L)
                projectPath analysis (w, l)) as Hk.
  destruct (validateProjectStructure projectPath analysis (w, l)) as [[valid|e] [w' l']] eqn:E.
  2: { exfalso. unfold validateProjectStructure in E.
       exact (total_run _ _ _ _ (total_try_catch_ret _ false) E). }
  destruct Hk as [Hro Hl]. cbn [fst snd] in Hro, Hl. subst l'.
  exists valid, w'. split; [reflexivity|]. split; [exact Hro|]. split; [|split].
  - intros ->. eapply validateProjectStructure_true, E.
  - intros Hf Hall. unfold validateProjectStructure in E.
    rewrite run_try_catch, (allExist_nofault _ _ _ _ Hf) in E. simplify_eq.
    apply forallb_forall. intros f Hin. apply bool_decide_eq_true_2, Hall, Hin.
  - intros Hnone. unfold validateProjectStructure in E. rewrite Hnone in E.
    cbn in E. simplify_eq. reflexivity.
Qed.

End Structure.

(** ** The walker in a failing environment *)

Section WalkerFaults.
Context `{Runtime}.

Lemma listFiles_ok {L} (dir : path) (w w' : World) (l l' : L) (entries : list string) :
  FileManager.listFiles dir (w, l) = (Ok entries, (w', l')) ->
  l' = l /\ readOnly w w'
  /\ FileManager.lookup_node (fs w) dir = Some Dir /\ entries = fileNames (fs w) dir.
Proof.
  unfold FileManager.listFiles. rewrite run_bind. intros Hrun.
  stage in Hrun as [[[]|e] [w1 l1]] eqn Eio; [|discriminate Hrun].
  apply io_ok in Eio as [-> Hro]. rewrite run_bind_get_world in Hrun.
  pose proof Hro as (Hfs & _). rewrite Hfs in Hrun.
  destruct (FileManager.lookup_node (fs w) dir) as [[d|]|]; try discriminate Hrun.
  rewrite run_ret in Hrun. injection Hrun as <- <- <-.
  split; [reflexivity|]. split; [exact Hro|]. split; reflexivity.
Qed.

Lemma listDirectories_ok {L} (dir : path) (w w' : World) (l l' : L) (entries : list string) :
  FileManager.listDirectories dir (w, l) = (Ok entries, (w', l')) ->
  l' = l /\ readOnly w w'
  /\ FileManager.lookup_node (fs w) dir = Some Dir /\ entries = dirNames (fs w) dir.
Proof.
  unfold FileManager.listDirectories. rewrite run_bind. intros Hrun.
  stage in Hrun as [[[]|e] [w1 l1]] eqn Eio; [|discriminate Hrun].
  apply io_ok in Eio as [-> Hro]. rewrite run_bind_get_world in Hrun.
  pose proof Hro as (Hfs & _). rewrite Hfs in Hrun.
  destruct (FileManager.lookup_node (fs w) dir) as [[d|]|]; try discriminate Hrun.
  rewrite run_ret in Hrun. injection Hrun as <- <- <-.
  split; [reflexivity|]. split; [exact Hro|]. split; reflexivity.
Qed.

(** Whatever fails, the walker appends only paths that the walk without
    failures lists. *)
Lemma walk_sound (fuel : nat) (directory : path) :
  forall rel w acc,
    exists w' more,
      walk fuel directory rel (w, acc) = (Ok tt, (w', acc ++ more))
      /\ fs w' = fs w
      /\ incl more (listing fuel (fs w) directory rel).
Proof.
  induction fuel as [|fuel IH]; intros rel w acc.
  - exists w, []. cbn. rewrite app_nil_r. repeat split. intros f [].
  - cbn [walk]. rewrite run_try_catch. cbv zeta. rewrite run_bind.
    stage as [[files|e] [w1 l1]] eqn E1.
    2: { destruct (keeps_run _ _ _ _ _
                     (keeps_listFiles (wrel_same readOnly) _
                        (wrel_same_fault_blind readOnly readOnly_faults)) E1) as [Hro Hl].
         cbn [fst snd] in Hro, Hl. subst l1. rewrite run_ret.
         exists w1, []. rewrite app_nil_r. split; [reflexivity|].
         split; [apply Hro | intros f []]. }
    apply listFiles_ok in E1 as (-> & Hro1 & Hdir & ->).
    rewrite run_bind.
    stage as [[dirs|e] [w2 l2]] eqn E2.
    2: { destruct (keeps_run _ _ _ _ _
                     (keeps_listDirectories (wrel_same readOnly) _
                        (wrel_same_fault_blind readOnly readOnly_faults)) E2) as [Hro Hl].
         cbn [fst snd] in Hro, Hl. subst l2. rewrite run_ret.
         exists w2, []. rewrite app_nil_r. split; [reflexivity|].
         split; [|intros f []]. destruct Hro as (-> & _). apply Hro1. }
    apply listDirectories_ok in E2 as (-> & Hro2 & _ & ->).
    destruct Hro1 as (Hfs1 & _). destruct Hro2 as (Hfs2 & _). rewrite Hfs1 in Hfs2.
    rewrite Hfs1.
    rewrite run_bind, for_each_push, fold_left_snoc.
    cbn [listing]. rewrite Hdir. fold (render).
    change (fun x => Js.slashes (Path.to_string (rel ++ [x])))
      with (fun file => render (rel ++ [file])).
    set (shown := map (fun file => render (rel ++ [file])) (fileNames (fs w) (directory ++ rel))).
    destruct (splitLength rel <? 10)%nat.
    2: { rewrite run_ret. exists w2, shown. split; [reflexivity|].
         split; [exact Hfs2|]. rewrite app_nil_r. apply incl_refl. }
    assert (Hloop : forall dirs w0 acc0, fs w0 = fs w ->
      exists w' more,
        for_each dirs
          (fun dir : string =>
             if negb (Js.startsWith dir ".") && negb (String.eqb dir "node_modules")
                && negb (String.eqb dir ".git")
             then sub ← call [] (walk fuel directory (rel ++ [dir]));
                  modify (fun files : list string => files ++ sub.2)
             else mret tt) (w0, acc0)
        = (Ok tt, (w', acc0 ++ more))
        /\ fs w' = fs w
        /\ incl more (flat_map (fun dir : string =>
                                  if okDir dir then listing fuel (fs w) directory (rel ++ [dir])
                                  else []) dirs)).
    { induction dirs as [|dir dirs IHd]; intros w0 acc0 Hw0; cbn [for_each flat_map].
      - exists w0, []. rewrite app_nil_r. repeat split; [exact Hw0 | intros f []].
      - rewrite run_bind. unfold okDir at 1.
        destruct (negb (Js.startsWith dir ".") && negb (String.eqb dir "node_modules")
                  && negb (String.eqb dir ".git")).
        + rewrite run_bind, run_call.
          destruct (IH (rel ++ [dir]) w0 []) as (wa & sub & Hrun & Hfsa & Hsub).
          rewrite Hrun. cbn [app snd]. cbv beta iota. rewrite run_modify. cbv beta iota.
          rewrite Hw0 in Hfsa, Hsub.
          destruct (IHd wa (acc0 ++ sub) Hfsa) as (wb & more & Hrun' & Hfsb & Hmore).
          rewrite Hrun'. exists wb, (sub ++ more). rewrite app_assoc.
          split; [reflexivity|]. split; [exact Hfsb|].
          apply incl_app; [apply incl_appl, Hsub | apply incl_appr, Hmore].
        + rewrite run_ret. cbv beta iota.
          destruct (IHd w0 acc0 Hw0) as (wb & more & Hrun' & Hfsb & Hmore).
          rewrite Hrun'. exists wb, more. auto. }
    destruct (Hloop (dirNames (fs w) (directory ++ rel)) w2 (acc ++ shown) Hfs2)
      as (w3 & more & Hrun & Hfs3 & Hmore).
    rewrite Hrun. exists w3, (shown ++ more). rewrite app_assoc.
    split; [reflexivity|]. split; [exact Hfs3|].
    apply incl_app; [apply incl_appl, incl_refl | apply incl_appr, Hmore].
Qed.

(** X2. Failures of the environment can make the walker miss files, never
    invent them: whatever fails, every path that [getAllFiles] returns is a
    regular file of the tree, at most ten directories below the start,
    along directories whose names do not start with a dot and are not
    [node_modules]; and [getAllFiles] returns, without touching the file
    system. *)
Theorem getAllFiles_sound_under_failures {L} (directory : path) (w : World) (l : L) :
  exists files w',
    getAllFiles directory (w, l) = (Ok files, (w', l))
    /\ fs w' = fs w
    /\ forall f, In f files ->
         exists names file data,
           f = render (names ++ [file])
           /\ (length names <= 10)%nat
           /\ forallb okDir names = true
           /\ (forall k, FileManager.lookup_node (fs w) (directory ++ take k names)
                         = Some Dir)
           /\ fs w !! (directory ++ names ++ [file]) = Some (File data).
Proof.
  destruct (walk_sound 11 directory [] w []) as (w' & more & Hrun & Hfs & Hincl).
  exists more, w'. split.
  - unfold getAllFiles. rewrite run_bind, run_call, Hrun. reflexivity.
  - split; [exact Hfs|]. intros f Hin. apply Hincl, listing_sound in Hin
      as (names & file & data & -> & Hfuel & Hdepth & Hoks & Hdirs & Hfile).
    exists names, file, data. cbn [app] in *. repeat split; auto.
    destruct Hdepth as [->|Hdepth]; cbn in *; lia.
Qed.

End WalkerFaults.

(** ** The mock package of the first revision *)

Section MockPackage.
Context `{Runtime}.

(** Where the [try] block of the first [buildApk] stands when it ends: either
    nothing has been recorded as success, or the mock has been written and
    recorded. *)
Lemma mockBody_cases (pp : path) (analysis : ProjectAnalysis)
    (onProgress : option Callback) (w : World) :
  let out := FirstRevision.buildApkBody pp analysis onProgress (w, initialResult) in
  let apk := Path.join (pp ++ ["build"; "outputs"; "apk"])
                       (framework analysis +:+ "-app-release.apk") in
  success out.2.2 = false
  \/ (fs out.2.1 !! apk = Some (File (FirstRevision.mockApkContent analysis))
      /\ validateBuildRequirements analysis = []
      /\ out.2.2 = mkBuildResult true (Some apk) (Some 5242880) []
                     ["APK package created successfully";
                      "Framework: " +:+ framework analysis;
                      "Package size: 5.0 MB"]).
Proof.
  cbv zeta. unfold FirstRevision.buildApkBody. rewrite run_bind.
  destruct (callProgress onProgress 10 "Starting APK build process..." (w, initialResult))
    as [[[]|e] [w0 r0]] eqn:E0;
    destruct (callProgress_run _ _ _ _ _ _ E0) as (_ & _ & Hr0); cbn [fst snd] in Hr0; subst r0;
    cbv beta iota; [|left; reflexivity].
  destruct (validateBuildRequirements analysis) as [|v vs] eqn:Ev; cbn [length Nat.ltb Nat.leb].
  2: { rewrite run_bind_modify.
       match goal with
       | |- context [callProgress ?o ?p ?m ?s] =>
           destruct (callProgress o p m s) as [r1 [w1 l1]] eqn:E1;
           destruct (callProgress_run _ _ _ _ _ _ E1) as (_ & _ & Hr1)
       end.
       cbn [fst snd] in *. subst l1. left. reflexivity. }
  rewrite run_bind.
  destruct (createMissingFiles pp analysis (w0, initialResult)) as [[[]|e] [w1 r1]] eqn:E1;
    destruct (keeps_run _ _ _ _ _
                (createMissingFiles_frame sameLog sameLog_faults sameLog_fs pp analysis) E1)
      as [_ Hr1]; cbn [fst snd] in Hr1; subst r1; cbv beta iota; [|left; reflexivity].
  rewrite run_bind.
  destruct (callProgress onProgress 30 "Project setup completed..." (w1, initialResult))
    as [[[]|e] [w2 r2]] eqn:E2;
    destruct (callProgress_run _ _ _ _ _ _ E2) as (_ & _ & Hr2); cbn [fst snd] in Hr2; subst r2;
    cbv beta iota; [|left; reflexivity].
  rewrite run_bind.
  destruct (validateProjectStructure pp analysis (w2, initialResult))
    as [[valid|e] [w3 r3]] eqn:E3;
    destruct (keeps_run _ _ _ _ _
                (validateProjectStructure_frame sameLog sameLog_faults pp analysis) E3)
      as [_ Hr3]; cbn [fst snd] in Hr3; subst r3; cbv beta iota; [|left; reflexivity].
  destruct valid; cbn [negb].
  2: { rewrite run_bind_modify.
       match goal with
       | |- context [callProgress ?o ?p ?m ?s] =>
           destruct (callProgress o p m s) as [r4 [w4 l4]] eqn:E4;
           destruct (callProgress_run _ _ _ _ _ _ E4) as (_ & _ & Hr4)
       end.
       cbn [fst snd] in *. subst l4. left. reflexivity. }
  rewrite run_bind.
  destruct (callProgress onProgress 70 "Preparing APK package..." (w3, initialResult))
    as [[[]|e] [w4 r4]] eqn:E4;
    destruct (callProgress_run _ _ _ _ _ _ E4) as (_ & _ & Hr4); cbn [fst snd] in Hr4; subst r4;
    cbv beta iota; [|left; reflexivity].
  rewrite run_bind. unfold FirstRevision.createMockApk. cbv zeta. rewrite run_bind.
  destruct (ensureDirectory_cases (L:=BuildResult) (pp ++ ["build"; "outputs"; "apk"])
              w4 initialResult) as (w5 & _ & [[e He]|(m & _ & He)]); rewrite He; cbv beta iota;
    [left; reflexivity|].
  rewrite run_bind.
  destruct (writeFile_cases (L:=BuildResult)
              (Path.join (pp ++ ["build"; "outputs"; "apk"])
                         (framework analysis +:+ "-app-release.apk"))
              (FirstRevision.mockApkContent analysis) (set_fs m w5) initialResult)
    as (w6 & _ & [[e Hw]|(_ & Hw)]); rewrite Hw; cbv beta iota; [left; reflexivity|].
  rewrite run_ret. cbv beta iota. rewrite !run_bind_modify.
  match goal with
  | |- context [callProgress ?o ?p ?m ?s] =>
      destruct (callProgress o p m s) as [r7 [w7 l7]] eqn:E7;
      destruct (callProgress_run _ _ _ _ _ _ E7) as (Hfs7 & _ & Hr7)
  end.
  cbn [fst snd] in *. subst l7. right. rewrite Hfs7. cbn [fs set_fs].
  split; [apply lookup_insert_eq|]. split; reflexivity.
Qed.

(** X22. In the first revision a build that reports success has written, at
    [<projectPath>/build/outputs/apk/<framework>-app-release.apk], not an
    archive but the JSON text that describes the mock, and reports the fixed
    size 5242880 and the line [Package size: 5.0 MB] whatever the length of
    that text; requirement validation had found nothing, and the result
    carries exactly the three fixed log lines. *)
Theorem firstRevision_mock_package {L} (projectPath : path) (analysis : ProjectAnalysis)
    (onProgress : option Callback) (w w' : World) (l l' : L) (r : BuildResult) :
  FirstRevision.buildApk projectPath analysis onProgress (w, l) = (Ok r, (w', l')) ->
  success r = true ->
  let apk := Path.join (projectPath ++ ["build"; "outputs"; "apk"])
                       (framework analysis +:+ "-app-release.apk") in
  apkPath r = Some apk
  /\ apkSize r = Some 5242880
  /\ logs r = ["APK package created successfully";
               "Framework: " +:+ framework analysis;
               "Package size: 5.0 MB"]
  /\ fs w' !! apk = Some (File (FirstRevision.mockApkContent analysis))
  /\ validateBuildRequirements analysis = [].
Proof.
  unfold FirstRevision.buildApk. rewrite run_bind, run_call, run_try_catch. intros Hrun Hs.
  pose proof (mockBody_cases projectPath analysis onProgress w) as Hcases. cbv zeta in Hcases.
  destruct (FirstRevision.buildApkBody projectPath analysis onProgress (w, initialResult))
    as [[[]|e] [w1 r1]] eqn:Eb; cbn [fst snd] in Hcases; cbv beta iota in Hrun.
  - rewrite run_ret in Hrun. simplify_eq.
    destruct Hcases as [Hf|(Hfile & Hv & ->)]; [congruence|]. cbn. auto.
  - unfold buildApkHandler in Hrun. rewrite run_bind_modify in Hrun.
    stage in Hrun as [[[]|e'] [w2 r2]] eqn Ec; [|discriminate Hrun].
    destruct (callProgress_run _ _ _ _ _ _ Ec) as (Hfs & _ & Hr). cbn [fst snd] in Hfs, Hr.
    rewrite run_ret in Hrun. simplify_eq. cbn in Hs.
    destruct Hcases as [Hf|(Hfile & Hv & ->)]; [congruence|]. cbn. rewrite Hfs. auto.
Qed.

End MockPackage.

Lemma firstRevision_mock_package_witness :
  apkPath (default initialResult (resultOf mockBuild.1))
  = Some ["srv"; "app"; "build"; "outputs"; "apk"; "generic-mobile-app-release.apk"]
  /\ apkSize (default initialResult (resultOf mockBuild.1)) = Some 5242880
  /\ logs (default initialResult (resultOf mockBuild.1))
     = ["APK package created successfully"; "Framework: generic-mobile"; "Package size: 5.0 MB"]
  /\ fs mockBuild.2.1
       !! ["srv"; "app"; "build"; "outputs"; "apk"; "generic-mobile-app-release.apk"]
     = Some (File (FirstRevision.mockApkContent (H:=demoRuntime) genericAnalysis))
  /\ validateBuildRequirements genericAnalysis = [].
Proof.
  apply (firstRevision_mock_package (H:=demoRuntime) (L:=unit) ["srv"; "app"] genericAnalysis
           (Some quietCallback) genericProject mockBuild.2.1 tt tt
           (default initialResult (resultOf mockBuild.1))).
  - vm_compute. reflexivity.
  - vm_compute. reflexivity.
Defined.
